(** * Reddit Mastermind: the generation-and-refinement pipeline

    A shallow embedding of [backend/reddit_mastermind.py]: the data
    models, the five agent functions, the conditional edge
    [should_refine_plan], the LangGraph workflow built by
    [build_workflow] and the entry point [generate_reddit_calendar].

    Conventions of the embedding.
    - Python [int] is [Z]; a validated [float] score is a rational [Q]
      (the only float operations of the program are the comparisons
      [>= 7.5] and [> 0.5], which are exact on finite floats; pydantic's
      [ge=0, le=10] rejects NaN and the infinities).
    - The state dictionary of the workflow has a fixed set of keys; it is
      a record whose optional keys are [option] fields, [None] standing
      for an absent key, so that [state['k']] on an absent key raises
      [KeyError k].
    - Exceptions are values of [exn]; a computation that may raise
      returns a [result].
    - The language model is outside the program.  Its answers for one run
      are a [Generation]: one answer per call site (superstep of the
      graph for the plan-level calls, plan item and commenter index for
      the content calls).  [None] is a call that raised, or whose JSON
      did not have the shape the call site reads, both of which the
      program handles in the same [except Exception] clause.
    - [datetime] is a library: the program is generic in a
      [DateTimeLib] instance. *)

From Stdlib Require Import ZArith QArith Ascii.
From stdpp Require Import base option list strings gmap pretty sorting.

Close Scope Q_scope.
Open Scope Z_scope.

(** ** Exceptions and results *)

Inductive exn : Type :=
| KeyError (key : string)
| IndexError
| ValueError
| OverflowError
| GenerationError
| GraphRecursionError.

Inductive result (A : Type) : Type :=
| Raised (e : exn)
| Returned (a : A).
Arguments Raised {A} e.
Arguments Returned {A} a.

Definition rbind {A B} (m : result A) (k : A → result B) : result B :=
  match m with
  | Raised e => Raised e
  | Returned a => k a
  end.

Notation "'let!' x ':=' m 'in' k" := (rbind m (λ x, k))
  (at level 10, x name, m at level 100, k at level 200).

(** [d[k]] on a dictionary entry that may be absent. *)
Definition subscript {A} (key : string) (v : option A) : result A :=
  match v with
  | Some a => Returned a
  | None => Raised (KeyError key)
  end.

(** ** Data models *)

Module Persona.
Record t : Type := mk {
  username : string;
  name : string;
  background : string;
  style : string;
  expertise : string;
  quirks : list string;
  posting_patterns : string
}.
End Persona.

Module RedditPost.
Record t : Type := mk {
  post_id : string;
  subreddit : string;
  title : string;
  body : string;
  author_username : string;
  timestamp : string;
  keyword_ids : list string
}.
End RedditPost.

Module RedditComment.
Record t : Type := mk {
  comment_id : string;
  post_id : string;
  parent_comment_id : option string;
  comment_text : string;
  username : string;
  timestamp : string;
  delay_minutes : Z
}.
End RedditComment.

Module PostPlan.
Record t : Type := mk {
  subreddit : string;
  target_keyword : string;
  primary_persona : string;
  commenting_personas : list string;
  post_angle : string;
  engagement_strategy : string;
  scheduled_date : string;
  scheduled_time : string
}.
End PostPlan.

Module QualityScore.
Record t : Type := mk {
  naturalness : Q;
  authenticity : Q;
  engagement_potential : Q;
  subtlety : Q;
  overall_score : Q;
  issues : list string;
  suggestions : list string
}.

(** [Field(ge=0, le=10)] *)
Definition in_range (x : Q) : bool := Qle_bool 0 x && Qle_bool x 10.

(** The constructor call on the parsed result: the five bounded fields
    are validated. *)
Definition validate (raw : t) : option t :=
  if in_range (naturalness raw) && in_range (authenticity raw)
     && in_range (engagement_potential raw) && in_range (subtlety raw)
     && in_range (overall_score raw)
  then Some raw else None.

(** The score built at the end of [content_generator_agent]. *)
Definition placeholder : t := mk 0 0 0 0 0 [] [].
End QualityScore.

Module WeekPlan.
Record t : Type := mk {
  week_number : Z;
  start_date : string;
  posts : list PostPlan.t;
  quality_score : option Q
}.
End WeekPlan.

Module GeneratedContent.
Record t : Type := mk {
  posts : list RedditPost.t;
  comments : list RedditComment.t;
  quality_assessment : QualityScore.t
}.

(** [content.quality_assessment = quality] *)
Definition set_quality_assessment (q : QualityScore.t) (c : t) : t :=
  mk (posts c) (comments c) q.
End GeneratedContent.

(** ** The workflow state *)

Module RedditState.
Record t : Type := mk {
  company_info : string;
  personas : list Persona.t;
  subreddits : list string;
  target_queries : list string;
  posts_per_week : Z;
  week_number : Z;
  strategic_plan : option WeekPlan.t;
  plan_critique : option string;
  generated_content : option GeneratedContent.t;
  content_critique : option string;
  quality_score : option QualityScore.t;
  refinement_iteration : Z;
  max_iterations : Z;
  final_content : option GeneratedContent.t
}.

(** [{**state, "key": v}] for each key the agents write. *)
Definition set_strategic_plan (v : WeekPlan.t) (s : t) : t :=
  mk (company_info s) (personas s) (subreddits s) (target_queries s)
     (posts_per_week s) (week_number s) (Some v) (plan_critique s)
     (generated_content s) (content_critique s) (quality_score s)
     (refinement_iteration s) (max_iterations s) (final_content s).
Definition set_plan_critique (v : string) (s : t) : t :=
  mk (company_info s) (personas s) (subreddits s) (target_queries s)
     (posts_per_week s) (week_number s) (strategic_plan s) (Some v)
     (generated_content s) (content_critique s) (quality_score s)
     (refinement_iteration s) (max_iterations s) (final_content s).
Definition set_generated_content (v : GeneratedContent.t) (s : t) : t :=
  mk (company_info s) (personas s) (subreddits s) (target_queries s)
     (posts_per_week s) (week_number s) (strategic_plan s) (plan_critique s)
     (Some v) (content_critique s) (quality_score s)
     (refinement_iteration s) (max_iterations s) (final_content s).
Definition set_content_critique (v : string) (s : t) : t :=
  mk (company_info s) (personas s) (subreddits s) (target_queries s)
     (posts_per_week s) (week_number s) (strategic_plan s) (plan_critique s)
     (generated_content s) (Some v) (quality_score s)
     (refinement_iteration s) (max_iterations s) (final_content s).
Definition set_quality_score (v : QualityScore.t) (s : t) : t :=
  mk (company_info s) (personas s) (subreddits s) (target_queries s)
     (posts_per_week s) (week_number s) (strategic_plan s) (plan_critique s)
     (generated_content s) (content_critique s) (Some v)
     (refinement_iteration s) (max_iterations s) (final_content s).
Definition set_refinement_iteration (v : Z) (s : t) : t :=
  mk (company_info s) (personas s) (subreddits s) (target_queries s)
     (posts_per_week s) (week_number s) (strategic_plan s) (plan_critique s)
     (generated_content s) (content_critique s) (quality_score s)
     v (max_iterations s) (final_content s).
Definition set_final_content (v : GeneratedContent.t) (s : t) : t :=
  mk (company_info s) (personas s) (subreddits s) (target_queries s)
     (posts_per_week s) (week_number s) (strategic_plan s) (plan_critique s)
     (generated_content s) (content_critique s) (quality_score s)
     (refinement_iteration s) (max_iterations s) (Some v).
End RedditState.

(** ** The outcomes of the library calls

    The agents call the language model and the prompt library; what
    these calls return is given to a run from outside.  Building the
    client ([get_llm]) and the templates of the constant prompts is
    taken to succeed. *)

(** What a critic call site reads from the parsed JSON: the score fields
    and [json.dumps(result)]. *)
Record CriticResult : Type := {
  score_fields : QualityScore.t;
  result_json : string
}.

(** [post_result['title']], [post_result['body']]. *)
Record PostResult : Type := {
  result_title : string;
  result_body : string
}.

(** [comment_result['comment_text']], and [delay_minutes] when the key is
    present. *)
Record CommentResult : Type := {
  result_comment_text : string;
  result_delay_minutes : option Z
}.

Record Generation : Type := {
  (** the [WeekPlan] built from [chain.invoke] by the node run at a
      superstep *)
  plan_at : nat → option WeekPlan.t;
  (** [chain.invoke(...)] of a critic node run at a superstep *)
  critique_at : nat → option CriticResult;
  (** [post_chain.invoke(...)] for plan item [i] *)
  post_at : nat → option PostResult;
  (** [comment_chain.invoke(...)] for commenter [j] of plan item [i] *)
  comment_at : nat → nat → option CommentResult;
  (** [random.random()] drawn for commenter [j] of plan item [i] *)
  random_at : nat → nat → Q;
  (** [ChatPromptTemplate.from_template(refine_prompt)], the prompt
      being the text built from the issues and suggestions of the score
      and from the plan: the input variables of the template read from
      that text, or [None] when the text does not parse as a template
      ([ValueError]) *)
  refine_template : QualityScore.t → WeekPlan.t → option (list string)
}.

(** ** Plan-level agents *)

Definition planner_agent (reply : option WeekPlan.t) (state : RedditState.t)
  : result RedditState.t :=
  match reply with
  | Some week_plan => Returned (RedditState.set_strategic_plan week_plan state)
  | None =>
      (* except Exception: return {**state}; the raise below it is dead *)
      Returned state
  end.

Definition plan_critic_agent (reply : option CriticResult) (state : RedditState.t)
  : result RedditState.t :=
  let! _plan := subscript "strategic_plan" (RedditState.strategic_plan state) in
  match reply with
  | Some r =>
      match QualityScore.validate (score_fields r) with
      | Some quality =>
          Returned (RedditState.set_plan_critique (result_json r)
                      (RedditState.set_quality_score quality state))
      | None => Returned state
      end
  | None => Returned state
  end.

(** The nodes of the graph.  [should_refine_plan] answers with the name
    of the node to run next. *)
Inductive Node : Type :=
| planner | plan_critic | refine_plan | generate_content | final_critic | END.

#[export] Instance Node_eq_dec : EqDecision Node.
Proof. solve_decision. Defined.

Definition should_refine_plan (state : RedditState.t) : result Node :=
  let! quality := subscript "quality_score" (RedditState.quality_score state) in
  if Qle_bool 7.5 (QualityScore.overall_score quality) then
    Returned generate_content
  else if RedditState.max_iterations state <=? RedditState.refinement_iteration state then
    Returned generate_content
  else
    Returned refine_plan.

(** [chain.invoke({})] on a chain whose prompt has the given input
    variables: the prompt raises [KeyError] for a variable the empty
    input does not supply, before the model is called. *)
Definition invoke_without_input {A} (input_variables : list string)
    (reply : option A) : option A :=
  match input_variables with
  | [] => reply
  | _ :: _ => None
  end.

(** The prompt text and its template are built before the [try] block:
    a missing key or a text that does not parse ends the node with the
    exception, the counter untouched.  Inside the [try] block every
    failure adds one to the counter and keeps the plan. *)
Definition refine_plan_agent
    (from_template : QualityScore.t → WeekPlan.t → option (list string))
    (reply : option WeekPlan.t) (state : RedditState.t)
  : result RedditState.t :=
  let! quality := subscript "quality_score" (RedditState.quality_score state) in
  let! plan := subscript "strategic_plan" (RedditState.strategic_plan state) in
  match from_template quality plan with
  | None => Raised ValueError
  | Some input_variables =>
      match invoke_without_input input_variables reply with
      | Some week_plan =>
          Returned (RedditState.set_refinement_iteration
                      (RedditState.refinement_iteration state + 1)
                      (RedditState.set_strategic_plan week_plan state))
      | None =>
          Returned (RedditState.set_refinement_iteration
                      (RedditState.refinement_iteration state + 1) state)
      end
  end.


(** ** The datetime library *)

Class DateTimeLib : Type := {
  datetime : Type;
  (** [datetime.strptime(s, "%Y-%m-%d %H:%M")]; [None] is [ValueError] *)
  strptime : string → option datetime;
  (** [dt.strftime("%Y-%m-%d %H:%M")] *)
  strftime : datetime → string;
  (** [dt + timedelta(minutes=n)]; [None] is [OverflowError] *)
  add_minutes : datetime → Z → option datetime
}.

(** ** The local lists of [content_generator_agent]

    [posts] and [comments] are mutated in place inside nested [try]
    blocks: what was appended before an exception stays appended.  The
    body of the agent therefore runs in a state-and-exception monad over
    the two lists. *)

Module Locals.
Record t : Type := mk {
  posts : list RedditPost.t;
  comments : list RedditComment.t
}.
Definition empty : t := mk [] [].
End Locals.

Definition Gen (A : Type) : Type := Locals.t → result A * Locals.t.

Definition gret {A} (a : A) : Gen A := λ l, (Returned a, l).

Definition gbind {A B} (m : Gen A) (k : A → Gen B) : Gen B :=
  λ l, match m l with
       | (Raised e, l') => (Raised e, l')
       | (Returned a, l') => k a l'
       end.

Notation "'let*' x ':=' m 'in' k" := (gbind m (λ x, k))
  (at level 10, x name, m at level 100, k at level 200).

Definition lift {A} (r : result A) : Gen A := λ l, (r, l).

Definition get_comments : Gen (list RedditComment.t) :=
  λ l, (Returned (Locals.comments l), l).

(** [posts.append(post)] *)
Definition append_post (post : RedditPost.t) : Gen unit :=
  λ l, (Returned (), Locals.mk (Locals.posts l ++ [post]) (Locals.comments l)).

(** [comments.append(comment)] *)
Definition append_comment (comment : RedditComment.t) : Gen unit :=
  λ l, (Returned (), Locals.mk (Locals.posts l) (Locals.comments l ++ [comment])).

(** [try: m  except Exception as e: handler e] *)
Definition try_except {A} (m : Gen A) (handler : exn → Gen A) : Gen A :=
  λ l, match m l with
       | (Raised e, l') => handler e l'
       | (Returned a, l') => (Returned a, l')
       end.

(** [for i, x in enumerate(xs): body i x], counting from [start]. *)
Fixpoint for_enumerate {A} (body : nat → A → Gen unit) (start : nat) (xs : list A)
  : Gen unit :=
  match xs with
  | [] => gret ()
  | x :: xs' => let* _u := body start x in for_enumerate body (S start) xs'
  end.

(** A generation call whose answer is what the call site needs, or an
    exception. *)
Definition invoke {A} (reply : option A) : result A :=
  match reply with
  | Some a => Returned a
  | None => Raised GenerationError
  end.

(** [{p.username: p for p in state['personas']}]: a later persona with
    the same username replaces an earlier one. *)
Definition make_personas_dict (personas : list Persona.t) : gmap string Persona.t :=
  foldl (λ d p, <[Persona.username p := p]> d) ∅ personas.

(** The parent of commenter [j]'s comment: the last comment already made
    on this post when there is one, [j > 0], and the draw exceeds 0.5. *)
Definition choose_parent (draw : Q) (j : nat) (post : RedditPost.t)
    (comments : list RedditComment.t) : result (option RedditComment.t) :=
  let previous_comments :=
    filter (λ c, RedditComment.post_id c = RedditPost.post_id post) comments in
  if bool_decide (0 < j)%nat && bool_decide (0 < length comments)%nat then
    if bool_decide (0 < length previous_comments)%nat then
      if negb (Qle_bool draw 0.5) then
        match last previous_comments with
        | Some parent => Returned (Some parent)
        | None => Raised IndexError
        end
      else Returned None
    else Returned None
  else Returned None.

Section ContentGeneration.
Context `{DateTimeLib}.

Definition parse_post_time (post_plan : PostPlan.t) : result datetime :=
  match strptime (PostPlan.scheduled_date post_plan +:+ " "
                  +:+ PostPlan.scheduled_time post_plan) with
  | Some t => Returned t
  | None => Raised ValueError
  end.

Definition timedelta_add (t : datetime) (minutes : Z) : result datetime :=
  match add_minutes t minutes with
  | Some t' => Returned t'
  | None => Raised OverflowError
  end.

(** Body of [for j, commenter_username in enumerate(...)]. *)
Definition comment_loop_body (g : Generation) (personas_dict : gmap string Persona.t)
    (i : nat) (post_plan : PostPlan.t) (post : RedditPost.t) (post_time : datetime)
    (j : nat) (commenter_username : string) : Gen unit :=
  let* commenter :=
    lift (subscript commenter_username (personas_dict !! commenter_username)) in
  let* comments := get_comments in
  let* parent := lift (choose_parent (random_at g i j) j post comments) in
  try_except
    (let* comment_result := lift (invoke (comment_at g i j)) in
     let delay := default 30 (result_delay_minutes comment_result) in
     let* comment_time := lift (timedelta_add post_time delay) in
     let* comments := get_comments in
     append_comment
       (RedditComment.mk
          ("C" +:+ pretty (length comments + 1)%nat)
          (RedditPost.post_id post)
          (RedditComment.comment_id <$> parent)
          (result_comment_text comment_result)
          (Persona.username commenter)
          (strftime comment_time)
          delay))
    (λ _, gret ()).

(** Body of [for i, post_plan in enumerate(plan.posts)]. *)
Definition post_loop_body (g : Generation) (personas_dict : gmap string Persona.t)
    (i : nat) (post_plan : PostPlan.t) : Gen unit :=
  let* primary_persona :=
    lift (subscript (PostPlan.primary_persona post_plan)
            (personas_dict !! PostPlan.primary_persona post_plan)) in
  try_except
    (let* post_result := lift (invoke (post_at g i)) in
     let* post_time := lift (parse_post_time post_plan) in
     let post :=
       RedditPost.mk
         ("P" +:+ pretty (i + 1)%nat)
         (PostPlan.subreddit post_plan)
         (result_title post_result)
         (result_body post_result)
         (Persona.username primary_persona)
         (strftime post_time)
         [PostPlan.target_keyword post_plan] in
     let* _u := append_post post in
     for_enumerate (comment_loop_body g personas_dict i post_plan post post_time)
       0 (PostPlan.commenting_personas post_plan))
    (λ _, gret ()).

Definition content_generator_agent (g : Generation) (state : RedditState.t)
  : result RedditState.t :=
  let! plan := subscript "strategic_plan" (RedditState.strategic_plan state) in
  let personas_dict := make_personas_dict (RedditState.personas state) in
  match for_enumerate (post_loop_body g personas_dict) 0 (WeekPlan.posts plan)
          Locals.empty with
  | (Raised e, _) => Raised e
  | (Returned _, l) =>
      Returned (RedditState.set_generated_content
                  (GeneratedContent.mk (Locals.posts l) (Locals.comments l)
                     QualityScore.placeholder)
                  state)
  end.

(** On success the content object is mutated in place; it is the object
    that [generated_content] holds too, so both keys see the new score. *)
Definition final_critic_agent (reply : option CriticResult) (state : RedditState.t)
  : result RedditState.t :=
  let! content := subscript "generated_content" (RedditState.generated_content state) in
  match reply with
  | Some r =>
      match QualityScore.validate (score_fields r) with
      | Some quality =>
          let content' := GeneratedContent.set_quality_assessment quality content in
          Returned (RedditState.set_content_critique (result_json r)
                      (RedditState.set_final_content content'
                         (RedditState.set_generated_content content' state)))
      | None => Returned (RedditState.set_final_content content state)
      end
  | None => Returned (RedditState.set_final_content content state)
  end.

(** ** The workflow graph *)

(** The function attached to each node by [add_node]; [step] is the
    superstep at which the node runs. *)
Definition run_node (g : Generation) (step : nat) (node : Node)
    (state : RedditState.t) : result RedditState.t :=
  match node with
  | planner => planner_agent (plan_at g step) state
  | plan_critic => plan_critic_agent (critique_at g step) state
  | refine_plan => refine_plan_agent (refine_template g) (plan_at g step) state
  | generate_content => content_generator_agent g state
  | final_critic => final_critic_agent (critique_at g step) state
  | END => Returned state
  end.

(** The edges added by [add_edge] and [add_conditional_edges]. *)
Definition next_node (node : Node) (state : RedditState.t) : result Node :=
  match node with
  | planner => Returned plan_critic
  | plan_critic => should_refine_plan state
  | refine_plan => Returned plan_critic
  | generate_content => Returned final_critic
  | final_critic => Returned END
  | END => Returned END
  end.

(** Running the compiled graph from [node], at most [limit] supersteps.
    Besides the outcome, the run reports each node it completed together
    with the state that node returned. *)
Fixpoint run_from (g : Generation) (limit : nat) (step : nat) (node : Node)
    (state : RedditState.t) : list (Node * RedditState.t) * result RedditState.t :=
  match node with
  | END => ([], Returned state)
  | _ =>
      match limit with
      | O => ([], Raised GraphRecursionError)
      | S limit' =>
          match run_node g step node state with
          | Raised e => ([], Raised e)
          | Returned state' =>
              match next_node node state' with
              | Raised e => ([(node, state')], Raised e)
              | Returned node' =>
                  let (trace, r) := run_from g limit' (S step) node' state' in
                  ((node, state') :: trace, r)
              end
          end
      end
  end.

(** LangGraph's default [recursion_limit]. *)
Definition recursion_limit : nat := 25.

(** [app.invoke(initial_state)] with entry point [planner]. *)
Definition workflow_trace (g : Generation) (initial_state : RedditState.t)
  : list (Node * RedditState.t) * result RedditState.t :=
  run_from g recursion_limit 0 planner initial_state.

Definition workflow_invoke (g : Generation) (initial_state : RedditState.t)
  : result RedditState.t :=
  snd (workflow_trace g initial_state).

(** ** The entry point *)

Definition initial_state (company_info : string) (personas : list Persona.t)
    (subreddits target_queries : list string) (posts_per_week week_number : Z)
  : RedditState.t :=
  RedditState.mk company_info personas subreddits target_queries
    posts_per_week week_number None None None None None 0 2 None.

Definition generate_reddit_calendar (g : Generation) (company_info : string)
    (personas : list Persona.t) (subreddits target_queries : list string)
    (posts_per_week week_number : Z) : result GeneratedContent.t :=
  let! final_state :=
    workflow_invoke g
      (initial_state company_info personas subreddits target_queries
         posts_per_week week_number) in
  subscript "final_content" (RedditState.final_content final_state).

End ContentGeneration.

(** ** A reference datetime instance

    Dates of the proleptic Gregorian calendar at minute resolution, with
    the ordinal arithmetic of CPython's [datetime] module.  [strptime]
    reads what the pattern of the format reads: a year of four digits,
    month, day, hour and minute of one or two digits, a day that may
    be a space and a digit, and any run of white space between day and
    hour.  [strftime] pads every field but the year to two digits; the
    year is printed as the C library of Linux prints it, without
    padding.  The theorems below hold for every instance; this one runs
    the examples. *)

Module ReferenceDateTime.

Record t : Type := mk { year : Z; month : Z; day : Z; hour : Z; minute : Z }.

Definition is_leap (y : Z) : bool :=
  (y mod 4 =? 0) && (negb (y mod 100 =? 0) || (y mod 400 =? 0)).

Definition days_before_year (y : Z) : Z :=
  let p := y - 1 in p * 365 + p / 4 - p / 100 + p / 400.

Definition days_in_month (y m : Z) : Z :=
  if (m =? 2) && is_leap y then 29
  else nth (Z.to_nat m) [0; 31; 28; 31; 30; 31; 30; 31; 31; 30; 31; 30; 31] 0.

Definition days_before_month (y m : Z) : Z :=
  nth (Z.to_nat m) [0; 0; 31; 59; 90; 120; 151; 181; 212; 243; 273; 304; 334] 0
  + (if (2 <? m) && is_leap y then 1 else 0).

Definition ymd2ord (y m d : Z) : Z :=
  days_before_year y + days_before_month y m + d.

Definition ord2ymd (ordinal : Z) : Z * Z * Z :=
  let n := ordinal - 1 in
  let n400 := n / 146097 in
  let n := n mod 146097 in
  let n100 := n / 36524 in
  let n := n mod 36524 in
  let n4 := n / 1461 in
  let n := n mod 1461 in
  let n1 := n / 365 in
  let n := n mod 365 in
  let y := n400 * 400 + 1 + n100 * 100 + n4 * 4 + n1 in
  if (n1 =? 4) || (n100 =? 4) then (y - 1, 12, 31)
  else
    let leapyear := (n1 =? 3) && (negb (n4 =? 24) || (n100 =? 3)) in
    let m := Z.shiftr (n + 50) 5 in
    let preceding :=
      days_before_month 1 m + (if (2 <? m) && leapyear then 1 else 0) in
    if n <? preceding then
      let m' := m - 1 in
      let preceding' :=
        preceding - (days_in_month 1 m' + (if (m' =? 2) && leapyear then 1 else 0)) in
      (y, m', n - preceding' + 1)
    else (y, m, n - preceding + 1).

Definition max_ordinal : Z := 3652059.

Definition valid (dt : t) : bool :=
  (1 <=? year dt) && (year dt <=? 9999) && (1 <=? month dt) && (month dt <=? 12)
  && (1 <=? day dt) && (day dt <=? days_in_month (year dt) (month dt))
  && (0 <=? hour dt) && (hour dt <=? 23) && (0 <=? minute dt) && (minute dt <=? 59).

Definition digit (a : Ascii.ascii) : option Z :=
  let n := Z.of_N (Ascii.N_of_ascii a) in
  if (48 <=? n) && (n <=? 57) then Some (n - 48) else None.

Fixpoint digits (acc : Z) (l : list Ascii.ascii) : option Z :=
  match l with
  | [] => Some acc
  | a :: l' => d ← digit a; digits (acc * 10 + d) l'
  end.

(** [\s] on the characters below 128. *)
Definition whitespace (a : Ascii.ascii) : bool :=
  let n := Z.of_N (Ascii.N_of_ascii a) in
  ((9 <=? n) && (n <=? 13)) || ((28 <=? n) && (n <=? 32)).

(** A field of one or two digits, and what follows it. *)
Definition field (l : list Ascii.ascii) : option (Z * list Ascii.ascii) :=
  match l with
  | [] => None
  | a :: l' =>
      x ← digit a;
      match l' with
      | [] => Some (x, [])
      | b :: l'' =>
          match digit b with
          | Some y => Some (x * 10 + y, l'')
          | None => Some (x, l')
          end
      end
  end.

(** The day: a field, or a space and one digit. *)
Definition day_field (l : list Ascii.ascii) : option (Z * list Ascii.ascii) :=
  match l with
  | " "%char :: a :: l' => d ← digit a; Some (d, l')
  | _ => field l
  end.

(** What follows a separator. *)
Definition after (sep : Ascii.ascii) (l : list Ascii.ascii)
  : option (list Ascii.ascii) :=
  match l with
  | a :: l' => if bool_decide (a = sep) then Some l' else None
  | [] => None
  end.

Fixpoint skip_spaces (l : list Ascii.ascii) : list Ascii.ascii :=
  match l with
  | a :: l' => if whitespace a then skip_spaces l' else l
  | [] => []
  end.

(** What follows a run of at least one white space. *)
Definition after_spaces (l : list Ascii.ascii) : option (list Ascii.ascii) :=
  match l with
  | a :: l' => if whitespace a then Some (skip_spaces l') else None
  | [] => None
  end.

Definition parse (s : string) : option t :=
  match String.list_ascii_of_string s with
  | y1 :: y2 :: y3 :: y4 :: l =>
      y ← digits 0 [y1; y2; y3; y4];
      l ← after "-" l;
      '(m, l) ← field l;
      l ← after "-" l;
      '(d, l) ← day_field l;
      l ← after_spaces l;
      '(h, l) ← field l;
      l ← after ":" l;
      '(n, l) ← field l;
      match l with
      | [] => let dt := mk y m d h n in if valid dt then Some dt else None
      | _ :: _ => None
      end
  | _ => None
  end.

Definition pad (width : nat) (n : Z) : string :=
  let s := pretty n in
  String.string_of_list_ascii (replicate (width - String.length s) "0"%char) +:+ s.

Definition format (dt : t) : string :=
  pretty (year dt) +:+ "-" +:+ pad 2 (month dt) +:+ "-" +:+ pad 2 (day dt)
  +:+ " " +:+ pad 2 (hour dt) +:+ ":" +:+ pad 2 (minute dt).

Definition plus_minutes (dt : t) (n : Z) : option t :=
  let total :=
    (ymd2ord (year dt) (month dt) (day dt) * 24 + hour dt) * 60 + minute dt + n in
  let ordinal := total / 1440 in
  let rest := total mod 1440 in
  if (1 <=? ordinal) && (ordinal <=? max_ordinal) then
    let '(y, m, d) := ord2ymd ordinal in
    Some (mk y m d (rest / 60) (rest mod 60))
  else None.

Definition lib : DateTimeLib := {|
  datetime := t;
  strptime := parse;
  strftime := format;
  add_minutes := plus_minutes
|}.

End ReferenceDateTime.

(** ** Example data

    The three personas of the module's example usage, a three-item plan
    and a few scripted generations. *)

Module Demo.

Definition riley : Persona.t :=
  Persona.mk "riley_ops" "Riley Hart" "Head of operations at SaaS startup"
    "Professional but authentic" "Operations, presentations, board decks"
    ["Miro boards"; "morning runs"] "".
Definition jordan : Persona.t :=
  Persona.mk "jordan_consults" "Jordan Brooks" "Independent consultant"
    "Thoughtful, narrative-focused" "Strategy, storytelling" [] "".
Definition emily : Persona.t :=
  Persona.mk "emily_econ" "Emily Chen" "Economics major at state university"
    "Student, practical" "Academic presentations" [] "".

Definition personas : list Persona.t := [riley; jordan; emily].

Definition item1 : PostPlan.t :=
  PostPlan.mk "r/startups" "pitch deck help" "riley_ops"
    ["jordan_consults"; "emily_econ"] "board deck at midnight" "story then tips"
    "2024-01-01" "09:00".
Definition item2 : PostPlan.t :=
  PostPlan.mk "r/consulting" "presentation tools" "jordan_consults"
    ["riley_ops"; "emily_econ"] "client wants a deck by tomorrow" "agreement"
    "2024-01-03" "14:30".
Definition item3 : PostPlan.t :=
  PostPlan.mk "r/productivity" "slide design tips" "emily_econ"
    ["riley_ops"] "group project slides" "one reply"
    "2024-01-05" "23:45".

Definition plan : WeekPlan.t := WeekPlan.mk 1 "2024-01-01" [item1; item2; item3] None.

Definition score (overall : Q) : CriticResult :=
  {| score_fields := QualityScore.mk 8 8 7 7 overall ["uniform timing"] ["vary it"];
     result_json := "{}" |}.

Definition post_result : PostResult :=
  {| result_title := "a title"; result_body := "a body" |}.

Definition comment_result (delay : option Z) : CommentResult :=
  {| result_comment_text := "same here"; result_delay_minutes := delay |}.

(** The refinement prompt parses as a template with one input variable,
    read from the braces of the plan's JSON. *)
Definition parsed (quality : QualityScore.t) (plan : WeekPlan.t)
  : option (list string) :=
  Some ["week_number"].

(** Every call succeeds; every critic answers [overall]; every comment
    is threaded when it can be. *)
Definition steady (overall : Q) : Generation :=
  {| plan_at := λ _, Some plan;
     critique_at := λ _, Some (score overall);
     post_at := λ _, Some post_result;
     comment_at := λ _ j, Some (comment_result (Some (Z.of_nat (20 * (j + 1)))));
     random_at := λ _ _, 0.9%Q;
     refine_template := parsed |}.

Definition company : string := "Slideforge turns outlines into slide decks".
Definition subreddits : list string := ["r/startups"; "r/consulting"].
Definition queries : list string := ["pitch deck help"].

Definition state0 : RedditState.t :=
  initial_state company personas subreddits queries 3 1.

(** The state after planning [plan]. *)
Definition planned : RedditState.t := RedditState.set_strategic_plan plan state0.

(** The state after a plan critique scoring [overall]. *)
Definition critiqued (overall : Q) : RedditState.t :=
  RedditState.set_quality_score (score_fields (score overall)) planned.

(** The post call of the second item fails, and so does the call for
    the first commenter of the first item. *)
Definition faulty : Generation :=
  {| plan_at := λ _, Some plan;
     critique_at := λ _, Some (score 8);
     post_at := λ i, if decide (i = 1%nat) then None else Some post_result;
     comment_at := λ i j,
       if decide (i = 0%nat ∧ j = 0%nat) then None
       else Some (comment_result (Some 25));
     random_at := λ _ _, 0.2%Q;
     refine_template := parsed |}.

(** The comment calls answer a negative delay, then a delay of more
    than two months. *)
Definition erratic : Generation :=
  {| plan_at := λ _, Some plan;
     critique_at := λ _, Some (score 8);
     post_at := λ _, Some post_result;
     comment_at := λ _ j,
       Some (comment_result (Some (if decide (j = 0%nat) then -45 else 100000)));
     random_at := λ _ _, 0.2%Q;
     refine_template := parsed |}.

(** The refinement prompt does not parse as a template, as when an
    issue of the critique holds a closing brace. *)
Definition unparsed (quality : QualityScore.t) (plan : WeekPlan.t)
  : option (list string) :=
  None.

(** Every call succeeds and every critic answers 5, but the refinement
    prompt does not parse. *)
Definition template_down : Generation :=
  {| plan_at := λ _, Some plan;
     critique_at := λ _, Some (score 5);
     post_at := λ _, Some post_result;
     comment_at := λ _ _, Some (comment_result None);
     random_at := λ _ _, 0.2%Q;
     refine_template := unparsed |}.

(** The planner call fails. *)
Definition planner_down : Generation :=
  {| plan_at := λ _, None;
     critique_at := λ _, Some (score 8);
     post_at := λ _, Some post_result;
     comment_at := λ _ _, Some (comment_result None);
     random_at := λ _ _, 0.2%Q;
     refine_template := parsed |}.

(** The first plan critique fails. *)
Definition critic_down : Generation :=
  {| plan_at := λ _, Some plan;
     critique_at := λ _, None;
     post_at := λ _, Some post_result;
     comment_at := λ _ _, Some (comment_result None);
     random_at := λ _ _, 0.2%Q;
     refine_template := parsed |}.

(** The final critique (superstep 3) fails; the plan critique passes. *)
Definition final_critic_down : Generation :=
  {| plan_at := λ _, Some plan;
     critique_at := λ step, if decide (step = 3%nat) then None else Some (score 8);
     post_at := λ _, Some post_result;
     comment_at := λ _ _, Some (comment_result None);
     random_at := λ _ _, 0.2%Q;
     refine_template := parsed |}.

(** A plan whose only item names a primary persona outside the roster;
    the name happens to be that of a state key. *)
Definition odd_item : PostPlan.t :=
  PostPlan.mk "r/startups" "pitch deck help" "strategic_plan" ["riley_ops"]
    "an angle" "a strategy" "2024-01-01" "09:00".

Definition odd_plan : WeekPlan.t := WeekPlan.mk 1 "2024-01-01" [item1; odd_item] None.

Definition odd_persona : Generation :=
  {| plan_at := λ _, Some odd_plan;
     critique_at := λ _, Some (score 8);
     post_at := λ _, Some post_result;
     comment_at := λ _ _, Some (comment_result None);
     random_at := λ _ _, 0.2%Q;
     refine_template := parsed |}.

Definition odd_planned : RedditState.t :=
  RedditState.set_strategic_plan odd_plan state0.

(** The entry point on the example request. *)
Definition calendar `{DateTimeLib} (g : Generation) : result GeneratedContent.t :=
  generate_reddit_calendar g company personas subreddits queries 3 1.

(** What the content generator returns on [planned] when every call
    succeeds, and when the comment delays are erratic. *)
Definition steady_content : GeneratedContent.t :=
  Eval vm_compute in
    match @content_generator_agent ReferenceDateTime.lib (steady 8) planned with
    | Returned s => default (GeneratedContent.mk [] [] QualityScore.placeholder)
                      (RedditState.generated_content s)
    | Raised _ => GeneratedContent.mk [] [] QualityScore.placeholder
    end.

Definition steady_generated : RedditState.t :=
  RedditState.set_generated_content steady_content planned.

Definition erratic_content : GeneratedContent.t :=
  Eval vm_compute in
    match @content_generator_agent ReferenceDateTime.lib erratic planned with
    | Returned s => default (GeneratedContent.mk [] [] QualityScore.placeholder)
                      (RedditState.generated_content s)
    | Raised _ => GeneratedContent.mk [] [] QualityScore.placeholder
    end.

End Demo.


(** * The web layer ([backend/app.py])

    Further conventions.
    - A character of a [string] stands for one code point of a Python
      [str], so that [len] is [String.length].
    - A handler runs without interleaving (it never awaits), so it is a
      function of the two module-level stores; what it reads from the
      clock, the random source and the environment is an argument.
    - [jobs_db] is only read by key and is a finite map; [calendars_db]
      is also listed in insertion order and is an association list. *)

Inductive outcome (E A : Type) : Type :=
| Failure (e : E)
| Success (a : A).
Arguments Failure {E A} e.
Arguments Success {E A} a.

(** ** Field validators *)

(** The first [ValueError] message a loop over [v] raises, if any. *)
Fixpoint first_error (check : string → option string) (v : list string)
  : option string :=
  match v with
  | [] => None
  | x :: v' =>
      match check x with
      | Some message => Some message
      | None => first_error check v'
      end
  end.

(** [len(s) < low or len(s) > high] *)
Definition length_outside (low high : nat) (s : string) : bool :=
  (String.length s <? low)%nat || (high <? String.length s)%nat.

Definition check_quirk (quirk : string) : option string :=
  if length_outside 2 100 quirk then Some "Each quirk must be 2-100 characters"
  else None.

Definition validate_quirks (v : list string) : outcome string (list string) :=
  if (0 <? length v)%nat then
    match first_error check_quirk v with
    | Some message => Failure message
    | None => Success v
    end
  else Success v.

Definition check_subreddit (sub : string) : option string :=
  if negb (String.prefix "r/" sub) then
    Some ("Subreddit must start with r/ - got: " +:+ sub)
  else if length_outside 4 30 sub then
    Some ("Subreddit name invalid length: " +:+ sub)
  else None.

Definition validate_subreddits (v : list string) : outcome string (list string) :=
  match first_error check_subreddit v with
  | Some message => Failure message
  | None => Success v
  end.

Definition check_query (query : string) : option string :=
  if length_outside 2 100 query then
    Some ("Query must be 2-100 characters: " +:+ query)
  else None.

Definition validate_queries (v : list string) : outcome string (list string) :=
  match first_error check_query v with
  | Some message => Failure message
  | None => Success v
  end.

(** ** API models *)

Module PersonaCreate.
Record t : Type := mk {
  username : string;
  name : string;
  background : string;
  style : string;
  expertise : string;
  quirks : list string;
  posting_patterns : string
}.

(** The conversion to the internal model in
    [process_calendar_generation]. *)
Definition to_persona (p : t) : Persona.t :=
  Persona.mk (username p) (name p) (background p) (style p) (expertise p)
    (quirks p) (posting_patterns p).
End PersonaCreate.

Module CalendarRequest.
Record t : Type := mk {
  company_info : string;
  personas : list PersonaCreate.t;
  subreddits : list string;
  target_queries : list string;
  posts_per_week : Z;
  week_number : Z
}.
End CalendarRequest.

Module CalendarResponse.
Record t : Type := mk {
  calendar_id : string;
  week_number : Z;
  generated_at : string;
  posts : list RedditPost.t;
  comments : list RedditComment.t;
  quality_assessment : QualityScore.t;
  status : string
}.
End CalendarResponse.

Inductive JobStatus : Type := PENDING | PROCESSING | COMPLETED | FAILED.

Module JobResponse.
Record t : Type := mk {
  job_id : string;
  status : JobStatus;
  created_at : string;
  completed_at : option string;
  result : option CalendarResponse.t;
  error : option string
}.
End JobResponse.

Inductive HTTPError : Type :=
| HTTPException (status_code : Z) (detail : string).

(** ** The validation endpoints *)

Record PersonasReport : Type := {
  report_valid : bool;
  report_issues : list string;
  report_persona_count : nat
}.

(** Number of distinct strings: [len(set(xs))]. *)
Definition distinct (xs : list string) : nat :=
  size (list_to_set xs : gset string).

(** [validate_personas]; [lower] is [str.lower]. *)
Definition validate_personas (lower : string → string)
    (personas : list PersonaCreate.t) : PersonasReport :=
  let issues := [] in
  let usernames := PersonaCreate.username <$> personas in
  let issues :=
    if negb (length usernames =? distinct usernames)%nat
    then issues ++ ["Duplicate usernames detected"] else issues in
  let expertise_areas := (λ p, lower (PersonaCreate.expertise p)) <$> personas in
  let issues :=
    if negb (Qle_bool (inject_Z (Z.of_nat (length personas)) * 0.5)
               (inject_Z (Z.of_nat (distinct expertise_areas))))
    then issues ++ ["Personas lack diversity in expertise"] else issues in
  {| report_valid := (length issues =? 0)%nat;
     report_issues := issues;
     report_persona_count := length personas |}.

(** ** The two stores *)

(** A Python [dict] in insertion order. *)
Fixpoint dict_get {V} (k : string) (d : list (string * V)) : option V :=
  match d with
  | [] => None
  | (k', v) :: d' => if decide (k' = k) then Some v else dict_get k d'
  end.

(** [d[k] = v]: in place when the key is there, at the end otherwise. *)
Fixpoint dict_set {V} (k : string) (v : V) (d : list (string * V))
  : list (string * V) :=
  match d with
  | [] => [(k, v)]
  | (k', v') :: d' =>
      if decide (k' = k) then (k, v) :: d' else (k', v') :: dict_set k v d'
  end.

(** [del d[k]] *)
Definition dict_del {V} (k : string) (d : list (string * V)) : list (string * V) :=
  filter (λ kv, kv.1 ≠ k) d.

Module Store.
Record t : Type := mk {
  jobs_db : gmap string JobResponse.t;
  calendars_db : list (string * CalendarResponse.t)
}.
Definition empty : t := mk ∅ [].
End Store.

(** ** Listing *)

(** [l.sort(key=..., reverse=True)] on the strings [key x]: a stable
    sort in descending order, written as an insertion sort (a stable
    sort has one result). *)
Fixpoint insert_descending {A} (key : A → string) (x : A) (l : list A) : list A :=
  match l with
  | [] => [x]
  | y :: l' =>
      if String.leb (key y) (key x) then x :: y :: l'
      else y :: insert_descending key x l'
  end.

Definition sort_descending {A} (key : A → string) (l : list A) : list A :=
  foldr (insert_descending key) [] l.

(** The bound of a slice on a list of length [n], as Python adjusts it. *)
Definition slice_index (n x : Z) : Z :=
  if x <? 0 then Z.max (x + n) 0 else Z.min x n.

(** [l[start:stop]] *)
Definition py_slice {A} (l : list A) (start stop : Z) : list A :=
  let n := Z.of_nat (length l) in
  let lo := slice_index n start in
  let hi := slice_index n stop in
  take (Z.to_nat (hi - lo)) (drop (Z.to_nat lo) l).

(** ** Endpoints *)

(** [f"job_{stamp}_{token}"], [f"cal_{stamp}_{token}"]: [stamp] is the
    formatted clock, [token] the hex of four random bytes. *)
Definition fresh_id (kind stamp token : string) : string :=
  kind +:+ "_" +:+ stamp +:+ "_" +:+ token.

(** [generate_calendar]; [api_key] is [os.getenv("GROQ_API_KEY")].  The
    handler also schedules [process_calendar_generation] for the job. *)
Definition generate_calendar (api_key : option string)
    (stamp token created_at : string) (store : Store.t)
  : outcome HTTPError (JobResponse.t * Store.t) :=
  if match api_key with
     | None => true
     | Some key => String.eqb key ""
     end
  then Failure (HTTPException 500 "GROQ_API_KEY not configured on server")
  else
    let job_id := fresh_id "job" stamp token in
    let job := JobResponse.mk job_id PENDING created_at None None None in
    Success (job, Store.mk (<[job_id := job]> (Store.jobs_db store))
                    (Store.calendars_db store)).

Definition get_job_status (job_id : string) (store : Store.t)
  : outcome HTTPError JobResponse.t :=
  match Store.jobs_db store !! job_id with
  | None => Failure (HTTPException 404 "Job not found")
  | Some job => Success job
  end.

Definition get_calendar (calendar_id : string) (store : Store.t)
  : outcome HTTPError CalendarResponse.t :=
  match dict_get calendar_id (Store.calendars_db store) with
  | None => Failure (HTTPException 404 "Calendar not found")
  | Some calendar => Success calendar
  end.

Definition list_calendars (limit offset : Z) (store : Store.t)
  : list CalendarResponse.t :=
  let calendars := (Store.calendars_db store).*2 in
  let calendars := sort_descending CalendarResponse.generated_at calendars in
  py_slice calendars offset (offset + limit).

Definition generate_next_week (calendar_id : string) (store : Store.t)
  : outcome HTTPError JobResponse.t :=
  match dict_get calendar_id (Store.calendars_db store) with
  | None => Failure (HTTPException 404 "Calendar not found")
  | Some _ =>
      Failure (HTTPException 501
        "Next week generation requires original request data. Store requests in DB for production use.")
  end.

(** Returns the id it deleted, with the new store. *)
Definition delete_calendar (calendar_id : string) (store : Store.t)
  : outcome HTTPError (string * Store.t) :=
  match dict_get calendar_id (Store.calendars_db store) with
  | None => Failure (HTTPException 404 "Calendar not found")
  | Some _ =>
      Success (calendar_id,
               Store.mk (Store.jobs_db store)
                 (dict_del calendar_id (Store.calendars_db store)))
  end.

Section BackgroundTask.
Context `{DateTimeLib}.

(** [process_calendar_generation].  [str_of] is [str] on exceptions;
    [stamp], [token], [generated_at] and [completed_at] are what the
    task reads from the clock and the random source.  When the job is
    not in [jobs_db] the first statement of the [try] block raises
    [KeyError], and so does the first statement of the handler. *)
Definition process_calendar_generation (g : Generation) (str_of : exn → string)
    (job_id : string) (request : CalendarRequest.t)
    (stamp token generated_at completed_at : string) (store : Store.t)
  : result Store.t :=
  let! job := subscript job_id (Store.jobs_db store !! job_id) in
  let processing :=
    JobResponse.mk (JobResponse.job_id job) PROCESSING (JobResponse.created_at job)
      (JobResponse.completed_at job) (JobResponse.result job)
      (JobResponse.error job) in
  let personas := PersonaCreate.to_persona <$> CalendarRequest.personas request in
  match generate_reddit_calendar g (CalendarRequest.company_info request) personas
          (CalendarRequest.subreddits request)
          (CalendarRequest.target_queries request)
          (CalendarRequest.posts_per_week request)
          (CalendarRequest.week_number request) with
  | Returned content =>
      let calendar_id := fresh_id "cal" stamp token in
      let calendar_response :=
        CalendarResponse.mk calendar_id (CalendarRequest.week_number request)
          generated_at (GeneratedContent.posts content)
          (GeneratedContent.comments content)
          (GeneratedContent.quality_assessment content) "completed" in
      let completed :=
        JobResponse.mk (JobResponse.job_id processing) COMPLETED
          (JobResponse.created_at processing) (Some completed_at)
          (Some calendar_response) (JobResponse.error processing) in
      Returned (Store.mk (<[job_id := completed]> (Store.jobs_db store))
                  (dict_set calendar_id calendar_response
                     (Store.calendars_db store)))
  | Raised e =>
      let failed :=
        JobResponse.mk (JobResponse.job_id processing) FAILED
          (JobResponse.created_at processing) (Some completed_at)
          (JobResponse.result processing) (Some (str_of e)) in
      Returned (Store.mk (<[job_id := failed]> (Store.jobs_db store))
                  (Store.calendars_db store))
  end.

End BackgroundTask.

(** * Example data for the web layer *)

Module WebDemo.

Definition of_persona (p : Persona.t) : PersonaCreate.t :=
  PersonaCreate.mk (Persona.username p) (Persona.name p) (Persona.background p)
    (Persona.style p) (Persona.expertise p) (Persona.quirks p)
    (Persona.posting_patterns p).

Definition request : CalendarRequest.t :=
  CalendarRequest.mk Demo.company (of_persona <$> Demo.personas) Demo.subreddits
    Demo.queries 3 1.

(** [str] on the exceptions of the pipeline: a [KeyError] prints its
    key between quotes. *)
Definition str_of (e : exn) : string :=
  match e with
  | KeyError key => "'" +:+ key +:+ "'"
  | IndexError => "list index out of range"
  | ValueError => "invalid value"
  | OverflowError => "date value out of range"
  | GenerationError => "generation failed"
  | GraphRecursionError => "Recursion limit of 25 reached"
  end.

Definition calendar (calendar_id generated_at : string) : CalendarResponse.t :=
  CalendarResponse.mk calendar_id 1 generated_at [] [] QualityScore.placeholder
    "completed".

Definition monday : CalendarResponse.t :=
  calendar "cal_20240101_090000_0a0a0a0a" "2024-01-01T09:00:00".
Definition friday : CalendarResponse.t :=
  calendar "cal_20240105_180000_0b0b0b0b" "2024-01-05T18:00:00".
Definition wednesday : CalendarResponse.t :=
  calendar "cal_20240103_120000_0c0c0c0c" "2024-01-03T12:00:00".

Definition pending : JobResponse.t :=
  JobResponse.mk "job_20240106_080000_0d0d0d0d" PENDING "2024-01-06T08:00:00"
    None None None.

(** Three calendars, stored in this order, and one pending job. *)
Definition store : Store.t :=
  Store.mk {[ JobResponse.job_id pending := pending ]}
    [(CalendarResponse.calendar_id monday, monday);
     (CalendarResponse.calendar_id friday, friday);
     (CalendarResponse.calendar_id wednesday, wednesday)].

(** A plan whose only item lists a commenter outside the roster between
    two known ones. *)
Definition ghost_item : PostPlan.t :=
  PostPlan.mk "r/startups" "pitch deck help" "riley_ops"
    ["jordan_consults"; "ghost_account"; "emily_econ"] "board deck at midnight"
    "story then tips" "2024-01-01" "09:00".

Definition ghost_plan : WeekPlan.t := WeekPlan.mk 1 "2024-01-01" [ghost_item] None.

Definition ghost_planned : RedditState.t :=
  RedditState.set_strategic_plan ghost_plan Demo.state0.

End WebDemo.

(** * Vocabulary of the properties *)

Section Vocabulary.
Context `{DateTimeLib}.

Implicit Types (g : Generation) (state : RedditState.t) (node : Node).

(** The counter recorded in an entry of a run's trace. *)
Definition iteration_of (entry : Node * RedditState.t) : Z :=
  RedditState.refinement_iteration entry.2.

(** The invariant of the critic-refine loop: the counter is within the
    ceiling, strictly so when the refinement node is about to run. *)
Definition within_ceiling node state : Prop :=
  RedditState.refinement_iteration state ≤ RedditState.max_iterations state
  ∧ (node = refine_plan →
     RedditState.refinement_iteration state < RedditState.max_iterations state).

(** Supersteps that suffice from a node whose counter is [d] below the
    ceiling. *)
Definition steps_needed node (d : nat) : nat :=
  match node with
  | planner => 2 * d + 4
  | plan_critic => 2 * d + 3
  | refine_plan => 2 * d + 2
  | generate_content => 2
  | final_critic => 1
  | END => 0
  end.

(** *** Content generation *)

(** [f"P{i+1}"] *)
Definition post_id_of (i : nat) : string := "P" +:+ pretty (i + 1)%nat.

(** [f"C{n+1}"] for the comment appended when [n] comments exist *)
Definition comment_id_of (n : nat) : string := "C" +:+ pretty (n + 1)%nat.

Definition scheduled (post_plan : PostPlan.t) : string :=
  PostPlan.scheduled_date post_plan +:+ " " +:+ PostPlan.scheduled_time post_plan.

(** The delay a comment call site uses: the answer's, or 30. *)
Definition delay_of (r : CommentResult) : Z := default 30 (result_delay_minutes r).

(** The post the stage builds for plan item [i], when the persona is
    known, the generation call answers and the schedule parses. *)
Definition post_for g (personas_dict : gmap string Persona.t) (i : nat)
    (post_plan : PostPlan.t) : option RedditPost.t :=
  primary_persona ← personas_dict !! PostPlan.primary_persona post_plan;
  post_result ← post_at g i;
  post_time ← strptime (scheduled post_plan);
  Some (RedditPost.mk (post_id_of i) (PostPlan.subreddit post_plan)
          (result_title post_result) (result_body post_result)
          (Persona.username primary_persona) (strftime post_time)
          [PostPlan.target_keyword post_plan]).

Fixpoint posts_from g (personas_dict : gmap string Persona.t) (start : nat)
    (items : list PostPlan.t) : list RedditPost.t :=
  match items with
  | [] => []
  | post_plan :: items' =>
      option_list (post_for g personas_dict start post_plan)
      ++ posts_from g personas_dict (S start) items'
  end.

(** The text of commenter [j]'s comment on item [i], when its generation
    call answers and the delayed time is representable. *)
Definition comment_text_for g (post_time : datetime) (i j : nat) : option string :=
  r ← comment_at g i j;
  _ ← add_minutes post_time (delay_of r);
  Some (result_comment_text r).

(** Where a post of the output comes from. *)
Definition post_origin g (plan_posts : list PostPlan.t) (post : RedditPost.t)
    (i : nat) (post_plan : PostPlan.t) (post_time : datetime) : Prop :=
  plan_posts !! i = Some post_plan
  ∧ is_Some (post_at g i)
  ∧ strptime (scheduled post_plan) = Some post_time
  ∧ RedditPost.post_id post = post_id_of i
  ∧ RedditPost.timestamp post = strftime post_time.

(** Where a comment of the output comes from: a post of the output, and
    the answer of one comment call. *)
Definition comment_origin g (plan_posts : list PostPlan.t)
    (posts : list RedditPost.t) (comment : RedditComment.t) : Prop :=
  ∃ post i post_plan post_time j r comment_time,
    post ∈ posts
    ∧ post_origin g plan_posts post i post_plan post_time
    ∧ RedditComment.post_id comment = RedditPost.post_id post
    ∧ comment_at g i j = Some r
    ∧ RedditComment.delay_minutes comment = delay_of r
    ∧ add_minutes post_time (delay_of r) = Some comment_time
    ∧ RedditComment.timestamp comment = strftime comment_time.

(** The parent of the comment at position [idx], when it has one, is an
    earlier comment on the same post. *)
Definition parent_earlier (comments : list RedditComment.t) (idx : nat)
    (comment : RedditComment.t) : Prop :=
  ∀ pid, RedditComment.parent_comment_id comment = Some pid →
    ∃ idx' parent, (idx' < idx)%nat
      ∧ comments !! idx' = Some parent
      ∧ RedditComment.comment_id parent = pid
      ∧ RedditComment.post_id parent = RedditComment.post_id comment.

(** The invariant of the two loops of [content_generator_agent]. *)
Definition locals_wf g (plan_posts : list PostPlan.t) (l : Locals.t) : Prop :=
  (∀ post, post ∈ Locals.posts l →
     ∃ i post_plan post_time, post_origin g plan_posts post i post_plan post_time)
  ∧ (∀ idx comment, Locals.comments l !! idx = Some comment →
       RedditComment.comment_id comment = comment_id_of idx
       ∧ comment_origin g plan_posts (Locals.posts l) comment
       ∧ parent_earlier (Locals.comments l) idx comment).

End Vocabulary.

(** * Vocabulary of the further properties *)

Section MoreVocabulary.
Context `{DateTimeLib}.

Implicit Types (g : Generation) (state : RedditState.t) (node : Node).

(** How many times the refinement node completed in a trace. *)
Definition refinements (trace : list (Node * RedditState.t)) : nat :=
  length (filter (λ entry, entry.1 = refine_plan) trace).

(** A score within the bounds of its fields. *)
Definition within_bounds (x : Q) : Prop := (0 <= x)%Q ∧ (x <= 10)%Q.

Definition score_within_bounds (q : QualityScore.t) : Prop :=
  within_bounds (QualityScore.naturalness q)
  ∧ within_bounds (QualityScore.authenticity q)
  ∧ within_bounds (QualityScore.engagement_potential q)
  ∧ within_bounds (QualityScore.subtlety q)
  ∧ within_bounds (QualityScore.overall_score q).

(** The current score is below the convergence threshold. *)
Definition low_score state : Prop :=
  ∃ quality, RedditState.quality_score state = Some quality
             ∧ (QualityScore.overall_score quality < 7.5)%Q.

(** No critique that validates reaches the threshold. *)
Definition never_converges g : Prop :=
  ∀ step r quality,
    critique_at g step = Some r →
    QualityScore.validate (score_fields r) = Some quality →
    (QualityScore.overall_score quality < 7.5)%Q.

(** Every refinement prompt parses as a template. *)
Definition prompts_parse g : Prop :=
  ∀ quality plan, is_Some (refine_template g quality plan).

(** The critique of a superstep, when the call answers and the answer
    validates. *)
Definition valid_critique g (step : nat) : option QualityScore.t :=
  critique_at g step ≫= (λ r, QualityScore.validate (score_fields r)).



(** The state keeps the roster [personas], and its plan, when it has
    one, was answered by the planner or by a refinement. *)
Definition plan_answered g (personas : list Persona.t) state : Prop :=
  RedditState.personas state = personas
  ∧ ∀ plan, RedditState.strategic_plan state = Some plan →
            ∃ step, plan_at g step = Some plan.

(** The parent of the comment at position [idx], when it has one, is
    the latest earlier comment on the same post. *)
Definition parent_latest (comments : list RedditComment.t) (idx : nat)
    (comment : RedditComment.t) : Prop :=
  ∀ pid, RedditComment.parent_comment_id comment = Some pid →
    ∃ idx' parent, (idx' < idx)%nat
      ∧ comments !! idx' = Some parent
      ∧ RedditComment.comment_id parent = pid
      ∧ RedditComment.post_id parent = RedditComment.post_id comment
      ∧ ∀ k between, (idx' < k < idx)%nat →
          comments !! k = Some between →
          RedditComment.post_id between ≠ RedditComment.post_id comment.

(** A post written for plan item [i] by the item's primary persona. *)
Definition post_by_primary (personas : list Persona.t) (plan_posts : list PostPlan.t)
    (post : RedditPost.t) : Prop :=
  ∃ i post_plan persona,
    plan_posts !! i = Some post_plan
    ∧ RedditPost.post_id post = post_id_of i
    ∧ RedditPost.subreddit post = PostPlan.subreddit post_plan
    ∧ RedditPost.keyword_ids post = [PostPlan.target_keyword post_plan]
    ∧ RedditPost.author_username post = PostPlan.primary_persona post_plan
    ∧ persona ∈ personas
    ∧ Persona.username persona = RedditPost.author_username post.

(** A comment written for plan item [i] by one of the item's commenting
    personas. *)
Definition comment_by_commenter (personas : list Persona.t)
    (plan_posts : list PostPlan.t) (comment : RedditComment.t) : Prop :=
  ∃ i post_plan j persona,
    plan_posts !! i = Some post_plan
    ∧ RedditComment.post_id comment = post_id_of i
    ∧ PostPlan.commenting_personas post_plan !! j
      = Some (RedditComment.username comment)
    ∧ persona ∈ personas
    ∧ Persona.username persona = RedditComment.username comment.

(** The commenters of an item up to the first one that the persona
    dictionary does not know. *)
Fixpoint known_prefix (personas_dict : gmap string Persona.t)
    (commenters : list string) : list string :=
  match commenters with
  | [] => []
  | cu :: commenters' =>
      match personas_dict !! cu with
      | Some _ => cu :: known_prefix personas_dict commenters'
      | None => []
      end
  end.

(** What a comment keeps of the answer of its generation call: the
    text and the delay. *)
Definition comment_view (comment : RedditComment.t) : string * Z :=
  (RedditComment.comment_text comment, RedditComment.delay_minutes comment).

(** The text and the delay of commenter [j]'s comment on item [i], when
    its generation call answers and the delayed time is representable. *)
Definition comment_view_for g (post_time : datetime) (i j : nat)
  : option (string * Z) :=
  r ← comment_at g i j;
  _ ← add_minutes post_time (delay_of r);
  Some (result_comment_text r, delay_of r).

End MoreVocabulary.

(** * Vocabulary of the web layer *)

(** A subreddit the validator accepts: [r/] followed by 2 to 28
    characters. *)
Definition subreddit_ok (sub : string) : Prop :=
  ∃ name, sub = "r/" +:+ name ∧ (2 ≤ String.length name ≤ 28)%nat.

(** A length between [low] and [high], bounds included. *)
Definition length_within (low high : nat) (s : string) : Prop :=
  (low ≤ String.length s ≤ high)%nat.

(** The answer of the calendar endpoints for an id not in
    [calendars_db]. *)
Definition calendar_not_found : HTTPError :=
  HTTPException 404 "Calendar not found".

(** The calendars in descending order of [generated_at]: what
    [list_calendars] slices. *)
Definition calendars_by_date (store : Store.t) : list CalendarResponse.t :=
  sort_descending CalendarResponse.generated_at (Store.calendars_db store).*2.

(** [a] may stand before [b] in a listing. *)
Definition not_older (a b : CalendarResponse.t) : Prop :=
  String.leb (CalendarResponse.generated_at b) (CalendarResponse.generated_at a)
  = true.

(** * Properties *)

Section Properties.
Context `{DateTimeLib}.

Implicit Types (g : Generation) (state : RedditState.t) (node : Node).

(** ** Stage-level facts *)

Ltac counters_done :=
  cbn -[Z.add]; split; [lia | case_decide; first [done | lia]].

(** The ways out of the refinement node. *)
Lemma refine_plan_agent_cases from_template reply state :
  match refine_plan_agent from_template reply state with
  | Returned state' =>
      ∃ quality plan input_variables,
        RedditState.quality_score state = Some quality
        ∧ RedditState.strategic_plan state = Some plan
        ∧ from_template quality plan = Some input_variables
        ∧ (state' = RedditState.set_refinement_iteration
                      (RedditState.refinement_iteration state + 1) state
           ∨ ∃ week_plan,
               input_variables = [] ∧ reply = Some week_plan
               ∧ state' = RedditState.set_refinement_iteration
                            (RedditState.refinement_iteration state + 1)
                            (RedditState.set_strategic_plan week_plan state))
  | Raised e =>
      (RedditState.quality_score state = None ∧ e = KeyError "quality_score")
      ∨ (RedditState.strategic_plan state = None ∧ e = KeyError "strategic_plan")
      ∨ (e = ValueError
         ∧ ∃ quality plan,
             RedditState.quality_score state = Some quality
             ∧ RedditState.strategic_plan state = Some plan
             ∧ from_template quality plan = None)
  end.
Proof.
  unfold refine_plan_agent.
  destruct (RedditState.quality_score state) as [quality|]; cbn; [|by left].
  destruct (RedditState.strategic_plan state) as [plan|]; cbn; [|by right; left].
  destruct (from_template quality plan) as [input_variables|] eqn:Htemplate;
    [|right; right; split; [done|]; by exists quality, plan].
  destruct input_variables as [|v vs]; cbn.
  - destruct reply as [week_plan|].
    + exists quality, plan, []. split_and!; [done..|]. right. by exists week_plan.
    + exists quality, plan, []. split_and!; [done..|]. by left.
  - exists quality, plan, (v :: vs). split_and!; [done..|]. by left.
Qed.

Lemma run_node_counters g step node state state' :
  run_node g step node state = Returned state' →
  RedditState.max_iterations state' = RedditState.max_iterations state
  ∧ RedditState.refinement_iteration state'
    = RedditState.refinement_iteration state
      + (if decide (node = refine_plan) then 1 else 0).
Proof.
  destruct node; cbn -[Z.add]; intros Hrun.
  - unfold planner_agent in Hrun.
    destruct (plan_at g step); injection Hrun as <-; counters_done.
  - unfold plan_critic_agent in Hrun.
    destruct (RedditState.strategic_plan state); [cbn in Hrun | done].
    destruct (critique_at g step) as [r|]; [|injection Hrun as <-; counters_done].
    destruct (QualityScore.validate (score_fields r));
      injection Hrun as <-; counters_done.
  - pose proof (refine_plan_agent_cases (refine_template g) (plan_at g step) state)
      as Hcases.
    rewrite Hrun in Hcases.
    destruct Hcases as (? & ? & ? & _ & _ & _ & [-> | (? & _ & _ & ->)]);
      counters_done.
  - unfold content_generator_agent in Hrun.
    destruct (RedditState.strategic_plan state); [cbn in Hrun | done].
    destruct (for_enumerate _ _ _ _) as [[e|[]] l]; [done|].
    injection Hrun as <-; counters_done.
  - unfold final_critic_agent in Hrun.
    destruct (RedditState.generated_content state); [cbn in Hrun | done].
    destruct (critique_at g step) as [r|]; [|injection Hrun as <-; counters_done].
    destruct (QualityScore.validate (score_fields r));
      injection Hrun as <-; counters_done.
  - injection Hrun as <-; counters_done.
Qed.

Lemma should_refine_plan_refine state :
  should_refine_plan state = Returned refine_plan →
  RedditState.refinement_iteration state < RedditState.max_iterations state.
Proof.
  unfold should_refine_plan.
  destruct (RedditState.quality_score state) as [q|]; [cbn | done].
  destruct (Qle_bool _ _); [done|].
  destruct (Z.leb_spec (RedditState.max_iterations state)
              (RedditState.refinement_iteration state)); [done | lia].
Qed.

Lemma should_refine_plan_targets state node :
  should_refine_plan state = Returned node →
  node = generate_content ∨ node = refine_plan.
Proof.
  unfold should_refine_plan.
  destruct (RedditState.quality_score state) as [q|]; [cbn | done].
  destruct (Qle_bool _ _); [intros [= <-]; by left|].
  destruct (_ <=? _); intros [= <-]; [by left | by right].
Qed.

(** One superstep of the graph, for a node other than [END]. *)
Lemma run_from_step g limit step node state :
  node ≠ END →
  run_from g (S limit) step node state =
    match run_node g step node state with
    | Raised e => ([], Raised e)
    | Returned state' =>
        match next_node node state' with
        | Raised e => ([(node, state')], Raised e)
        | Returned node' =>
            let (trace, r) := run_from g limit (S step) node' state' in
            ((node, state') :: trace, r)
        end
    end.
Proof. by destruct node. Qed.

Lemma run_from_END g limit step state :
  run_from g limit step END state = ([], Returned state).
Proof. by destruct limit. Qed.

Lemma run_from_O g step node state :
  node ≠ END → run_from g 0 step node state = ([], Raised GraphRecursionError).
Proof. by destruct node. Qed.

(** ** The iteration counter along a run *)

Lemma within_ceiling_next g step node state state' node' :
  within_ceiling node state →
  run_node g step node state = Returned state' →
  next_node node state' = Returned node' →
  within_ceiling node' state'
  ∧ RedditState.refinement_iteration state ≤ RedditState.refinement_iteration state'
  ∧ RedditState.max_iterations state' = RedditState.max_iterations state.
Proof.
  intros [Hle Hlt] Hrun Hnext.
  destruct (run_node_counters _ _ _ _ _ Hrun) as [Hmax Hiter].
  assert (RedditState.refinement_iteration state' ≤ RedditState.max_iterations state')
    as Hle'.
  { destruct (decide (node = refine_plan)) as [->|]; [specialize (Hlt eq_refl)|]; lia. }
  split; [split; [done|] | split; [destruct (decide _); lia | done]].
  intros ->. destruct node; cbn in Hnext; try done.
  by apply should_refine_plan_refine.
Qed.

Lemma run_from_trace_bounded g limit : ∀ step node state,
  within_ceiling node state →
  Forall (λ entry,
            RedditState.refinement_iteration state ≤ iteration_of entry
            ∧ iteration_of entry ≤ RedditState.max_iterations entry.2
            ∧ RedditState.max_iterations entry.2 = RedditState.max_iterations state)
         (run_from g limit step node state).1
  ∧ StronglySorted Z.le (iteration_of <$> (run_from g limit step node state).1).
Proof.
  induction limit as [|limit IH]; intros step node state Hinv.
  { destruct node; cbn; split; constructor. }
  destruct (decide (node = END)) as [->|Hnode].
  { rewrite run_from_END. cbn; split; constructor. }
  rewrite run_from_step by done.
  destruct (run_node g step node state) as [e|state'] eqn:Hrun.
  { cbn; split; constructor. }
  destruct (next_node node state') as [e|node'] eqn:Hnext.
  - pose proof (run_node_counters _ _ _ _ _ Hrun) as [Hmax Hiter].
    destruct Hinv as [Hle Hlt].
    cbn; split; repeat constructor; unfold iteration_of; cbn; try done.
    + destruct (decide _); lia.
    + destruct (decide (node = refine_plan)) as [->|]; [specialize (Hlt eq_refl)|]; lia.
  - destruct (within_ceiling_next _ _ _ _ _ _ Hinv Hrun Hnext) as (Hinv' & Hmono & Hmax).
    destruct (IH (S step) node' state' Hinv') as [Hall Hsorted].
    destruct (run_from g limit (S step) node' state') as [trace r]; cbn in *.
    split.
    + constructor.
      * unfold iteration_of; cbn. split; [done|]. split; [apply Hinv' | done].
      * eapply Forall_impl; [exact Hall|]. intros entry (? & ? & ?).
        split; [lia|]. split; [done | congruence].
    + constructor; [done|].
      apply Forall_fmap. eapply Forall_impl; [exact Hall|].
      intros entry (? & _). unfold iteration_of at 1; cbn. done.
Qed.



(** ** The loops of the content generator *)

Lemma locals_eta (l : Locals.t) :
  l = Locals.mk (Locals.posts l ++ []) (Locals.comments l ++ []).
Proof. destruct l; cbn. by rewrite !app_nil_r. Qed.

Lemma post_id_of_inj i i' : post_id_of i = post_id_of i' → i = i'.
Proof.
  unfold post_id_of. intros [= Heq].
  change (pretty (i + 1)%nat = pretty (i' + 1)%nat) in Heq.
  apply (inj (pretty : nat → string)) in Heq. lia.
Qed.

Lemma choose_parent_returns draw j post comments :
  ∃ parent, choose_parent draw j post comments = Returned parent
    ∧ ∀ p, parent = Some p →
        p ∈ comments ∧ RedditComment.post_id p = RedditPost.post_id post.
Proof.
  unfold choose_parent.
  destruct (_ && _); [|by exists None].
  case_bool_decide as Hlen; [|by exists None].
  destruct (negb _); [|by exists None].
  destruct (last _) as [p|] eqn:Hlast.
  - exists (Some p). split; [done|]. intros ? [= <-].
    apply last_Some_elem_of, list_elem_of_filter in Hlast as [? ?]. done.
  - apply last_None in Hlast. rewrite Hlast in Hlen. cbn in Hlen. lia.
Qed.

(** The body of the comment loop, one case per way out. *)
Lemma comment_loop_body_eq g pd i post_plan post post_time j cu l :
  comment_loop_body g pd i post_plan post post_time j cu l =
  match pd !! cu with
  | None => (Raised (KeyError cu), l)
  | Some commenter =>
      match choose_parent (random_at g i j) j post (Locals.comments l) with
      | Raised e => (Raised e, l)
      | Returned parent =>
          match comment_at g i j with
          | None => (Returned (), l)
          | Some r =>
              match add_minutes post_time (delay_of r) with
              | None => (Returned (), l)
              | Some comment_time =>
                  (Returned (),
                   Locals.mk (Locals.posts l)
                     (Locals.comments l
                      ++ [RedditComment.mk
                            (comment_id_of (length (Locals.comments l)))
                            (RedditPost.post_id post)
                            (RedditComment.comment_id <$> parent)
                            (result_comment_text r)
                            (Persona.username commenter)
                            (strftime comment_time)
                            (delay_of r)]))
              end
          end
      end
  end.
Proof.
  unfold comment_loop_body, gbind, lift, try_except, get_comments, subscript.
  destruct (pd !! cu) as [commenter|]; [|done].
  destruct (choose_parent _ _ _ _) as [e|parent]; [done|].
  unfold invoke. destruct (comment_at g i j) as [r|]; [|done].
  unfold timedelta_add, delay_of.
  by destruct (add_minutes _ _).
Qed.

Lemma locals_wf_append_post g plan_posts l post i post_plan post_time :
  locals_wf g plan_posts l →
  post_origin g plan_posts post i post_plan post_time →
  locals_wf g plan_posts (Locals.mk (Locals.posts l ++ [post]) (Locals.comments l)).
Proof.
  intros [Hposts Hcomments] Horigin. split; cbn.
  - intros p [Hp | ->%list_elem_of_singleton]%elem_of_app; eauto.
  - intros idx c Hc. destruct (Hcomments idx c Hc) as (Hid & Horig & Hparent).
    split_and!; [done | | done].
    destruct Horig as (p & k & pp & pt & j & r & ct & Hin & Hrest).
    exists p, k, pp, pt, j, r, ct. split; [|done].
    apply elem_of_app. by left.
Qed.

Lemma locals_wf_append_comment g plan_posts l post i post_plan post_time
    j r comment_time parent text username :
  locals_wf g plan_posts l →
  post ∈ Locals.posts l →
  post_origin g plan_posts post i post_plan post_time →
  comment_at g i j = Some r →
  add_minutes post_time (delay_of r) = Some comment_time →
  (∀ p, parent = Some p →
     p ∈ Locals.comments l ∧ RedditComment.post_id p = RedditPost.post_id post) →
  locals_wf g plan_posts
    (Locals.mk (Locals.posts l)
       (Locals.comments l
        ++ [RedditComment.mk (comment_id_of (length (Locals.comments l)))
              (RedditPost.post_id post) (RedditComment.comment_id <$> parent)
              text username (strftime comment_time) (delay_of r)])).
Proof.
  intros [Hposts Hcomments] Hin Horigin Hr Htime Hparent. split; cbn; [done|].
  intros idx c [[Hlt Hc] | [-> <-]]%lookup_snoc_Some.
  - destruct (Hcomments idx c Hc) as (Hid & Horig & Hpar).
    split_and!; [done | done |].
    intros pid Hpid. destruct (Hpar pid Hpid) as (idx' & p & ? & Hp & ? & ?).
    exists idx', p. split_and!; try done. by apply lookup_app_l_Some.
  - split_and!; [done | |].
    + exists post, i, post_plan, post_time, j, r, comment_time. by split_and!.
    + intros pid Hpid. cbn in Hpid.
      destruct parent as [p|]; [|done]. injection Hpid as <-.
      destruct (Hparent p eq_refl) as [[idx' Hidx']%list_elem_of_lookup_1 Hpost].
      exists idx', p. split_and!; [by eapply lookup_lt_Some | | done | done].
      by apply lookup_app_l_Some.
Qed.

Lemma comment_loop_spec g plan_posts pd i post_plan post post_time :
  ∀ cus j l,
  ∃ r cs,
    for_enumerate (comment_loop_body g pd i post_plan post post_time) j cus l
    = (r, Locals.mk (Locals.posts l) (Locals.comments l ++ cs))
    ∧ Forall (λ c, RedditComment.post_id c = RedditPost.post_id post) cs
    ∧ (locals_wf g plan_posts l → post ∈ Locals.posts l →
       post_origin g plan_posts post i post_plan post_time →
       locals_wf g plan_posts
         (Locals.mk (Locals.posts l) (Locals.comments l ++ cs)))
    ∧ (Forall (λ cu, is_Some (pd !! cu)) cus →
       r = Returned ()
       ∧ RedditComment.comment_text <$> cs
         = omap (comment_text_for g post_time i) (seq j (length cus))).
Proof.
  induction cus as [|cu cus IH]; intros j l.
  { exists (Returned ()), []. cbn. unfold gret.
    rewrite app_nil_r. destruct l; cbn. by split_and!. }
  cbn [for_enumerate]. unfold gbind at 1. rewrite comment_loop_body_eq.
  destruct (pd !! cu) as [commenter|] eqn:Hcu; last first.
  { exists (Raised (KeyError cu)), []. rewrite app_nil_r. destruct l; cbn.
    split_and!; try done.
    intros Hknown. apply Forall_cons in Hknown as [[? Hsome] _].
    rewrite Hcu in Hsome. done. }
  destruct (choose_parent_returns (random_at g i j) j post (Locals.comments l))
    as (parent & -> & Hparent).
  assert (∀ r cs, 
    for_enumerate (comment_loop_body g pd i post_plan post post_time) (S j) cus l
    = (r, Locals.mk (Locals.posts l) (Locals.comments l ++ cs)) →
    comment_text_for g post_time i j = None →
    Forall (λ c, RedditComment.post_id c = RedditPost.post_id post) cs →
    (locals_wf g plan_posts l → post ∈ Locals.posts l →
       post_origin g plan_posts post i post_plan post_time →
       locals_wf g plan_posts
         (Locals.mk (Locals.posts l) (Locals.comments l ++ cs))) →
    (Forall (λ cu, is_Some (pd !! cu)) cus →
       r = Returned ()
       ∧ RedditComment.comment_text <$> cs
         = omap (comment_text_for g post_time i) (seq (S j) (length cus))) →
    ∃ r cs,
    for_enumerate (comment_loop_body g pd i post_plan post post_time) (S j) cus l
    = (r, Locals.mk (Locals.posts l) (Locals.comments l ++ cs))
    ∧ Forall (λ c, RedditComment.post_id c = RedditPost.post_id post) cs
    ∧ (locals_wf g plan_posts l → post ∈ Locals.posts l →
       post_origin g plan_posts post i post_plan post_time →
       locals_wf g plan_posts
         (Locals.mk (Locals.posts l) (Locals.comments l ++ cs)))
    ∧ (Forall (λ cu, is_Some (pd !! cu)) (cu :: cus) →
       r = Returned ()
       ∧ RedditComment.comment_text <$> cs
         = omap (comment_text_for g post_time i) (seq j (length (cu :: cus)))))
    as Hskip.
  { intros r cs Heq Hnone Hall Hwf Htexts. exists r, cs.
    split_and!; try done.
    intros [_ Hknown]%Forall_cons. cbn. rewrite Hnone. by apply Htexts. }
  destruct (comment_at g i j) as [r|] eqn:Hr; last first.
  { destruct (IH (S j) l) as (r' & cs & Heq & Hall & Hwf & Htexts).
    eapply Hskip; eauto. unfold comment_text_for. by rewrite Hr. }
  destruct (add_minutes post_time (delay_of r)) as [comment_time|] eqn:Htime; last first.
  { destruct (IH (S j) l) as (r' & cs & Heq & Hall & Hwf & Htexts).
    eapply Hskip; eauto. unfold comment_text_for. rewrite Hr; cbn. by rewrite Htime. }
  clear Hskip.
  match goal with
  | |- context [for_enumerate _ _ _ ?l1] =>
      destruct (IH (S j) l1) as (r' & cs & Heq & Hall & Hwf & Htexts)
  end.
  cbn in Heq, Hwf. rewrite <-app_assoc in Heq, Hwf. cbn in Heq, Hwf.
  eexists r', (_ :: cs). split; [exact Heq|]. split_and!.
  - by constructor.
  - intros Hl Hin Horigin. apply Hwf; [|done..].
    by eapply locals_wf_append_comment.
  - intros [_ Hknown]%Forall_cons. destruct (Htexts Hknown) as [-> Ht].
    split; [done|]. cbn. unfold comment_text_for at 1. rewrite Hr; cbn.
    rewrite Htime; cbn. by rewrite Ht.
Qed.

Lemma filter_all {A} (P : A → Prop) `{!∀ x, Decision (P x)} (l : list A) :
  Forall P l → filter P l = l.
Proof.
  induction 1 as [|x l Hx _ IH]; [done|].
  rewrite filter_cons, decide_True by done. by rewrite IH.
Qed.

Lemma filter_none {A} (P : A → Prop) `{!∀ x, Decision (P x)} (l : list A) :
  Forall (λ x, ¬ P x) l → filter P l = [].
Proof.
  induction 1 as [|x l Hx _ IH]; [done|].
  by rewrite filter_cons, decide_False.
Qed.

Lemma post_loop_body_unknown g pd i post_plan l :
  pd !! PostPlan.primary_persona post_plan = None →
  post_loop_body g pd i post_plan l
  = (Raised (KeyError (PostPlan.primary_persona post_plan)), l).
Proof. intros Hp. unfold post_loop_body, gbind, lift, subscript. by rewrite Hp. Qed.

Lemma post_loop_body_known g plan_posts pd i post_plan l :
  plan_posts !! i = Some post_plan →
  is_Some (pd !! PostPlan.primary_persona post_plan) →
  let cus := PostPlan.commenting_personas post_plan in
  ∃ cs,
    post_loop_body g pd i post_plan l
    = (Returned (),
       Locals.mk (Locals.posts l ++ option_list (post_for g pd i post_plan))
         (Locals.comments l ++ cs))
    ∧ Forall (λ c, RedditComment.post_id c = post_id_of i) cs
    ∧ (locals_wf g plan_posts l →
       locals_wf g plan_posts
         (Locals.mk (Locals.posts l ++ option_list (post_for g pd i post_plan))
            (Locals.comments l ++ cs)))
    ∧ (∀ post_time,
         is_Some (post_at g i) →
         strptime (scheduled post_plan) = Some post_time →
         Forall (λ cu, is_Some (pd !! cu)) cus →
         RedditComment.comment_text <$> cs
         = omap (comment_text_for g post_time i) (seq 0 (length cus))).
Proof.
  intros Hitem [persona Hp] cus. subst cus.
  unfold post_loop_body, gbind at 1, lift at 1, subscript. rewrite Hp.
  unfold try_except, gbind at 1, lift at 1, invoke, post_for. rewrite Hp; cbn.
  destruct (post_at g i) as [r|] eqn:Hr; cbn; last first.
  { exists []. rewrite <-locals_eta. by split_and!. }
  unfold parse_post_time.
  change (PostPlan.scheduled_date post_plan +:+ " "
          +:+ PostPlan.scheduled_time post_plan) with (scheduled post_plan).
  destruct (strptime (scheduled post_plan)) as [post_time|] eqn:Ht; cbn; last first.
  { exists []. rewrite <-locals_eta. by split_and!. }
  match goal with
  | |- context [for_enumerate (comment_loop_body _ _ _ _ ?p _) _ ?cus ?l1] =>
      pose (post := p);
      destruct (comment_loop_spec g plan_posts pd i post_plan p post_time
                  cus 0 l1) as (r' & cs & Heq & Hall & Hwf & Htexts)
  end.
  rewrite Heq. cbn in Hwf.
  assert (post_origin g plan_posts post i post_plan post_time) as Horigin.
  { by split_and!. }
  exists cs. split; [by destruct r' as [|[]]|]. split_and!.
  - done.
  - intros Hl. apply Hwf; [|apply elem_of_app; right; by apply list_elem_of_singleton|done].
    by eapply locals_wf_append_post.
  - intros t' _ [= <-] Hknown. by apply Htexts.
Qed.

(** The loop over the plan items, started at index [start]. *)
Lemma post_loop_spec g plan_posts pd : ∀ items start l,
  (∀ k post_plan, items !! k = Some post_plan →
                  plan_posts !! (start + k)%nat = Some post_plan) →
  ∃ r ps cs,
    for_enumerate (post_loop_body g pd) start items l
    = (r, Locals.mk (Locals.posts l ++ ps) (Locals.comments l ++ cs))
    ∧ (locals_wf g plan_posts l →
       locals_wf g plan_posts
         (Locals.mk (Locals.posts l ++ ps) (Locals.comments l ++ cs)))
    ∧ Forall (λ c, ∃ k, (k < length items)%nat
                        ∧ RedditComment.post_id c = post_id_of (start + k)) cs
    ∧ match r with
      | Returned _ =>
          Forall (λ item, is_Some (pd !! PostPlan.primary_persona item)) items
          ∧ ps = posts_from g pd start items
          ∧ ∀ k item post_time,
              items !! k = Some item →
              is_Some (post_at g (start + k)) →
              strptime (scheduled item) = Some post_time →
              Forall (λ cu, is_Some (pd !! cu)) (PostPlan.commenting_personas item) →
              RedditComment.comment_text
                <$> filter (λ c, RedditComment.post_id c = post_id_of (start + k)) cs
              = omap (comment_text_for g post_time (start + k))
                  (seq 0 (length (PostPlan.commenting_personas item)))
      | Raised e =>
          ∃ item, item ∈ items
                  ∧ pd !! PostPlan.primary_persona item = None
                  ∧ e = KeyError (PostPlan.primary_persona item)
      end.
Proof.
  induction items as [|item items IH]; intros start l Hplan.
  { exists (Returned ()), [], []. cbn. unfold gret. rewrite <-locals_eta.
    by split_and!. }
  cbn [for_enumerate]. unfold gbind at 1.
  destruct (pd !! PostPlan.primary_persona item) as [persona|] eqn:Hp; last first.
  { rewrite post_loop_body_unknown by done.
    exists (Raised (KeyError (PostPlan.primary_persona item))), [], [].
    rewrite <-locals_eta. split_and!; try done.
    exists item. split_and!; try done. apply elem_of_cons. by left. }
  assert (plan_posts !! start = Some item) as Hitem.
  { specialize (Hplan 0%nat item eq_refl). by rewrite Nat.add_0_r in Hplan. }
  destruct (post_loop_body_known g plan_posts pd start item l Hitem)
    as (cs1 & -> & Hall1 & Hwf1 & Htexts1); [by rewrite Hp|].
  match goal with
  | |- context [for_enumerate _ _ _ ?l1] =>
      destruct (IH (S start) l1) as (r & ps2 & cs2 & Heq & Hwf2 & Hall2 & Hr)
  end.
  { intros k pp Hk. specialize (Hplan (S k) pp Hk).
    by replace (S start + k)%nat with (start + S k)%nat by lia. }
  cbn in Heq, Hwf2. rewrite <-!app_assoc in Heq, Hwf2.
  exists r, (option_list (post_for g pd start item) ++ ps2), (cs1 ++ cs2).
  split; [exact Heq|]. split; [by intros ?; apply Hwf2, Hwf1|].
  assert (∀ k, Forall (λ c, RedditComment.post_id c ≠ post_id_of (start + S k)) cs1)
    as Hcs1.
  { intros k. eapply Forall_impl; [exact Hall1|]. cbn. intros c -> Hc.
    apply post_id_of_inj in Hc. lia. }
  assert (Forall (λ c, RedditComment.post_id c ≠ post_id_of start) cs2) as Hcs2.
  { eapply Forall_impl; [exact Hall2|]. cbn. intros c (k & _ & ->) Hc.
    apply post_id_of_inj in Hc. lia. }
  split.
  { apply Forall_app. split.
    - eapply Forall_impl; [exact Hall1|]. cbn. intros c Hc.
      exists 0%nat. rewrite Nat.add_0_r. split; [lia | done].
    - eapply Forall_impl; [exact Hall2|]. cbn. intros c (k & Hk & Hc).
      exists (S k). split; [lia|]. by replace (start + S k)%nat with (S start + k)%nat by lia. }
  destruct r as [e|[]].
  - destruct Hr as (item' & Hin & Hnone & ->). exists item'.
    split_and!; try done. apply elem_of_cons. by right.
  - destruct Hr as (Hknown & -> & Htexts2). split_and!.
    + constructor; [by rewrite Hp | done].
    + done.
    + intros k item' t Hk Hpost Ht Hcus. rewrite filter_app, fmap_app.
      destruct k as [|k].
      * injection Hk as <-. rewrite Nat.add_0_r in *.
        rewrite (filter_all _ cs1) by done.
        rewrite (filter_none _ cs2) by done.
        rewrite app_nil_r. by apply Htexts1.
      * rewrite (filter_none _ cs1) by apply Hcs1. cbn [fmap list_fmap app].
        replace (start + S k)%nat with (S start + k)%nat in * by lia.
        by apply Htexts2.
Qed.

(** ** The content generator as a whole *)

Lemma locals_wf_empty g plan_posts : locals_wf g plan_posts Locals.empty.
Proof. split; cbn; [intros ? []%elem_of_nil | done]. Qed.

Lemma content_generator_agent_spec g state plan :
  RedditState.strategic_plan state = Some plan →
  let pd := make_personas_dict (RedditState.personas state) in
  match content_generator_agent g state with
  | Returned state' =>
      ∃ content,
        state' = RedditState.set_generated_content content state
        ∧ GeneratedContent.quality_assessment content = QualityScore.placeholder
        ∧ locals_wf g (WeekPlan.posts plan)
            (Locals.mk (GeneratedContent.posts content)
               (GeneratedContent.comments content))
        ∧ Forall (λ item, is_Some (pd !! PostPlan.primary_persona item))
            (WeekPlan.posts plan)
        ∧ GeneratedContent.posts content = posts_from g pd 0 (WeekPlan.posts plan)
        ∧ ∀ k item post_time,
            WeekPlan.posts plan !! k = Some item →
            is_Some (post_at g k) →
            strptime (scheduled item) = Some post_time →
            Forall (λ cu, is_Some (pd !! cu)) (PostPlan.commenting_personas item) →
            RedditComment.comment_text
              <$> filter (λ c, RedditComment.post_id c = post_id_of k)
                    (GeneratedContent.comments content)
            = omap (comment_text_for g post_time k)
                (seq 0 (length (PostPlan.commenting_personas item)))
  | Raised e =>
      ∃ item, item ∈ WeekPlan.posts plan
              ∧ pd !! PostPlan.primary_persona item = None
              ∧ e = KeyError (PostPlan.primary_persona item)
  end.
Proof.
  intros Hplan pd. unfold content_generator_agent. rewrite Hplan; cbn.
  destruct (post_loop_spec g (WeekPlan.posts plan) pd (WeekPlan.posts plan)
              0 Locals.empty) as (r & ps & cs & Heq & Hwf & _ & Hr); [done|].
  fold pd. rewrite Heq. cbn in *.
  destruct r as [e|[]]; [done|].
  destruct Hr as (Hknown & -> & Htexts).
  eexists (GeneratedContent.mk _ _ _). cbn. split_and!; try done.
  apply Hwf, locals_wf_empty.
Qed.

Lemma content_generator_agent_raises g state e :
  content_generator_agent g state = Raised e → ∃ key, e = KeyError key.
Proof.
  destruct (RedditState.strategic_plan state) as [plan|] eqn:Hplan.
  - pose proof (content_generator_agent_spec g state plan Hplan) as Hspec.
    intros Hrun. rewrite Hrun in Hspec. destruct Hspec as (item & _ & _ & ->). eauto.
  - unfold content_generator_agent. rewrite Hplan. cbn. intros [= <-]. eauto.
Qed.

Lemma run_from_no_recursion_error g limit : ∀ step node state,
  within_ceiling node state →
  (steps_needed node
     (Z.to_nat (RedditState.max_iterations state
                - RedditState.refinement_iteration state)) ≤ limit)%nat →
  (run_from g limit step node state).2 ≠ Raised GraphRecursionError.
Proof.
  induction limit as [|limit IH]; intros step node state Hinv Hlimit.
  { destruct node; cbn in *; (done || lia). }
  destruct (decide (node = END)) as [->|Hnode].
  { by rewrite run_from_END. }
  rewrite run_from_step by done.
  destruct (run_node g step node state) as [e|state'] eqn:Hrun.
  { cbn. destruct node; cbn in Hrun; intros [= ->].
    - unfold planner_agent in Hrun. by destruct (plan_at g step).
    - unfold plan_critic_agent in Hrun.
      destruct (RedditState.strategic_plan state); [cbn in Hrun | done].
      destruct (critique_at g step) as [r|]; [|done].
      by destruct (QualityScore.validate _).
    - pose proof (refine_plan_agent_cases (refine_template g) (plan_at g step) state)
        as Hcases.
      rewrite Hrun in Hcases. by destruct Hcases as [[_ ?] | [[_ ?] | [? _]]].
    - by destruct (content_generator_agent_raises _ _ _ Hrun) as [? ?].
    - unfold final_critic_agent in Hrun.
      destruct (RedditState.generated_content state); [cbn in Hrun | done].
      destruct (critique_at g step) as [r|]; [|done].
      by destruct (QualityScore.validate _).
    - done. }
  destruct (next_node node state') as [e|node'] eqn:Hnext.
  { cbn. intros [= ->]. destruct node; cbn in Hnext; try done.
    unfold should_refine_plan in Hnext.
    destruct (RedditState.quality_score state'); [cbn in Hnext | done].
    destruct (Qle_bool _ _); [done|]. by destruct (_ <=? _). }
  destruct (within_ceiling_next _ _ _ _ _ _ Hinv Hrun Hnext) as (Hinv' & Hmono & Hmax).
  pose proof (run_node_counters _ _ _ _ _ Hrun) as [_ Hiter].
  specialize (IH (S step) node' state' Hinv').
  destruct (run_from g limit (S step) node' state') as [trace r]; cbn in *.
  apply IH. clear IH.
  destruct Hinv as [Hle Hlt].
  destruct node; cbn in Hnext; try done; case_decide; try done.
  - injection Hnext as <-. cbn in *. lia.
  - apply should_refine_plan_targets in Hnext as [-> | ->]; cbn in *; lia.
  - injection Hnext as <-. specialize (Hlt eq_refl). cbn in *. lia.
  - injection Hnext as <-. cbn in *. lia.
  - injection Hnext as <-. cbn in *. lia.
Qed.

(** ** Runs of the workflow *)

(** Each completed node changes the counter of the state it received by
    one if it is the refinement node, and not at all otherwise. *)
Lemma run_from_counter_steps g limit : ∀ step node state k n s,
  (run_from g limit step node state).1 !! k = Some (n, s) →
  ∃ prev, (state :: (run_from g limit step node state).1.*2) !! k = Some prev
          ∧ RedditState.refinement_iteration s
            = RedditState.refinement_iteration prev
              + (if decide (n = refine_plan) then 1 else 0).
Proof.
  induction limit as [|limit IH]; intros step node state k n s.
  { by destruct node. }
  destruct (decide (node = END)) as [->|Hnode]; [by rewrite run_from_END|].
  rewrite run_from_step by done.
  destruct (run_node g step node state) as [e|state'] eqn:Hrun; [done|].
  pose proof (run_node_counters _ _ _ _ _ Hrun) as [_ Hiter].
  destruct (next_node node state') as [e|node'] eqn:Hnext.
  { cbn. destruct k as [|k]; [|done]. intros [= <- <-]. by exists state. }
  specialize (IH (S step) node' state').
  destruct (run_from g limit (S step) node' state') as [trace r]; cbn in *.
  destruct k as [|k]; cbn.
  - intros [= <- <-]. by exists state.
  - intros Hk. by apply IH.
Qed.

(** A run that returns went through the content generator and then the
    final critic, which produced the final state. *)
Lemma run_from_returns g limit : ∀ step node state final,
  node ≠ END → node ≠ final_critic →
  (run_from g limit step node state).2 = Returned final →
  ∃ step' s s',
    content_generator_agent g s = Returned s'
    ∧ final_critic_agent (critique_at g step') s' = Returned final.
Proof.
  induction limit as [|limit IH]; intros step node state final Hend Hfc.
  { by rewrite run_from_O. }
  rewrite run_from_step by done.
  destruct (run_node g step node state) as [e|state'] eqn:Hrun; [done|].
  destruct (next_node node state') as [e|node'] eqn:Hnext; [done|].
  specialize (IH (S step) node' state' final).
  destruct (decide (node = generate_content)) as [->|Hgen].
  - cbn in Hnext, Hrun. injection Hnext as <-. clear IH.
    destruct limit as [|limit]; [done|].
    rewrite run_from_step by done. cbn.
    destruct (final_critic_agent (critique_at g (S step)) state') as [e|s''] eqn:Hfinal;
      [done|].
    rewrite run_from_END. cbn. intros [= <-]. eauto.
  - destruct (run_from g limit (S step) node' state') as [trace r]; cbn in *.
    apply IH.
    + destruct node; cbn in Hnext; try done; try (by injection Hnext as <-).
      by apply should_refine_plan_targets in Hnext as [-> | ->].
    + destruct node; cbn in Hnext; try done; try (by injection Hnext as <-).
      by apply should_refine_plan_targets in Hnext as [-> | ->].
Qed.


(** The persona dictionary knows exactly the usernames of the roster. *)
Lemma make_personas_dict_lookup personas u :
  is_Some (make_personas_dict personas !! u)
  ↔ ∃ p, p ∈ personas ∧ Persona.username p = u.
Proof.
  unfold make_personas_dict.
  assert (∀ d : gmap string Persona.t,
    is_Some (foldl (λ d p, <[Persona.username p := p]> d) d personas !! u)
    ↔ is_Some (d !! u) ∨ ∃ p, p ∈ personas ∧ Persona.username p = u) as Hgen.
  { induction personas as [|p ps IH]; intros d; cbn.
    - split; [by left|]. intros [?|(p & []%elem_of_nil & _)]; done.
    - rewrite IH. rewrite lookup_insert_is_Some. split.
      + intros [[Heq | [Hne Hd]] | (q & Hq & Hu)].
        * right. exists p. split; [by left | done].
        * by left.
        * right. exists q. split; [by right | done].
      + intros [Hd | (q & [-> | Hq]%elem_of_cons & Hu)].
        * left. destruct (decide (Persona.username p = u)); [by left | by right].
        * left. by left.
        * right. eauto. }
  rewrite Hgen, lookup_empty. split; [intros [[? [=]] | ?]; done | by right].
Qed.

(** * The claims *)

(** The run from [generate_content] on never visits another node than
    the generator and the final critic. *)
Lemma run_from_generate_content g limit step state entry :
  entry ∈ (run_from g limit step generate_content state).1 →
  entry.1 = generate_content ∨ entry.1 = final_critic.
Proof.
  destruct limit as [|limit]; [by intros []%elem_of_nil|].
  rewrite run_from_step by done. cbn.
  destruct (content_generator_agent g state) as [e|s1]; [by intros []%elem_of_nil|].
  destruct limit as [|limit].
  { cbn. intros ->%list_elem_of_singleton. by left. }
  rewrite run_from_step by done. cbn.
  destruct (final_critic_agent _ s1) as [e|s2].
  { cbn. intros ->%list_elem_of_singleton. by left. }
  rewrite run_from_END. cbn.
  intros [-> | ->%list_elem_of_singleton]%elem_of_cons; [by left | by right].
Qed.

(** A run whose first plan critique scores at least 7.5 overall never
    completes the refinement node, whatever the superstep limit. *)
Lemma run_from_converged_first g limit state0 r quality entry :
  critique_at g 1 = Some r →
  QualityScore.validate (score_fields r) = Some quality →
  (7.5 <= QualityScore.overall_score quality)%Q →
  entry ∈ (run_from g limit 0 planner state0).1 → entry.1 ≠ refine_plan.
Proof.
  intros Hr Hvalid Hge.
  destruct limit as [|limit]; [by intros []%elem_of_nil|].
  rewrite run_from_step by done. cbn [run_node next_node].
  destruct (planner_agent (plan_at g 0) state0) as [e|s1]; [by intros []%elem_of_nil|].
  destruct limit as [|limit]; [cbn; by intros ->%list_elem_of_singleton|].
  rewrite run_from_step by done. cbn [run_node next_node].
  rewrite Hr. unfold plan_critic_agent.
  destruct (RedditState.strategic_plan s1) as [plan|]; cbn [subscript rbind].
  2:{ cbn. by intros ->%list_elem_of_singleton. }
  rewrite Hvalid.
  unfold should_refine_plan; cbn [RedditState.quality_score
    RedditState.set_plan_critique RedditState.set_quality_score subscript rbind].
  apply Qle_bool_iff in Hge. rewrite Hge.
  match goal with
  | |- context [run_from g ?l ?s generate_content ?st] =>
      pose proof (run_from_generate_content g l s st) as Hgen;
      destruct (run_from g l s generate_content st) as [trace res]
  end.
  cbn in *.
  intros [-> | [-> | Hin]%elem_of_cons]%elem_of_cons; [done | done |].
  intros Hentry. by destruct (Hgen entry Hin) as [Hn | Hn]; rewrite Hn in Hentry.
Qed.

(** C1. The convergence gate answers [generate_content] (PROCEED) when
    the overall score is at least 7.5; below 7.5 it answers
    [generate_content] when [refinement_iteration >= max_iterations],
    and [refine_plan] (REFINE) otherwise.  In a run whose first plan
    critique (superstep 1) has an overall score of at least 7.5, the
    refinement node never runs. *)
Theorem convergence_gate_rule :
  (∀ state quality,
     RedditState.quality_score state = Some quality →
     let overall := QualityScore.overall_score quality in
     ((7.5 <= overall)%Q → should_refine_plan state = Returned generate_content)
     ∧ ((overall < 7.5)%Q →
        RedditState.max_iterations state ≤ RedditState.refinement_iteration state →
        should_refine_plan state = Returned generate_content)
     ∧ ((overall < 7.5)%Q →
        RedditState.refinement_iteration state < RedditState.max_iterations state →
        should_refine_plan state = Returned refine_plan))
  ∧ (∀ g state0 r quality,
       critique_at g 1 = Some r →
       QualityScore.validate (score_fields r) = Some quality →
       (7.5 <= QualityScore.overall_score quality)%Q →
       ∀ entry, entry ∈ (workflow_trace g state0).1 → entry.1 ≠ refine_plan).
Proof.
  split.
  - intros state quality Hq overall. unfold should_refine_plan. rewrite Hq; cbn.
    fold overall. split_and!.
    + intros Hge. apply Qle_bool_iff in Hge. by rewrite Hge.
    + intros Hlt Hmax.
      destruct (Qle_bool 7.5 overall) eqn:Hb.
      { apply Qle_bool_iff in Hb. by apply Qlt_not_le in Hlt. }
      by destruct (Z.leb_spec (RedditState.max_iterations state)
                     (RedditState.refinement_iteration state)); [|lia].
    + intros Hlt Hmax.
      destruct (Qle_bool 7.5 overall) eqn:Hb.
      { apply Qle_bool_iff in Hb. by apply Qlt_not_le in Hlt. }
      by destruct (Z.leb_spec (RedditState.max_iterations state)
                     (RedditState.refinement_iteration state)); [lia|].
  - intros g state0 r quality Hr Hvalid Hge entry.
    unfold workflow_trace. by eapply run_from_converged_first.
Qed.

(** The run whose first critique validates below the threshold and
    whose refinement prompt does not parse, for any superstep limit of
    at least three. *)
Lemma run_from_template_failed g limit state0 plan r quality :
  plan_at g 0 = Some plan →
  critique_at g 1 = Some r →
  QualityScore.validate (score_fields r) = Some quality →
  (QualityScore.overall_score quality < 7.5)%Q →
  refine_template g quality plan = None →
  RedditState.refinement_iteration state0 < RedditState.max_iterations state0 →
  (3 ≤ limit)%nat →
  let state1 := RedditState.set_strategic_plan plan state0 in
  let state2 := RedditState.set_plan_critique (result_json r)
                  (RedditState.set_quality_score quality state1) in
  run_from g limit 0 planner state0
  = ([(planner, state1); (plan_critic, state2)], Raised ValueError).
Proof.
  intros Hplan Hr Hvalid Hlow Htemplate Hbudget Hlimit state1 state2.
  destruct limit as [|[|[|limit]]]; [lia | lia | lia |].
  rewrite run_from_step by done. cbn [run_node next_node]. rewrite Hplan.
  cbn [planner_agent]. fold state1.
  rewrite run_from_step by done. cbn [run_node next_node].
  unfold plan_critic_agent.
  cbn [state1 RedditState.strategic_plan RedditState.set_strategic_plan
       subscript rbind].
  rewrite Hr, Hvalid. fold state1. fold state2.
  assert (should_refine_plan state2 = Returned refine_plan) as ->.
  { unfold should_refine_plan, state2, state1. cbn -[Qle_bool Z.leb].
    destruct (Qle_bool 7.5 (QualityScore.overall_score quality)) eqn:Hb.
    { apply Qle_bool_iff in Hb. by apply Qlt_not_le in Hlow. }
    by destruct (Z.leb_spec (RedditState.max_iterations state0)
                   (RedditState.refinement_iteration state0)); [lia|]. }
  rewrite run_from_step by done. cbn [run_node].
  unfold refine_plan_agent, state2, state1. cbn -[Z.add].
  by rewrite Htemplate.
Qed.

(** C2, as the code behaves.  The refinement prompt is turned into a
    template before the [try] block of the node: when its text does not
    parse, the node raises [ValueError] and the counter is not
    advanced; in a run whose first critique validates below the
    threshold this ends the run after the planner and the critic, with
    the counter at 0.  When the text parses, refinement adds exactly
    one to [refinement_iteration] whether or not its generation call
    succeeds, leaving the plan alone when it fails.  In every run
    started by [generate_reddit_calendar] every refinement step adds
    one to the counter, the counter never decreases from one completed
    node to the next and stays between 0 and [max_iterations], and the
    run ends without exhausting the graph's superstep limit. *)
Theorem refinement_iteration_unless_template_error g company_info personas
    subreddits target_queries posts_per_week week_number :
  let state0 := initial_state company_info personas subreddits target_queries
                  posts_per_week week_number in
  let run := workflow_trace g state0 in
  (∀ reply state plan quality,
     RedditState.strategic_plan state = Some plan →
     RedditState.quality_score state = Some quality →
     match refine_template g quality plan with
     | None =>
         refine_plan_agent (refine_template g) reply state = Raised ValueError
     | Some input_variables =>
         ∃ state',
           refine_plan_agent (refine_template g) reply state = Returned state'
           ∧ RedditState.refinement_iteration state'
             = RedditState.refinement_iteration state + 1
           ∧ RedditState.max_iterations state' = RedditState.max_iterations state
           ∧ (invoke_without_input input_variables reply = None →
              state' = RedditState.set_refinement_iteration
                         (RedditState.refinement_iteration state + 1) state)
     end)
  ∧ (∀ plan quality,
       plan_at g 0 = Some plan →
       valid_critique g 1 = Some quality →
       (QualityScore.overall_score quality < 7.5)%Q →
       refine_template g quality plan = None →
       run.2 = Raised ValueError
       ∧ run.1.*1 = [planner; plan_critic]
       ∧ Forall (λ entry, iteration_of entry = 0) run.1)
  ∧ (∀ k prev s,
       (state0 :: run.1.*2) !! k = Some prev →
       run.1 !! k = Some (refine_plan, s) →
       RedditState.refinement_iteration s = RedditState.refinement_iteration prev + 1)
  ∧ StronglySorted Z.le (iteration_of <$> run.1)
  ∧ Forall (λ entry, 0 ≤ iteration_of entry
                     ∧ iteration_of entry ≤ RedditState.max_iterations entry.2) run.1
  ∧ run.2 ≠ Raised GraphRecursionError.
Proof.
  intros state0 run.
  assert (within_ceiling planner state0) as Hinv.
  { split; [cbn; lia | done]. }
  assert (steps_needed planner
            (Z.to_nat (RedditState.max_iterations state0
                       - RedditState.refinement_iteration state0))
          ≤ recursion_limit)%nat as Hsteps.
  { vm_compute. lia. }
  assert (3 ≤ recursion_limit)%nat as Hthree by (vm_compute; lia).
  assert (RedditState.refinement_iteration state0 = 0) as Hzero by done.
  assert (RedditState.refinement_iteration state0
          < RedditState.max_iterations state0) as Hbudget by (cbn; lia).
  subst run. unfold workflow_trace.
  revert Hsteps Hthree. generalize recursion_limit. intros limit Hsteps Hthree.
  clearbody state0.
  pose proof (run_from_trace_bounded g limit 0 planner state0 Hinv) as [Hall Hsorted].
  split_and!.
  - intros reply state plan quality Hplan Hq. unfold refine_plan_agent.
    rewrite Hplan, Hq; cbn -[Z.add].
    destruct (refine_template g quality plan) as [input_variables|]; [|done].
    destruct (invoke_without_input input_variables reply) as [week_plan|];
      eexists; split_and!; try done.
  - intros plan quality Hplan Hcritique Hlow Htemplate.
    unfold valid_critique in Hcritique.
    destruct (critique_at g 1) as [r|] eqn:Hr; [cbn in Hcritique | done].
    rewrite (run_from_template_failed g limit state0 plan r quality) by done.
    split_and!; [done | done |].
    repeat constructor; done.
  - intros k prev s Hprev Hk.
    destruct (run_from_counter_steps _ _ _ _ _ _ _ _ Hk) as (prev' & Hprev' & Hiter).
    rewrite Hprev' in Hprev.
    injection Hprev as ->. by rewrite decide_True in Hiter.
  - done.
  - eapply Forall_impl; [exact Hall|].
    intros entry (? & ? & ?). split; [lia | done].
  - by apply run_from_no_recursion_error.
Qed.

(** The run after a failed planner call, for any superstep limit of at
    least two. *)
Lemma run_from_planner_failed g limit state0 :
  plan_at g 0 = None →
  RedditState.strategic_plan state0 = None →
  (2 ≤ limit)%nat →
  run_from g limit 0 planner state0
  = ([(planner, state0)], Raised (KeyError "strategic_plan")).
Proof.
  intros Hplan Hnone Hlimit.
  destruct limit as [|[|limit]]; [lia | lia |].
  rewrite run_from_step by done. cbn [run_node next_node]. rewrite Hplan.
  cbn [planner_agent].
  rewrite run_from_step by done. cbn [run_node]. unfold plan_critic_agent.
  by rewrite Hnone.
Qed.

(** The run after a successful planner call and a failed first critique. *)
Lemma run_from_critic_failed g limit state0 plan :
  plan_at g 0 = Some plan →
  critique_at g 1 ≫= (λ r, QualityScore.validate (score_fields r)) = None →
  RedditState.quality_score state0 = None →
  (2 ≤ limit)%nat →
  let state1 := RedditState.set_strategic_plan plan state0 in
  plan_critic_agent (critique_at g 1) state1 = Returned state1
  ∧ run_from g limit 0 planner state0
    = ([(planner, state1); (plan_critic, state1)],
       Raised (KeyError "quality_score")).
Proof.
  intros Hplan Hcritic Hnone Hlimit state1.
  assert (plan_critic_agent (critique_at g 1) state1 = Returned state1) as Hagent.
  { unfold plan_critic_agent. cbn.
    destruct (critique_at g 1) as [r|]; [cbn in Hcritic|done]. by rewrite Hcritic. }
  split; [done|].
  destruct limit as [|[|limit]]; [lia | lia |].
  rewrite run_from_step by done. cbn [run_node next_node]. rewrite Hplan.
  cbn [planner_agent]. fold state1.
  rewrite run_from_step by done. cbn [run_node next_node]. rewrite Hagent.
  unfold should_refine_plan, state1.
  cbn [RedditState.quality_score RedditState.set_strategic_plan].
  by rewrite Hnone.
Qed.

(** C5, as the code behaves.  When the planner's generation call fails,
    [planner_agent] returns the state unchanged instead of raising (the
    [raise] after its [return] is never reached); the workflow goes on
    to the plan critic, whose read of [strategic_plan] raises, and the
    caller sees [KeyError 'strategic_plan']. *)
Theorem planner_failure_is_absorbed g company_info personas subreddits
    target_queries posts_per_week week_number :
  plan_at g 0 = None →
  let state0 := initial_state company_info personas subreddits target_queries
                  posts_per_week week_number in
  planner_agent (plan_at g 0) state0 = Returned state0
  ∧ next_node planner state0 = Returned plan_critic
  ∧ workflow_trace g state0
    = ([(planner, state0)], Raised (KeyError "strategic_plan"))
  ∧ generate_reddit_calendar g company_info personas subreddits target_queries
      posts_per_week week_number
    = Raised (KeyError "strategic_plan").
Proof.
  intros Hplan state0.
  assert (workflow_trace g state0
          = ([(planner, state0)], Raised (KeyError "strategic_plan"))) as Htrace.
  { unfold workflow_trace. apply run_from_planner_failed; [done | done |].
    unfold recursion_limit. lia. }
  split_and!; [by rewrite Hplan | done | done |].
  unfold generate_reddit_calendar, workflow_invoke. fold state0. by rewrite Htrace.
Qed.

(** C9. The gate reads [quality_score] unguarded.  When the planner
    succeeds and the first plan critique fails (the call raises, or its
    scores do not validate), the critic returns the state with no
    quality score, the gate raises [KeyError 'quality_score'], and the
    whole run ends with that exception. *)
Theorem critic_failure_aborts_run g company_info personas subreddits
    target_queries posts_per_week week_number plan :
  plan_at g 0 = Some plan →
  critique_at g 1 ≫= (λ r, QualityScore.validate (score_fields r)) = None →
  let state0 := initial_state company_info personas subreddits target_queries
                  posts_per_week week_number in
  let state1 := RedditState.set_strategic_plan plan state0 in
  plan_critic_agent (critique_at g 1) state1 = Returned state1
  ∧ RedditState.quality_score state1 = None
  ∧ should_refine_plan state1 = Raised (KeyError "quality_score")
  ∧ workflow_trace g state0
    = ([(planner, state1); (plan_critic, state1)],
       Raised (KeyError "quality_score"))
  ∧ generate_reddit_calendar g company_info personas subreddits target_queries
      posts_per_week week_number
    = Raised (KeyError "quality_score").
Proof.
  intros Hplan Hcritic state0 state1.
  destruct (run_from_critic_failed g recursion_limit state0 plan Hplan Hcritic)
    as [Hagent Htrace]; [done | unfold recursion_limit; lia |].
  split_and!; [done | done | done | done |].
  unfold generate_reddit_calendar, workflow_invoke, workflow_trace.
  fold state0. by rewrite Htrace.
Qed.

(** C8. The content generator attaches the all-zero score to its bundle.
    A failing final critic (the call raises, or its scores do not
    validate) returns that bundle as the final content, score
    untouched; a successful one replaces the score by the critic's.  A
    run that returns therefore carries the final critic's score, or the
    all-zero one when the final critic failed. *)
Theorem placeholder_score_until_final_critic g :
  (∀ state state',
     content_generator_agent g state = Returned state' →
     ∃ content,
       RedditState.generated_content state' = Some content
       ∧ GeneratedContent.quality_assessment content
         = QualityScore.mk 0 0 0 0 0 [] [])
  ∧ (∀ reply state content,
       RedditState.generated_content state = Some content →
       reply ≫= (λ r, QualityScore.validate (score_fields r)) = None →
       final_critic_agent reply state
       = Returned (RedditState.set_final_content content state))
  ∧ (∀ r quality state content,
       RedditState.generated_content state = Some content →
       QualityScore.validate (score_fields r) = Some quality →
       ∃ state',
         final_critic_agent (Some r) state = Returned state'
         ∧ RedditState.final_content state'
           = Some (GeneratedContent.set_quality_assessment quality content))
  ∧ (∀ company_info personas subreddits target_queries posts_per_week
       week_number content,
       generate_reddit_calendar g company_info personas subreddits
         target_queries posts_per_week week_number = Returned content →
       ∃ step,
         GeneratedContent.quality_assessment content
         = default QualityScore.placeholder
             (critique_at g step ≫= (λ r, QualityScore.validate (score_fields r)))).
Proof.
  assert (∀ state state',
    content_generator_agent g state = Returned state' →
    ∃ content,
      RedditState.generated_content state' = Some content
      ∧ GeneratedContent.quality_assessment content = QualityScore.placeholder)
    as Hgen.
  { intros state state' Hrun.
    destruct (RedditState.strategic_plan state) as [plan|] eqn:Hplan.
    - pose proof (content_generator_agent_spec g state plan Hplan) as Hspec.
      rewrite Hrun in Hspec. destruct Hspec as (content & -> & Hq & _).
      by exists content.
    - unfold content_generator_agent in Hrun. by rewrite Hplan in Hrun. }
  split_and!.
  - done.
  - intros reply state content Hcontent Hreply. unfold final_critic_agent.
    rewrite Hcontent; cbn.
    destruct reply as [r|]; [cbn in Hreply|done]. by rewrite Hreply.
  - intros r quality state content Hcontent Hvalid. unfold final_critic_agent.
    rewrite Hcontent; cbn. rewrite Hvalid. by eexists.
  - intros company_info personas subreddits target_queries posts_per_week
      week_number content.
    unfold generate_reddit_calendar, workflow_invoke, workflow_trace.
    generalize recursion_limit. intros limit.
    destruct (run_from g limit 0 planner _).2 as [e|final] eqn:Hrun; [done|].
    cbn [rbind]. intros Hresult.
    apply run_from_returns in Hrun as (step & s & s' & Hs & Hfinal); [|done..].
    destruct (Hgen s s' Hs) as (content0 & Hcontent0 & Hq0).
    exists step. unfold final_critic_agent in Hfinal.
    rewrite Hcontent0 in Hfinal; cbn in Hfinal.
    destruct (critique_at g step) as [r|]; cbn.
    + destruct (QualityScore.validate (score_fields r)) as [quality|]; cbn;
        injection Hfinal as <-; cbn in Hresult; by injection Hresult as <-.
    + injection Hfinal as <-; cbn in Hresult; by injection Hresult as <-.
Qed.

(** C10. The primary persona of each plan item is looked up before the
    item's [try] block.  If some item of the plan names a primary
    persona that is not a username of the roster, the stage raises
    [KeyError] for such an item and returns no content at all, whatever
    the other items are. *)
Theorem unknown_primary_persona_aborts_stage g state plan item :
  RedditState.strategic_plan state = Some plan →
  item ∈ WeekPlan.posts plan →
  (∀ p, p ∈ RedditState.personas state →
        Persona.username p ≠ PostPlan.primary_persona item) →
  ∃ item',
    item' ∈ WeekPlan.posts plan
    ∧ (∀ p, p ∈ RedditState.personas state →
            Persona.username p ≠ PostPlan.primary_persona item')
    ∧ content_generator_agent g state
      = Raised (KeyError (PostPlan.primary_persona item')).
Proof.
  intros Hplan Hitem Hunknown.
  pose proof (content_generator_agent_spec g state plan Hplan) as Hspec.
  destruct (content_generator_agent g state) as [e|state'].
  - destruct Hspec as (item' & Hin & Hnone & ->). exists item'.
    split_and!; [done | | done].
    intros p Hp Hu.
    assert (is_Some (make_personas_dict (RedditState.personas state)
                     !! PostPlan.primary_persona item')) as [? Hsome].
    { apply make_personas_dict_lookup. eauto. }
    by rewrite Hnone in Hsome.
  - destruct Hspec as (content & _ & _ & _ & Hknown & _).
    rewrite Forall_forall in Hknown.
    apply Hknown, make_personas_dict_lookup in Hitem as (p & Hp & Hu).
    by destruct (Hunknown p Hp).
Qed.

Lemma comment_id_of_inj n n' : comment_id_of n = comment_id_of n' → n = n'.
Proof.
  unfold comment_id_of. intros [= Heq].
  change (pretty (n + 1)%nat = pretty (n' + 1)%nat) in Heq.
  apply (inj (pretty : nat → string)) in Heq. lia.
Qed.

Lemma posts_from_lookup g pd : ∀ items start k item post,
  items !! k = Some item →
  post_for g pd (start + k) item = Some post →
  post ∈ posts_from g pd start items.
Proof.
  induction items as [|item' items IH]; intros start k item post Hk Hpost; [done|].
  cbn. apply elem_of_app. destruct k as [|k].
  - injection Hk as ->. rewrite Nat.add_0_r in Hpost. rewrite Hpost.
    left. by apply list_elem_of_singleton.
  - right. eapply (IH (S start) k); [done|].
    by replace (S start + k)%nat with (start + S k)%nat by lia.
Qed.

(** C7. In the output of the stage, a comment whose [parent_comment_id]
    is set refers to a comment that stands earlier in the list of
    comments (comments are appended as they are created) and has the
    same [post_id]; no other comment of the output has that id. *)
Theorem parent_comment_created_earlier g state state' content :
  content_generator_agent g state = Returned state' →
  RedditState.generated_content state' = Some content →
  ∀ idx comment pid,
    GeneratedContent.comments content !! idx = Some comment →
    RedditComment.parent_comment_id comment = Some pid →
    ∃ idx' parent,
      (idx' < idx)%nat
      ∧ GeneratedContent.comments content !! idx' = Some parent
      ∧ RedditComment.comment_id parent = pid
      ∧ RedditComment.post_id parent = RedditComment.post_id comment
      ∧ ∀ k c, GeneratedContent.comments content !! k = Some c →
               RedditComment.comment_id c = pid → k = idx'.
Proof.
  intros Hrun Hcontent idx comment pid Hidx Hpid.
  destruct (RedditState.strategic_plan state) as [plan|] eqn:Hplan; last first.
  { unfold content_generator_agent in Hrun. by rewrite Hplan in Hrun. }
  pose proof (content_generator_agent_spec g state plan Hplan) as Hspec.
  rewrite Hrun in Hspec.
  destruct Hspec as (content' & -> & _ & [_ Hcomments] & _).
  cbn in Hcontent. injection Hcontent as ->. cbn in Hcomments.
  destruct (Hcomments idx comment Hidx) as (_ & _ & Hparent).
  destruct (Hparent pid Hpid) as (idx' & parent & Hlt & Hidx' & Hid & Hpost).
  exists idx', parent. split_and!; try done.
  intros k c Hk Hc.
  destruct (Hcomments k c Hk) as (Hkid & _).
  destruct (Hcomments idx' parent Hidx') as (Hpid' & _).
  apply comment_id_of_inj. congruence.
Qed.

(** C6, as the code behaves.  [generate_reddit_calendar] takes no
    iteration ceiling: every run starts with [max_iterations = 2] and
    [refinement_iteration = 0].  It returns the bundle stored under
    [final_content] by the final critic, or re-raises unchanged the
    exception that stopped the workflow: the entry point adds no
    exception of its own and wraps none. *)
Theorem entry_point_result g company_info personas subreddits target_queries
    posts_per_week week_number :
  let state0 := initial_state company_info personas subreddits target_queries
                  posts_per_week week_number in
  RedditState.max_iterations state0 = 2
  ∧ RedditState.refinement_iteration state0 = 0
  ∧ match generate_reddit_calendar g company_info personas subreddits
            target_queries posts_per_week week_number with
    | Returned content =>
        ∃ final, workflow_invoke g state0 = Returned final
                 ∧ RedditState.final_content final = Some content
    | Raised e => workflow_invoke g state0 = Raised e
    end.
Proof.
  intros state0. split_and!; [done | done |].
  assert (within_ceiling planner state0) as Hinv.
  { split; [cbn; lia | done]. }
  assert (steps_needed planner
            (Z.to_nat (RedditState.max_iterations state0
                       - RedditState.refinement_iteration state0))
          ≤ recursion_limit)%nat as Hsteps.
  { vm_compute. lia. }
  unfold generate_reddit_calendar. fold state0.
  unfold workflow_invoke, workflow_trace.
  revert Hsteps. generalize recursion_limit. intros limit Hsteps.
  clearbody state0.
  destruct (run_from g limit 0 planner state0).2 as [e|final] eqn:Hrun; cbn.
  - done.
  - apply run_from_returns in Hrun as Hfinal; [|done..].
    destruct Hfinal as (step & s & s' & _ & Hfinal).
    unfold final_critic_agent in Hfinal.
    destruct (RedditState.generated_content s') as [content|]; [|done].
    cbn in Hfinal.
    assert (is_Some (RedditState.final_content final)) as [c Hc].
    { destruct (critique_at g step) as [r|];
        [destruct (QualityScore.validate (score_fields r))|];
        injection Hfinal as <-; cbn; eauto. }
    rewrite Hc. cbn. eauto.
Qed.

End Properties.

(** * Further properties of the pipeline *)

Section MoreProperties.
Context `{DateTimeLib}.

Implicit Types (g : Generation) (state : RedditState.t) (node : Node).

(** ** Runs *)

Lemma refinements_cons node state trace :
  refinements ((node, state) :: trace)
  = ((if decide (node = refine_plan) then 1 else 0) + refinements trace)%nat.
Proof.
  unfold refinements. rewrite filter_cons. cbn.
  destruct (decide (node = refine_plan)); done.
Qed.

(** The counter of the state a run returns is the counter it started
    from plus the number of refinements it made. *)
Lemma run_from_refinements g limit : ∀ step node state final,
  (run_from g limit step node state).2 = Returned final →
  RedditState.refinement_iteration final
  = RedditState.refinement_iteration state
    + Z.of_nat (refinements (run_from g limit step node state).1).
Proof.
  induction limit as [|limit IH]; intros step node state final.
  { destruct node; cbn; try done. intros [= <-]. unfold refinements. cbn. lia. }
  destruct (decide (node = END)) as [->|Hnode].
  { rewrite run_from_END. cbn. intros [= <-]. unfold refinements. cbn. lia. }
  rewrite run_from_step by done.
  destruct (run_node g step node state) as [e|state'] eqn:Hrun; [done|].
  pose proof (run_node_counters _ _ _ _ _ Hrun) as [_ Hiter].
  destruct (next_node node state') as [e|node'] eqn:Hnext; [done|].
  specialize (IH (S step) node' state' final).
  destruct (run_from g limit (S step) node' state') as [trace r]; cbn [fst snd] in *.
  intros Hr. rewrite (IH Hr), refinements_cons, Hiter.
  destruct (decide (node = refine_plan)); lia.
Qed.

(** Within the ceiling, a run makes no more refinements than the counter
    has room for. *)
Lemma run_from_refinements_bounded g limit : ∀ step node state,
  within_ceiling node state →
  Z.of_nat (refinements (run_from g limit step node state).1)
  ≤ RedditState.max_iterations state - RedditState.refinement_iteration state.
Proof.
  induction limit as [|limit IH]; intros step node state Hinv.
  { destruct Hinv. destruct node; unfold refinements; cbn; lia. }
  destruct (decide (node = END)) as [->|Hnode].
  { destruct Hinv. rewrite run_from_END. unfold refinements; cbn. lia. }
  rewrite run_from_step by done.
  destruct (run_node g step node state) as [e|state'] eqn:Hrun.
  { destruct Hinv. unfold refinements; cbn. lia. }
  pose proof (run_node_counters _ _ _ _ _ Hrun) as [Hmax Hiter].
  destruct (next_node node state') as [e|node'] eqn:Hnext.
  { destruct Hinv as [Hle Hlt]. cbn [fst snd]. rewrite refinements_cons.
    change (refinements []) with 0%nat.
    destruct (decide (node = refine_plan)) as [->|]; [specialize (Hlt eq_refl)|]; lia. }
  destruct (within_ceiling_next _ _ _ _ _ _ Hinv Hrun Hnext) as (Hinv' & _ & _).
  specialize (IH (S step) node' state' Hinv').
  destruct (run_from g limit (S step) node' state') as [trace r]; cbn [fst snd] in *.
  rewrite refinements_cons. destruct (decide (node = refine_plan)); lia.
Qed.

(** X1. In every run started by [generate_reddit_calendar] the
    refinement node completes at most twice, and the counter of the
    state a run returns is the number of refinements it made. *)
Theorem at_most_two_refinements g company_info personas subreddits
    target_queries posts_per_week week_number :
  let run := workflow_trace g (initial_state company_info personas subreddits
                                 target_queries posts_per_week week_number) in
  (refinements run.1 ≤ 2)%nat
  ∧ ∀ final, run.2 = Returned final →
             RedditState.refinement_iteration final = Z.of_nat (refinements run.1).
Proof.
  intros run. subst run. unfold workflow_trace.
  generalize recursion_limit. intros limit.
  set (state0 := initial_state _ _ _ _ _ _).
  assert (within_ceiling planner state0) as Hinv by (split; [cbn; lia | done]).
  assert (RedditState.max_iterations state0 = 2) as Hmax by done.
  assert (RedditState.refinement_iteration state0 = 0) as Hzero by done.
  clearbody state0. split.
  - pose proof (run_from_refinements_bounded g limit 0 planner state0 Hinv). lia.
  - intros final Hfinal. rewrite (run_from_refinements _ _ _ _ _ _ Hfinal). lia.
Qed.

(** ** Scores that never converge *)

Lemma plan_critic_agent_low g step state :
  never_converges g →
  is_Some (RedditState.strategic_plan state) →
  low_score state ∨ is_Some (valid_critique g step) →
  ∃ state',
    plan_critic_agent (critique_at g step) state = Returned state'
    ∧ low_score state'
    ∧ is_Some (RedditState.strategic_plan state')
    ∧ RedditState.refinement_iteration state'
      = RedditState.refinement_iteration state
    ∧ RedditState.max_iterations state' = RedditState.max_iterations state.
Proof.
  intros Hnever [plan Hplan] Hlow. unfold plan_critic_agent. rewrite Hplan; cbn.
  unfold valid_critique in Hlow.
  destruct (critique_at g step) as [r|] eqn:Hr; cbn in Hlow.
  - destruct (QualityScore.validate (score_fields r)) as [quality|] eqn:Hvalid.
    + eexists. split; [done|].
      split; [exists quality; split; [done | by eapply Hnever]|].
      split_and!; cbn; try done; try by eexists.
    + destruct Hlow as [Hlow | [? [=]]]. eexists. split; [done|].
      split; [done|]. split_and!; try done; try by eexists.
  - destruct Hlow as [Hlow | [? [=]]]. eexists. split; [done|].
    split; [done|]. split_and!; try done; try by eexists.
Qed.

Lemma refine_plan_agent_low g reply state :
  prompts_parse g →
  is_Some (RedditState.strategic_plan state) →
  low_score state →
  ∃ state',
    refine_plan_agent (refine_template g) reply state = Returned state'
    ∧ low_score state'
    ∧ is_Some (RedditState.strategic_plan state')
    ∧ RedditState.refinement_iteration state'
      = RedditState.refinement_iteration state + 1
    ∧ RedditState.max_iterations state' = RedditState.max_iterations state.
Proof.
  intros Hparse [plan Hplan] (quality & Hq & Hlow). unfold refine_plan_agent.
  rewrite Hplan, Hq; cbn -[Z.add].
  destruct (Hparse quality plan) as [input_variables ->].
  destruct (invoke_without_input input_variables reply) as [week_plan|];
    eexists; (split; [done|]);
    (split; [by exists quality|]); split_and!; cbn -[Z.add]; try done; try by eexists.
Qed.

Lemma should_refine_plan_low state :
  low_score state →
  should_refine_plan state
  = Returned (if decide (RedditState.refinement_iteration state
                         < RedditState.max_iterations state)
              then refine_plan else generate_content).
Proof.
  intros (quality & Hq & Hlow). unfold should_refine_plan. rewrite Hq; cbn.
  destruct (Qle_bool 7.5 (QualityScore.overall_score quality)) eqn:Hb.
  { apply Qle_bool_iff in Hb. by apply Qlt_not_le in Hlow. }
  destruct (Z.leb_spec (RedditState.max_iterations state)
              (RedditState.refinement_iteration state));
    destruct (decide _); (done || lia).
Qed.

(** From the plan critic, with scores that never converge, the run
    alternates critic and refinement until the counter reaches the
    ceiling, then generates content. *)
Lemma run_from_low_scores g (d : nat) : ∀ limit step state,
  prompts_parse g →
  never_converges g →
  is_Some (RedditState.strategic_plan state) →
  low_score state ∨ is_Some (valid_critique g step) →
  RedditState.max_iterations state - RedditState.refinement_iteration state
  = Z.of_nat d →
  ∃ step' state',
    (run_from g (2 * d + 1 + limit) step plan_critic state).1.*1
    = concat (replicate d [plan_critic; refine_plan])
      ++ plan_critic :: (run_from g limit step' generate_content state').1.*1.
Proof.
  induction d as [|d IH]; intros limit step state Hparse Hnever Hplan Hlow Hroom.
  - destruct (plan_critic_agent_low g step state Hnever Hplan Hlow)
      as (state' & Hcritic & Hlow' & _ & Hiter & Hmax).
    change (2 * 0 + 1 + limit)%nat with (S limit).
    rewrite run_from_step by done. cbn [run_node next_node]. rewrite Hcritic.
    rewrite (should_refine_plan_low _ Hlow'), decide_False by lia.
    exists (S step), state'.
    destruct (run_from g limit (S step) generate_content state'). done.
  - destruct (plan_critic_agent_low g step state Hnever Hplan Hlow)
      as (state' & Hcritic & Hlow' & Hplan' & Hiter & Hmax).
    replace (2 * S d + 1 + limit)%nat with (S (S (2 * d + 1 + limit))) by lia.
    rewrite run_from_step by done. cbn [run_node next_node]. rewrite Hcritic.
    rewrite (should_refine_plan_low _ Hlow'), decide_True by lia.
    rewrite run_from_step by done. cbn [run_node next_node].
    destruct (refine_plan_agent_low g (plan_at g (S step)) state' Hparse Hplan' Hlow')
      as (state'' & -> & Hlow'' & Hplan'' & Hiter' & Hmax').
    destruct (IH limit (S (S step)) state'' Hparse Hnever Hplan'' (or_introl Hlow''))
      as (step' & final & Hnodes); [lia|].
    exists step', final.
    destruct (run_from g (2 * d + 1 + limit) (S (S step)) plan_critic state'').
    cbn in *. by rewrite Hnodes.
Qed.

(** X2. When the planner answers, the first critique validates, no
    critique ever reaches 7.5 overall and the refinement prompts parse
    as templates, a run of the entry point completes planner, critic,
    refinement, critic, refinement, critic in this order, whether or
    not the refinement calls succeed, and after that only the content
    generator and the final critic. *)
Theorem low_scores_use_both_refinements g company_info personas subreddits
    target_queries posts_per_week week_number plan :
  plan_at g 0 = Some plan →
  is_Some (valid_critique g 1) →
  never_converges g →
  prompts_parse g →
  ∃ tail,
    (workflow_trace g (initial_state company_info personas subreddits
                         target_queries posts_per_week week_number)).1.*1
    = [planner; plan_critic; refine_plan; plan_critic; refine_plan; plan_critic]
      ++ tail
    ∧ ∀ node, node ∈ tail → node = generate_content ∨ node = final_critic.
Proof.
  intros Hplan Hfirst Hnever Hparse. unfold workflow_trace.
  change recursion_limit with (S (2 * 2 + 1 + 19))%nat.
  generalize 19%nat. intros limit.
  rewrite run_from_step by done. cbn [run_node next_node]. rewrite Hplan.
  cbn [planner_agent].
  set (state1 := RedditState.set_strategic_plan plan _).
  assert (is_Some (RedditState.strategic_plan state1)) as Hplan1 by (by eexists).
  assert (RedditState.max_iterations state1
          - RedditState.refinement_iteration state1 = Z.of_nat 2) as Hroom by done.
  clearbody state1.
  destruct (run_from_low_scores g 2 limit 1 state1 Hparse Hnever Hplan1
              (or_intror Hfirst) Hroom) as (step' & state' & Hnodes).
  destruct (run_from g (2 * 2 + 1 + limit) 1 plan_critic state1) as [trace r].
  cbn [fst snd fmap list_fmap] in *. rewrite Hnodes. cbn.
  eexists. split; [done|].
  intros node (entry & -> & Hin)%list_elem_of_fmap.
  by eapply run_from_generate_content.
Qed.

(** ** What a run returns *)

Lemma run_node_personas g step node state state' :
  run_node g step node state = Returned state' →
  RedditState.personas state' = RedditState.personas state.
Proof.
  destruct node; cbn; intros Hrun.
  - unfold planner_agent in Hrun. by destruct (plan_at g step); injection Hrun as <-.
  - unfold plan_critic_agent in Hrun.
    destruct (RedditState.strategic_plan state); [cbn in Hrun | done].
    destruct (critique_at g step) as [r|]; [|by injection Hrun as <-].
    by destruct (QualityScore.validate (score_fields r)); injection Hrun as <-.
  - pose proof (refine_plan_agent_cases (refine_template g) (plan_at g step) state)
      as Hcases.
    rewrite Hrun in Hcases.
    by destruct Hcases as (? & ? & ? & _ & _ & _ & [-> | (? & _ & _ & ->)]).
  - unfold content_generator_agent in Hrun.
    destruct (RedditState.strategic_plan state); [cbn in Hrun | done].
    destruct (for_enumerate _ _ _ _) as [[e|[]] l]; [done|].
    by injection Hrun as <-.
  - unfold final_critic_agent in Hrun.
    destruct (RedditState.generated_content state); [cbn in Hrun | done].
    destruct (critique_at g step) as [r|]; [|by injection Hrun as <-].
    by destruct (QualityScore.validate (score_fields r)); injection Hrun as <-.
  - by injection Hrun as <-.
Qed.

Lemma run_node_plan_answered g personas step node state state' :
  node ≠ generate_content → node ≠ final_critic →
  plan_answered g personas state →
  run_node g step node state = Returned state' →
  plan_answered g personas state'.
Proof.
  intros Hgen Hfinal [Hpersonas Hplan] Hrun.
  split; [by rewrite (run_node_personas _ _ _ _ _ Hrun)|].
  destruct node; cbn in Hrun; try done.
  - unfold planner_agent in Hrun.
    destruct (plan_at g step) as [week_plan|] eqn:Hreply;
      injection Hrun as <-; [|exact Hplan].
    cbn. intros plan [= <-]. eauto.
  - unfold plan_critic_agent in Hrun.
    destruct (RedditState.strategic_plan state) eqn:Hsome; [cbn in Hrun | done].
    destruct (critique_at g step) as [r|];
      [destruct (QualityScore.validate (score_fields r))|];
      injection Hrun as <-; cbn; rewrite ?Hsome; exact Hplan.
  - pose proof (refine_plan_agent_cases (refine_template g) (plan_at g step) state)
      as Hcases.
    rewrite Hrun in Hcases.
    destruct Hcases
      as (? & ? & ? & _ & _ & _ & [-> | (week_plan & _ & Hreply & ->)]).
    + exact Hplan.
    + cbn. intros plan [= <-]. eauto.
  - injection Hrun as <-. exact Hplan.
Qed.

(** A run that returns went through the content generator, on a state
    that satisfies whatever the plan-level nodes preserve, and then
    through the final critic. *)
Lemma run_from_returns_with g (P : RedditState.t → Prop) :
  (∀ step node state state',
     node ≠ generate_content → node ≠ final_critic →
     P state → run_node g step node state = Returned state' → P state') →
  ∀ limit step node state final,
  node ≠ END → node ≠ final_critic → P state →
  (run_from g limit step node state).2 = Returned final →
  ∃ step' s s',
    P s
    ∧ content_generator_agent g s = Returned s'
    ∧ final_critic_agent (critique_at g step') s' = Returned final.
Proof.
  intros Hkeep.
  induction limit as [|limit IH]; intros step node state final Hend Hfc HP.
  { by rewrite run_from_O. }
  rewrite run_from_step by done.
  destruct (run_node g step node state) as [e|state'] eqn:Hrun; [done|].
  destruct (next_node node state') as [e|node'] eqn:Hnext; [done|].
  specialize (IH (S step) node' state' final).
  destruct (decide (node = generate_content)) as [->|Hgen].
  - cbn in Hnext, Hrun. injection Hnext as <-. clear IH.
    destruct limit as [|limit]; [done|].
    rewrite run_from_step by done. cbn.
    destruct (final_critic_agent (critique_at g (S step)) state') as [e|s''] eqn:Hfinal;
      [done|].
    rewrite run_from_END. cbn. intros [= <-]. eauto 10.
  - destruct (run_from g limit (S step) node' state') as [trace r]; cbn [fst snd] in *.
    apply IH.
    + destruct node; cbn in Hnext; try done; try (by injection Hnext as <-).
      by apply should_refine_plan_targets in Hnext as [-> | ->].
    + destruct node; cbn in Hnext; try done; try (by injection Hnext as <-).
      by apply should_refine_plan_targets in Hnext as [-> | ->].
    + by eapply Hkeep.
Qed.

Lemma validate_within_bounds raw quality :
  QualityScore.validate raw = Some quality →
  quality = raw ∧ score_within_bounds quality.
Proof.
  unfold QualityScore.validate, QualityScore.in_range.
  destruct (_ && _) eqn:Hb; [|done]. intros [= <-]. split; [done|].
  repeat (apply andb_prop in Hb as [Hb ?]).
  unfold score_within_bounds, within_bounds.
  repeat match goal with
         | H : andb _ _ = true |- _ => apply andb_prop in H as [? ?]
         end.
  by repeat split; apply Qle_bool_iff.
Qed.

Lemma placeholder_within_bounds : score_within_bounds QualityScore.placeholder.
Proof. by repeat split. Qed.

(** What the entry point returns, traced back to the two stages that
    built it. *)
Lemma calendar_returned g company_info personas subreddits target_queries
    posts_per_week week_number content :
  generate_reddit_calendar g company_info personas subreddits target_queries
    posts_per_week week_number = Returned content →
  ∃ step state state' generated,
    plan_answered g personas state
    ∧ content_generator_agent g state = Returned state'
    ∧ RedditState.generated_content state' = Some generated
    ∧ GeneratedContent.quality_assessment generated = QualityScore.placeholder
    ∧ content
      = match valid_critique g step with
        | Some quality => GeneratedContent.set_quality_assessment quality generated
        | None => generated
        end.
Proof.
  unfold generate_reddit_calendar, workflow_invoke, workflow_trace.
  generalize recursion_limit. intros limit.
  set (state0 := initial_state _ _ _ _ _ _).
  assert (plan_answered g personas state0) as Hstart by (by split).
  clearbody state0.
  destruct (run_from g limit 0 planner state0).2 as [e|final] eqn:Hrun; [done|].
  cbn [rbind]. intros Hresult.
  apply (run_from_returns_with g (plan_answered g personas)) in Hrun
    as (step & s & s' & Hs & Hgen & Hfinal); [|by apply run_node_plan_answered|done..].
  destruct (RedditState.strategic_plan s) as [plan|] eqn:Hplan; last first.
  { unfold content_generator_agent in Hgen. by rewrite Hplan in Hgen. }
  pose proof (content_generator_agent_spec g s plan Hplan) as Hspec.
  rewrite Hgen in Hspec. destruct Hspec as (generated & -> & Hq & _).
  exists step, s, (RedditState.set_generated_content generated s), generated.
  split_and!; [done | done | done | done |].
  unfold final_critic_agent in Hfinal. cbn in Hfinal. unfold valid_critique.
  destruct (critique_at g step) as [r|]; cbn.
  - destruct (QualityScore.validate (score_fields r)) as [quality|];
      injection Hfinal as <-; cbn in Hresult; by injection Hresult as <-.
  - injection Hfinal as <-; cbn in Hresult; by injection Hresult as <-.
Qed.

(** X3. Every bundle returned by [generate_reddit_calendar] carries a
    score whose five dimensions lie between 0 and 10. *)
Theorem returned_score_within_bounds g company_info personas subreddits
    target_queries posts_per_week week_number content :
  generate_reddit_calendar g company_info personas subreddits target_queries
    posts_per_week week_number = Returned content →
  score_within_bounds (GeneratedContent.quality_assessment content).
Proof.
  intros (step & s & s' & generated & _ & _ & _ & Hq & ->)%calendar_returned.
  destruct (valid_critique g step) as [quality|] eqn:Hvalid; cbn.
  - unfold valid_critique in Hvalid.
    destruct (critique_at g step) as [r|]; [cbn in Hvalid | done].
    by apply validate_within_bounds in Hvalid as [_ ?].
  - rewrite Hq. apply placeholder_within_bounds.
Qed.

(** X4. The posts and comments of a returned bundle are those the
    content generator built, for the roster of the request, from a plan
    that the planner or a refinement answered; the final critic changes
    nothing but the score. *)
Theorem returned_bundle_from_answered_plan g company_info personas subreddits
    target_queries posts_per_week week_number content :
  generate_reddit_calendar g company_info personas subreddits target_queries
    posts_per_week week_number = Returned content →
  ∃ step plan state state' generated,
    plan_at g step = Some plan
    ∧ RedditState.strategic_plan state = Some plan
    ∧ RedditState.personas state = personas
    ∧ content_generator_agent g state = Returned state'
    ∧ RedditState.generated_content state' = Some generated
    ∧ GeneratedContent.posts content = GeneratedContent.posts generated
    ∧ GeneratedContent.comments content = GeneratedContent.comments generated.
Proof.
  intros (step & s & s' & generated & [Hps Hplan] & Hgen & Hcontent & _ & ->)
    %calendar_returned.
  destruct (RedditState.strategic_plan s) as [plan|] eqn:Hsome; last first.
  { unfold content_generator_agent in Hgen. by rewrite Hsome in Hgen. }
  destruct (Hplan plan eq_refl) as [k Hk].
  exists k, plan, s, s', generated. split_and!; try done.
  - by destruct (valid_critique g step).
  - by destruct (valid_critique g step).
Qed.

(** ** Runs that got past the first critique *)




(** ** An invariant rule for the content generator

    A property of the two lists that holds when they are empty and
    survives each [posts.append] and each [comments.append] of the stage
    holds of the bundle the stage returns. *)

Section InvariantRule.
Variables (g : Generation) (personas_dict : gmap string Persona.t)
  (plan_posts : list PostPlan.t) (I : Locals.t → Prop).

Hypothesis append_post_keeps :
  ∀ l i post_plan primary_persona post_result post_time,
    plan_posts !! i = Some post_plan →
    personas_dict !! PostPlan.primary_persona post_plan = Some primary_persona →
    post_at g i = Some post_result →
    strptime (scheduled post_plan) = Some post_time →
    I l →
    I (Locals.mk
         (Locals.posts l
          ++ [RedditPost.mk (post_id_of i) (PostPlan.subreddit post_plan)
                (result_title post_result) (result_body post_result)
                (Persona.username primary_persona) (strftime post_time)
                [PostPlan.target_keyword post_plan]])
         (Locals.comments l)).

Hypothesis append_comment_keeps :
  ∀ l i post_plan post post_time j cu commenter parent r comment_time,
    plan_posts !! i = Some post_plan →
    PostPlan.commenting_personas post_plan !! j = Some cu →
    personas_dict !! cu = Some commenter →
    post ∈ Locals.posts l →
    RedditPost.post_id post = post_id_of i →
    choose_parent (random_at g i j) j post (Locals.comments l) = Returned parent →
    comment_at g i j = Some r →
    add_minutes post_time (delay_of r) = Some comment_time →
    I l →
    I (Locals.mk (Locals.posts l)
         (Locals.comments l
          ++ [RedditComment.mk (comment_id_of (length (Locals.comments l)))
                (RedditPost.post_id post) (RedditComment.comment_id <$> parent)
                (result_comment_text r) (Persona.username commenter)
                (strftime comment_time) (delay_of r)])).

Lemma comment_loop_keeps i post_plan post post_time :
  plan_posts !! i = Some post_plan →
  RedditPost.post_id post = post_id_of i →
  ∀ cus j l,
    (∀ k cu, cus !! k = Some cu →
             PostPlan.commenting_personas post_plan !! (j + k)%nat = Some cu) →
    post ∈ Locals.posts l →
    I l →
    I (for_enumerate (comment_loop_body g personas_dict i post_plan post post_time)
         j cus l).2.
Proof.
  intros Hitem Hid.
  induction cus as [|cu cus IH]; intros j l Hcus Hin Hl; [done|].
  cbn [for_enumerate]. unfold gbind at 1. rewrite comment_loop_body_eq.
  assert (PostPlan.commenting_personas post_plan !! j = Some cu) as Hj.
  { specialize (Hcus 0%nat cu eq_refl). by rewrite Nat.add_0_r in Hcus. }
  assert (∀ k cu', cus !! k = Some cu' →
            PostPlan.commenting_personas post_plan !! (S j + k)%nat = Some cu')
    as Hcus'.
  { intros k cu' Hk. specialize (Hcus (S k) cu' Hk).
    by replace (S j + k)%nat with (j + S k)%nat by lia. }
  destruct (personas_dict !! cu) as [commenter|] eqn:Hcu; [|done].
  destruct (choose_parent (random_at g i j) j post (Locals.comments l))
    as [e|parent] eqn:Hparent; [done|].
  destruct (comment_at g i j) as [r|] eqn:Hr; [|by apply IH].
  destruct (add_minutes post_time (delay_of r)) as [comment_time|] eqn:Htime;
    [|by apply IH].
  apply IH; [done | done |]. by eapply append_comment_keeps.
Qed.

Lemma post_loop_body_keeps i post_plan l :
  plan_posts !! i = Some post_plan →
  I l →
  I (post_loop_body g personas_dict i post_plan l).2.
Proof.
  intros Hitem Hl.
  unfold post_loop_body, gbind at 1, lift at 1, subscript.
  destruct (personas_dict !! PostPlan.primary_persona post_plan)
    as [persona|] eqn:Hp; [|done].
  unfold try_except, gbind at 1, lift at 1, invoke.
  destruct (post_at g i) as [r|] eqn:Hr; cbn; [|done].
  unfold parse_post_time.
  change (PostPlan.scheduled_date post_plan +:+ " "
          +:+ PostPlan.scheduled_time post_plan) with (scheduled post_plan).
  destruct (strptime (scheduled post_plan)) as [post_time|] eqn:Ht; cbn; [|done].
  match goal with
  | |- context [for_enumerate (comment_loop_body _ _ _ _ ?p ?t) _ ?cus ?l1] =>
      pose proof (comment_loop_keeps i post_plan p t Hitem eq_refl cus 0 l1) as Hloop;
      destruct (for_enumerate (comment_loop_body g personas_dict i post_plan p t)
                  0 cus l1) as [res l2]
  end.
  cbn in Hloop.
  assert (I l2) as Hl2.
  { apply Hloop; [done | |].
    - apply elem_of_app. right. by apply list_elem_of_singleton.
    - by eapply append_post_keeps. }
  by destruct res.
Qed.

Lemma post_loop_keeps : ∀ items start l,
  (∀ k post_plan, items !! k = Some post_plan →
                  plan_posts !! (start + k)%nat = Some post_plan) →
  I l →
  I (for_enumerate (post_loop_body g personas_dict) start items l).2.
Proof.
  induction items as [|item items IH]; intros start l Hplan Hl; [done|].
  cbn [for_enumerate]. unfold gbind at 1.
  assert (plan_posts !! start = Some item) as Hitem.
  { specialize (Hplan 0%nat item eq_refl). by rewrite Nat.add_0_r in Hplan. }
  pose proof (post_loop_body_keeps start item l Hitem Hl) as Hbody.
  destruct (post_loop_body g personas_dict start item l) as [[e|[]] l1]; [done|].
  apply IH; [|done].
  intros k pp Hk. specialize (Hplan (S k) pp Hk).
  by replace (S start + k)%nat with (start + S k)%nat by lia.
Qed.

End InvariantRule.

Lemma content_generator_agent_keeps g state state' plan (I : Locals.t → Prop) :
  let pd := make_personas_dict (RedditState.personas state) in
  RedditState.strategic_plan state = Some plan →
  content_generator_agent g state = Returned state' →
  I Locals.empty →
  (∀ l i post_plan primary_persona post_result post_time,
     WeekPlan.posts plan !! i = Some post_plan →
     pd !! PostPlan.primary_persona post_plan = Some primary_persona →
     post_at g i = Some post_result →
     strptime (scheduled post_plan) = Some post_time →
     I l →
     I (Locals.mk
          (Locals.posts l
           ++ [RedditPost.mk (post_id_of i) (PostPlan.subreddit post_plan)
                 (result_title post_result) (result_body post_result)
                 (Persona.username primary_persona) (strftime post_time)
                 [PostPlan.target_keyword post_plan]])
          (Locals.comments l))) →
  (∀ l i post_plan post post_time j cu commenter parent r comment_time,
     WeekPlan.posts plan !! i = Some post_plan →
     PostPlan.commenting_personas post_plan !! j = Some cu →
     pd !! cu = Some commenter →
     post ∈ Locals.posts l →
     RedditPost.post_id post = post_id_of i →
     choose_parent (random_at g i j) j post (Locals.comments l) = Returned parent →
     comment_at g i j = Some r →
     add_minutes post_time (delay_of r) = Some comment_time →
     I l →
     I (Locals.mk (Locals.posts l)
          (Locals.comments l
           ++ [RedditComment.mk (comment_id_of (length (Locals.comments l)))
                 (RedditPost.post_id post) (RedditComment.comment_id <$> parent)
                 (result_comment_text r) (Persona.username commenter)
                 (strftime comment_time) (delay_of r)]))) →
  ∃ content,
    RedditState.generated_content state' = Some content
    ∧ I (Locals.mk (GeneratedContent.posts content)
           (GeneratedContent.comments content)).
Proof.
  intros pd Hplan Hrun Hempty Hpost Hcomment.
  unfold content_generator_agent in Hrun. rewrite Hplan in Hrun; cbn in Hrun.
  fold pd in Hrun.
  pose proof (post_loop_keeps g pd (WeekPlan.posts plan) I Hpost Hcomment
                (WeekPlan.posts plan) 0 Locals.empty) as Hloop.
  destruct (for_enumerate (post_loop_body g pd) 0 (WeekPlan.posts plan) Locals.empty)
    as [[e|[]] l]; [done|].
  injection Hrun as <-. eexists. split; [done|]. destruct l; cbn in *.
  apply Hloop; [intros k pp Hk; exact Hk | exact Hempty].
Qed.

(** ** The persona dictionary *)

Lemma personas_dict_fold personas u : ∀ d : gmap string Persona.t,
  foldl (λ d p, <[Persona.username p := p]> d) d personas !! u
  = match last (filter (λ p, Persona.username p = u) personas) with
    | Some p => Some p
    | None => d !! u
    end.
Proof.
  induction personas as [|p ps IH]; intros d; [done|].
  cbn [foldl]. rewrite IH, filter_cons.
  destruct (decide (Persona.username p = u)) as [Hu|Hu].
  - rewrite last_cons.
    destruct (last (filter _ ps)); [done|]. by rewrite <-Hu, lookup_insert_eq.
  - destruct (last (filter _ ps)); [done|]. by rewrite lookup_insert_ne.
Qed.

(** X6. The persona dictionary maps a username to the last persona of
    the roster that carries it: a duplicate username silently replaces
    the earlier persona; a username nobody carries is absent. *)
Theorem personas_dict_last_wins personas u :
  make_personas_dict personas !! u
  = last (filter (λ p, Persona.username p = u) personas).
Proof.
  unfold make_personas_dict. rewrite personas_dict_fold, lookup_empty.
  by destruct (last _).
Qed.

Lemma make_personas_dict_Some personas u p :
  make_personas_dict personas !! u = Some p →
  p ∈ personas ∧ Persona.username p = u.
Proof.
  unfold make_personas_dict. rewrite personas_dict_fold, lookup_empty.
  destruct (last _) as [q|] eqn:Hlast; [|done]. intros [= ->].
  apply last_Some_elem_of, list_elem_of_filter in Hlast as [? ?]. done.
Qed.

(** ** Identifiers *)

Lemma posts_from_ids g pd : ∀ items start,
  ∃ idxs,
    RedditPost.post_id <$> posts_from g pd start items = post_id_of <$> idxs
    ∧ StronglySorted lt idxs
    ∧ Forall (λ i, start ≤ i < start + length items)%nat idxs.
Proof.
  induction items as [|item items IH]; intros start.
  { exists []. split_and!; by constructor. }
  destruct (IH (S start)) as (idxs & Hids & Hsorted & Hrange). cbn [posts_from].
  destruct (post_for g pd start item) as [post|] eqn:Hpost; cbn.
  - exists (start :: idxs). split_and!.
    + rewrite Hids. f_equal. unfold post_for in Hpost.
      destruct (pd !! _); [cbn in Hpost | done].
      destruct (post_at g start); [cbn in Hpost | done].
      destruct (strptime _); [cbn in Hpost | done]. by injection Hpost as <-.
    + constructor; [done|]. eapply Forall_impl; [exact Hrange|]. cbn. lia.
    + constructor; [lia|]. eapply Forall_impl; [exact Hrange|]. cbn. lia.
  - exists idxs. split_and!; [done | done |].
    eapply Forall_impl; [exact Hrange|]. cbn. lia.
Qed.

Lemma StronglySorted_lt_NoDup (l : list nat) : StronglySorted lt l → NoDup l.
Proof.
  induction 1 as [|x l _ IH Hall]; constructor; [|done].
  intros Hin. rewrite Forall_forall in Hall. specialize (Hall x Hin). lia.
Qed.

(** X7. In the bundle the stage returns, the comment at position [k] of
    the comment list has id [C(k+1)], the ids of the posts are
    [P(i+1)] for strictly increasing plan positions [i], and no two
    posts and no two comments share an id. *)
Theorem identifiers_are_sequential g state state' content :
  content_generator_agent g state = Returned state' →
  RedditState.generated_content state' = Some content →
  (∀ k comment, GeneratedContent.comments content !! k = Some comment →
                RedditComment.comment_id comment = "C" +:+ pretty (k + 1)%nat)
  ∧ (∃ idxs, RedditPost.post_id <$> GeneratedContent.posts content
             = (λ i, "P" +:+ pretty (i + 1)%nat) <$> idxs
             ∧ StronglySorted lt idxs)
  ∧ NoDup (RedditPost.post_id <$> GeneratedContent.posts content)
  ∧ NoDup (RedditComment.comment_id <$> GeneratedContent.comments content).
Proof.
  intros Hrun Hcontent.
  destruct (RedditState.strategic_plan state) as [plan|] eqn:Hplan; last first.
  { unfold content_generator_agent in Hrun. by rewrite Hplan in Hrun. }
  pose proof (content_generator_agent_spec g state plan Hplan) as Hspec.
  rewrite Hrun in Hspec.
  destruct Hspec as (content' & -> & _ & [_ Hcomments] & _ & Hposts & _).
  cbn in Hcontent. injection Hcontent as ->. cbn in Hcomments.
  destruct (posts_from_ids g (make_personas_dict (RedditState.personas state))
              (WeekPlan.posts plan) 0) as (idxs & Hids & Hsorted & _).
  rewrite <-Hposts in Hids.
  assert (∀ k comment, GeneratedContent.comments content !! k = Some comment →
            RedditComment.comment_id comment = comment_id_of k) as Hseq.
  { intros k c Hk. by destruct (Hcomments k c Hk) as (? & _). }
  split_and!.
  - exact Hseq.
  - by exists idxs.
  - rewrite Hids. apply NoDup_fmap_2; [|by apply StronglySorted_lt_NoDup].
    intros i i'. apply post_id_of_inj.
  - apply NoDup_alt. intros a b id Ha Hb.
    apply list_lookup_fmap_Some in Ha as (ca & -> & Hca).
    apply list_lookup_fmap_Some in Hb as (cb & Heq & Hcb).
    rewrite (Hseq a ca Hca), (Hseq b cb Hcb) in Heq.
    by apply comment_id_of_inj.
Qed.

(** X8. Every comment of the bundle belongs to exactly one post of the
    bundle: its [post_id] is the id of a post of the output, and of no
    other post. *)
Theorem comments_belong_to_posts g state state' content comment :
  content_generator_agent g state = Returned state' →
  RedditState.generated_content state' = Some content →
  comment ∈ GeneratedContent.comments content →
  ∃ k post,
    GeneratedContent.posts content !! k = Some post
    ∧ RedditPost.post_id post = RedditComment.post_id comment
    ∧ ∀ k' post', GeneratedContent.posts content !! k' = Some post' →
                  RedditPost.post_id post' = RedditComment.post_id comment →
                  k' = k.
Proof.
  intros Hrun Hcontent [idx Hidx]%list_elem_of_lookup_1.
  destruct (RedditState.strategic_plan state) as [plan|] eqn:Hplan; last first.
  { unfold content_generator_agent in Hrun. by rewrite Hplan in Hrun. }
  pose proof (content_generator_agent_spec g state plan Hplan) as Hspec.
  rewrite Hrun in Hspec.
  destruct Hspec as (content' & -> & _ & [_ Hcomments] & _ & Hposts & _).
  cbn in Hcontent. injection Hcontent as ->. cbn in Hcomments.
  destruct (Hcomments idx comment Hidx) as (_ & Horigin & _).
  destruct Horigin as (post & ? & ? & ? & ? & ? & ? & Hin & _ & Hpid & _).
  apply list_elem_of_lookup_1 in Hin as [k Hk].
  exists k, post. split_and!; [done | done |].
  intros k' post' Hk' Hid'.
  destruct (posts_from_ids g (make_personas_dict (RedditState.personas state))
              (WeekPlan.posts plan) 0) as (idxs & Hids & Hsorted & _).
  rewrite <-Hposts in Hids.
  assert (NoDup (RedditPost.post_id <$> GeneratedContent.posts content)) as Hnodup.
  { rewrite Hids. apply NoDup_fmap_2; [|by apply StronglySorted_lt_NoDup].
    intros i i'. apply post_id_of_inj. }
  eapply NoDup_lookup; [exact Hnodup | |].
  - rewrite list_lookup_fmap, Hk'. cbn. by rewrite Hid'.
  - rewrite list_lookup_fmap, Hk. cbn. by rewrite Hpid.
Qed.

(** ** Threading and authorship *)

Lemma choose_parent_latest draw j post comments parent :
  choose_parent draw j post comments = Returned (Some parent) →
  ∃ before after,
    comments = before ++ parent :: after
    ∧ RedditComment.post_id parent = RedditPost.post_id post
    ∧ Forall (λ c, RedditComment.post_id c ≠ RedditPost.post_id post) after.
Proof.
  unfold choose_parent.
  destruct (_ && _); [|done]. case_bool_decide; [|done].
  destruct (negb _); [|done].
  destruct (last _) as [p|] eqn:Hlast; [|done]. intros [= ->].
  pose proof Hlast as Hin.
  apply last_Some_elem_of, list_elem_of_filter in Hin as [Hpost _].
  apply last_filter_Some in Hlast as (before & after & -> & Hafter).
  by exists before, after.
Qed.

(** X9. A threaded comment replies to the most recent comment made on
    its post: its parent stands earlier in the comment list, is on the
    same post, and no comment on that post stands between the two. *)
Theorem parent_is_latest_on_post g state state' content :
  content_generator_agent g state = Returned state' →
  RedditState.generated_content state' = Some content →
  ∀ idx comment,
    GeneratedContent.comments content !! idx = Some comment →
    parent_latest (GeneratedContent.comments content) idx comment.
Proof.
  intros Hrun Hcontent.
  destruct (RedditState.strategic_plan state) as [plan|] eqn:Hplan; last first.
  { unfold content_generator_agent in Hrun. by rewrite Hplan in Hrun. }
  destruct (content_generator_agent_keeps g state state' plan
              (λ l, ∀ idx comment, Locals.comments l !! idx = Some comment →
                                   parent_latest (Locals.comments l) idx comment)
              Hplan Hrun) as (content' & Hcontent' & Hinv).
  - done.
  - intros l i pp persona r t _ _ _ _ Hl. exact Hl.
  - intros l i pp post t j cu commenter parent r t' _ _ _ _ _ Hparent _ _ Hl.
    cbn. intros idx c [[Hlt Hc] | [-> <-]]%lookup_snoc_Some pid Hpid.
    + destruct (Hl idx c Hc pid Hpid) as (idx' & p & ? & Hp & ? & ? & Hbetween).
      exists idx', p. split_and!; try done; [by apply lookup_app_l_Some|].
      intros k between Hk Hlookup. apply (Hbetween k between Hk).
      rewrite lookup_app_l in Hlookup by lia. done.
    + cbn in Hpid. destruct parent as [p|]; [|done]. injection Hpid as <-.
      apply choose_parent_latest in Hparent as (before & after & Heq & Hpost & Hafter).
      exists (length before), p. rewrite Heq. split_and!.
      * rewrite length_app. cbn. lia.
      * rewrite <-app_assoc. by apply list_lookup_middle.
      * done.
      * done.
      * intros k between Hk Hlookup. cbn.
        rewrite <-app_assoc in Hlookup. cbn in Hlookup.
        rewrite length_app in Hk. cbn in Hk.
        rewrite lookup_app_r in Hlookup by lia.
        rewrite lookup_cons_ne_0 in Hlookup by lia.
        rewrite lookup_app_l in Hlookup by lia.
        rewrite Forall_forall in Hafter. apply Hafter.
        by eapply list_elem_of_lookup_2.
  - rewrite Hcontent in Hcontent'. injection Hcontent' as <-. exact Hinv.
Qed.

(** X10. Every post of the bundle is written for one plan item: it
    carries that item's subreddit and keyword, and its author is the
    item's primary persona, a username of the roster.  Every comment is
    written by a persona of the roster whose username is one of the
    commenting personas of its post's plan item. *)
Theorem authors_come_from_plan_and_roster g state state' content :
  content_generator_agent g state = Returned state' →
  RedditState.generated_content state' = Some content →
  ∃ plan,
    RedditState.strategic_plan state = Some plan
    ∧ (∀ post, post ∈ GeneratedContent.posts content →
               post_by_primary (RedditState.personas state)
                 (WeekPlan.posts plan) post)
    ∧ (∀ comment, comment ∈ GeneratedContent.comments content →
                  comment_by_commenter (RedditState.personas state)
                    (WeekPlan.posts plan) comment).
Proof.
  intros Hrun Hcontent.
  destruct (RedditState.strategic_plan state) as [plan|] eqn:Hplan; last first.
  { unfold content_generator_agent in Hrun. by rewrite Hplan in Hrun. }
  exists plan. split; [done|].
  destruct (content_generator_agent_keeps g state state' plan
              (λ l, (∀ post, post ∈ Locals.posts l →
                       post_by_primary (RedditState.personas state)
                         (WeekPlan.posts plan) post)
                    ∧ (∀ comment, comment ∈ Locals.comments l →
                         comment_by_commenter (RedditState.personas state)
                           (WeekPlan.posts plan) comment))
              Hplan Hrun) as (content' & Hcontent' & Hinv).
  - split; intros ? []%elem_of_nil.
  - intros l i pp persona r t Hitem Hpersona _ _ [Hposts Hcomments].
    split; [|done]. cbn.
    intros post [Hin | ->%list_elem_of_singleton]%elem_of_app; [by apply Hposts|].
    apply make_personas_dict_Some in Hpersona as [Hin Hu].
    exists i, pp, persona. by split_and!.
  - intros l i pp post t j cu commenter parent r t' Hitem Hcu Hcommenter _ Hid
      _ _ _ [Hposts Hcomments].
    split; [done|]. cbn.
    intros c [Hin | ->%list_elem_of_singleton]%elem_of_app; [by apply Hcomments|].
    apply make_personas_dict_Some in Hcommenter as [Hin Hu].
    exists i, pp, j, commenter. cbn. rewrite Hu. by split_and!.
  - rewrite Hcontent in Hcontent'. injection Hcontent' as <-. exact Hinv.
Qed.

(** ** A commenter outside the roster *)

Lemma comment_loop_prefix g pd i post_plan post post_time :
  ∀ cus j l,
  ∃ r cs,
    for_enumerate (comment_loop_body g pd i post_plan post post_time) j cus l
    = (r, Locals.mk (Locals.posts l) (Locals.comments l ++ cs))
    ∧ Forall (λ c, RedditComment.post_id c = RedditPost.post_id post) cs
    ∧ RedditComment.comment_text <$> cs
      = omap (comment_text_for g post_time i)
          (seq j (length (known_prefix pd cus)))
    ∧ comment_view <$> cs
      = omap (comment_view_for g post_time i)
          (seq j (length (known_prefix pd cus))).
Proof.
  induction cus as [|cu cus IH]; intros j l.
  { exists (Returned ()), []. cbn. unfold gret.
    rewrite app_nil_r. destruct l; cbn. by split_and!. }
  cbn [for_enumerate known_prefix]. unfold gbind at 1. rewrite comment_loop_body_eq.
  destruct (pd !! cu) as [commenter|] eqn:Hcu; last first.
  { exists (Raised (KeyError cu)), []. rewrite app_nil_r. destruct l; cbn.
    by split_and!. }
  destruct (choose_parent_returns (random_at g i j) j post (Locals.comments l))
    as (parent & -> & _).
  cbn [length seq omap list_omap].
  destruct (comment_at g i j) as [r|] eqn:Hr; last first.
  { destruct (IH (S j) l) as (r' & cs & Heq & Hall & Htexts & Hviews).
    exists r', cs. split_and!; try done.
    - unfold comment_text_for at 1. rewrite Hr. cbn. exact Htexts.
    - unfold comment_view_for at 1. rewrite Hr. cbn. exact Hviews. }
  destruct (add_minutes post_time (delay_of r)) as [comment_time|] eqn:Htime; last first.
  { destruct (IH (S j) l) as (r' & cs & Heq & Hall & Htexts & Hviews).
    exists r', cs. split_and!; try done.
    - unfold comment_text_for at 1. rewrite Hr. cbn. rewrite Htime. cbn. exact Htexts.
    - unfold comment_view_for at 1. rewrite Hr. cbn. rewrite Htime. cbn.
      exact Hviews. }
  match goal with
  | |- context [for_enumerate _ _ _ ?l1] =>
      destruct (IH (S j) l1) as (r' & cs & Heq & Hall & Htexts & Hviews)
  end.
  cbn in Heq. rewrite <-app_assoc in Heq. cbn in Heq.
  eexists r', (_ :: cs). split; [exact Heq|]. split_and!.
  - by constructor.
  - unfold comment_text_for at 1. rewrite Hr; cbn. rewrite Htime; cbn.
    by rewrite <-Htexts.
  - unfold comment_view_for at 1. rewrite Hr; cbn. rewrite Htime; cbn.
    by rewrite <-Hviews.
Qed.

Lemma post_loop_body_prefix g pd i post_plan l :
  is_Some (pd !! PostPlan.primary_persona post_plan) →
  ∃ cs,
    post_loop_body g pd i post_plan l
    = (Returned (),
       Locals.mk (Locals.posts l ++ option_list (post_for g pd i post_plan))
         (Locals.comments l ++ cs))
    ∧ Forall (λ c, RedditComment.post_id c = post_id_of i) cs
    ∧ (∀ post_time,
         is_Some (post_at g i) →
         strptime (scheduled post_plan) = Some post_time →
         RedditComment.comment_text <$> cs
         = omap (comment_text_for g post_time i)
             (seq 0 (length (known_prefix pd
                               (PostPlan.commenting_personas post_plan))))
         ∧ comment_view <$> cs
           = omap (comment_view_for g post_time i)
               (seq 0 (length (known_prefix pd
                                 (PostPlan.commenting_personas post_plan))))).
Proof.
  intros [persona Hp].
  unfold post_loop_body, gbind at 1, lift at 1, subscript. rewrite Hp.
  unfold try_except, gbind at 1, lift at 1, invoke, post_for. rewrite Hp; cbn.
  destruct (post_at g i) as [r|] eqn:Hr; cbn; last first.
  { exists []. rewrite <-locals_eta. by split_and!. }
  unfold parse_post_time.
  change (PostPlan.scheduled_date post_plan +:+ " "
          +:+ PostPlan.scheduled_time post_plan) with (scheduled post_plan).
  destruct (strptime (scheduled post_plan)) as [post_time|] eqn:Ht; cbn; last first.
  { exists []. rewrite <-locals_eta. by split_and!. }
  match goal with
  | |- context [for_enumerate (comment_loop_body _ _ _ _ ?p _) _ ?cus ?l1] =>
      destruct (comment_loop_prefix g pd i post_plan p post_time cus 0 l1)
        as (r' & cs & Heq & Hall & Htexts & Hviews)
  end.
  rewrite Heq. exists cs. split; [by destruct r' as [|[]]|]. split; [done|].
  by intros t' _ [= <-].
Qed.

Lemma post_loop_prefix g pd : ∀ items start l,
  Forall (λ item, is_Some (pd !! PostPlan.primary_persona item)) items →
  ∃ cs,
    for_enumerate (post_loop_body g pd) start items l
    = (Returned (),
       Locals.mk (Locals.posts l ++ posts_from g pd start items)
         (Locals.comments l ++ cs))
    ∧ Forall (λ c, ∃ k, (k < length items)%nat
                        ∧ RedditComment.post_id c = post_id_of (start + k)) cs
    ∧ ∀ k item post_time,
        items !! k = Some item →
        is_Some (post_at g (start + k)) →
        strptime (scheduled item) = Some post_time →
        RedditComment.comment_text
          <$> filter (λ c, RedditComment.post_id c = post_id_of (start + k)) cs
        = omap (comment_text_for g post_time (start + k))
            (seq 0 (length (known_prefix pd (PostPlan.commenting_personas item))))
        ∧ comment_view
            <$> filter (λ c, RedditComment.post_id c = post_id_of (start + k)) cs
          = omap (comment_view_for g post_time (start + k))
              (seq 0 (length (known_prefix pd
                                (PostPlan.commenting_personas item)))).
Proof.
  induction items as [|item items IH]; intros start l Hknown.
  { exists []. cbn. unfold gret. rewrite <-locals_eta. by split_and!. }
  apply Forall_cons in Hknown as [Hitem Hknown].
  cbn [for_enumerate posts_from]. unfold gbind at 1.
  destruct (post_loop_body_prefix g pd start item l Hitem)
    as (cs1 & -> & Hall1 & Htexts1).
  match goal with
  | |- context [for_enumerate _ _ _ ?l1] =>
      destruct (IH (S start) l1 Hknown) as (cs2 & Heq & Hall2 & Htexts2)
  end.
  cbn in Heq. rewrite <-!app_assoc in Heq.
  exists (cs1 ++ cs2). split; [exact Heq|].
  assert (∀ k, Forall (λ c, RedditComment.post_id c ≠ post_id_of (start + S k)) cs1)
    as Hcs1.
  { intros k. eapply Forall_impl; [exact Hall1|]. cbn. intros c -> Hc.
    apply post_id_of_inj in Hc. lia. }
  assert (Forall (λ c, RedditComment.post_id c ≠ post_id_of start) cs2) as Hcs2.
  { eapply Forall_impl; [exact Hall2|]. cbn. intros c (k & _ & ->) Hc.
    apply post_id_of_inj in Hc. lia. }
  split.
  { apply Forall_app. split.
    - eapply Forall_impl; [exact Hall1|]. cbn. intros c Hc.
      exists 0%nat. rewrite Nat.add_0_r. split; [lia | done].
    - eapply Forall_impl; [exact Hall2|]. cbn. intros c (k & Hk & Hc).
      exists (S k). split; [lia|].
      by replace (start + S k)%nat with (S start + k)%nat by lia. }
  intros k item' t Hk Hpost Ht. rewrite filter_app, !fmap_app.
  destruct k as [|k].
  - injection Hk as <-. rewrite Nat.add_0_r in *.
    rewrite (filter_all _ cs1) by done.
    rewrite (filter_none _ cs2) by done.
    rewrite !app_nil_r. by apply Htexts1.
  - rewrite (filter_none _ cs1) by apply Hcs1. cbn [fmap list_fmap app].
    replace (start + S k)%nat with (S start + k)%nat in * by lia.
    by apply Htexts2.
Qed.

(** X11. A commenting persona outside the roster ends its item's comment
    loop without failing the stage: the item's post stays in the
    output, the comments of the commenters before the unknown one are
    kept (those whose generation succeeded), the commenters after it
    get no comment, and the other items are generated as usual. *)
Theorem unknown_commenter_ends_the_thread g state plan :
  RedditState.strategic_plan state = Some plan →
  let pd := make_personas_dict (RedditState.personas state) in
  Forall (λ item, is_Some (pd !! PostPlan.primary_persona item))
    (WeekPlan.posts plan) →
  ∃ content,
    content_generator_agent g state
    = Returned (RedditState.set_generated_content content state)
    ∧ ∀ i item post_time,
        WeekPlan.posts plan !! i = Some item →
        is_Some (post_at g i) →
        strptime (scheduled item) = Some post_time →
        (∃ post, post ∈ GeneratedContent.posts content
                 ∧ RedditPost.post_id post = post_id_of i)
        ∧ RedditComment.comment_text
            <$> filter (λ c, RedditComment.post_id c = post_id_of i)
                  (GeneratedContent.comments content)
          = omap (comment_text_for g post_time i)
              (seq 0 (length (known_prefix pd (PostPlan.commenting_personas item)))).
Proof.
  intros Hplan pd Hknown. unfold content_generator_agent. rewrite Hplan; cbn.
  fold pd.
  destruct (post_loop_prefix g pd (WeekPlan.posts plan) 0 Locals.empty Hknown)
    as (cs & -> & _ & Htexts).
  cbn. eexists (GeneratedContent.mk _ _ _). split; [done|]. cbn.
  intros i item post_time Hitem [r Hr] Ht.
  split; [|by apply (Htexts i item post_time); [|eexists|]].
  rewrite Forall_forall in Hknown.
  destruct (Hknown item) as [persona Hpersona]; [by eapply list_elem_of_lookup_2|].
  eexists. split.
  - eapply (posts_from_lookup g pd _ 0 i item); [done|].
    unfold post_for. rewrite Hpersona; cbn. rewrite Hr; cbn. rewrite Ht; cbn. done.
  - done.
Qed.

(** ** Fault isolation and the origin of a comment *)

Lemma known_prefix_length pd : ∀ commenters j cu,
  commenters !! j = Some cu →
  pd !! cu = None →
  (length (known_prefix pd commenters) ≤ j)%nat.
Proof.
  induction commenters as [|cu' commenters IH]; intros j cu Hj Hcu; [done|].
  cbn [known_prefix]. destruct j as [|j].
  - injection Hj as ->. rewrite Hcu. cbn. lia.
  - destruct (pd !! cu'); cbn; [|lia].
    apply le_n_S. by eapply IH.
Qed.

Lemma known_prefix_shorter pd commenters :
  (length (known_prefix pd commenters) ≤ length commenters)%nat.
Proof.
  induction commenters as [|cu commenters IH]; cbn; [done|].
  destruct (pd !! cu); cbn; lia.
Qed.

Lemma length_omap_le {A B} (f : A → option B) (l : list A) :
  (length (omap f l) ≤ length l)%nat.
Proof.
  induction l as [|x l IH]; cbn; [done|]. destruct (f x); cbn; lia.
Qed.

(** What the stage returns on a plan whose primary personas are known:
    the facts of both descriptions of the loops, about one bundle. *)
Lemma content_generator_agent_returns g state plan :
  RedditState.strategic_plan state = Some plan →
  let pd := make_personas_dict (RedditState.personas state) in
  Forall (λ item, is_Some (pd !! PostPlan.primary_persona item))
    (WeekPlan.posts plan) →
  ∃ content,
    content_generator_agent g state
    = Returned (RedditState.set_generated_content content state)
    ∧ GeneratedContent.posts content = posts_from g pd 0 (WeekPlan.posts plan)
    ∧ locals_wf g (WeekPlan.posts plan)
        (Locals.mk (GeneratedContent.posts content)
           (GeneratedContent.comments content))
    ∧ ∀ i item post_time,
        WeekPlan.posts plan !! i = Some item →
        is_Some (post_at g i) →
        strptime (scheduled item) = Some post_time →
        RedditComment.comment_text
          <$> filter (λ c, RedditComment.post_id c = post_id_of i)
                (GeneratedContent.comments content)
        = omap (comment_text_for g post_time i)
            (seq 0 (length (known_prefix pd (PostPlan.commenting_personas item))))
        ∧ comment_view
            <$> filter (λ c, RedditComment.post_id c = post_id_of i)
                  (GeneratedContent.comments content)
          = omap (comment_view_for g post_time i)
              (seq 0 (length (known_prefix pd
                                (PostPlan.commenting_personas item)))).
Proof.
  intros Hplan pd Hknown.
  pose proof (content_generator_agent_spec g state plan Hplan) as Hspec.
  unfold content_generator_agent in *. rewrite Hplan in *; cbn in Hspec |- *.
  fold pd in Hspec |- *.
  destruct (post_loop_prefix g pd (WeekPlan.posts plan) 0 Locals.empty Hknown)
    as (cs & Heq & _ & Hviews).
  rewrite Heq in Hspec |- *. cbn in Hspec |- *.
  destruct Hspec as (content & Hcontent & _ & Hwf & _).
  apply (f_equal RedditState.generated_content) in Hcontent. cbn in Hcontent.
  injection Hcontent as <-.
  eexists (GeneratedContent.mk _ _ _). split; [done|]. cbn. by split_and!.
Qed.

(** C3, as the code behaves.  Take a plan whose primary personas are all
    known.  The stage returns; its posts are those of the items whose
    post generation succeeded, in plan order.  For an item whose post
    generation call fails, the output holds no post and no comment with
    that item's post id, and the other items are not affected.  For an
    item whose post is generated, the post is in the output; a failed
    comment call removes that one comment only; but a commenter is
    looked up in the roster before the [try] block of its comment, and
    a commenter outside the roster ends the loop over the item's
    commenters: the texts of the item's comments are those of the
    commenters before the first unknown one whose own generation
    succeeded, in order, so an unknown commenter at position [j] leaves
    the post with at most [j] comments whatever the later calls
    answer. *)
Theorem content_generation_fault_isolation g state plan :
  RedditState.strategic_plan state = Some plan →
  let pd := make_personas_dict (RedditState.personas state) in
  Forall (λ item, is_Some (pd !! PostPlan.primary_persona item))
    (WeekPlan.posts plan) →
  ∃ content,
    content_generator_agent g state
    = Returned (RedditState.set_generated_content content state)
    ∧ GeneratedContent.posts content = posts_from g pd 0 (WeekPlan.posts plan)
    ∧ ∀ i item,
        WeekPlan.posts plan !! i = Some item →
        (post_at g i = None →
           (∀ post, post ∈ GeneratedContent.posts content →
                    RedditPost.post_id post ≠ post_id_of i)
           ∧ (∀ c, c ∈ GeneratedContent.comments content →
                   RedditComment.post_id c ≠ post_id_of i))
        ∧ (∀ post_time,
             is_Some (post_at g i) →
             strptime (scheduled item) = Some post_time →
             (∃ post, post ∈ GeneratedContent.posts content
                      ∧ RedditPost.post_id post = post_id_of i)
             ∧ RedditComment.comment_text
                 <$> filter (λ c, RedditComment.post_id c = post_id_of i)
                       (GeneratedContent.comments content)
               = omap (comment_text_for g post_time i)
                   (seq 0 (length (known_prefix pd
                                     (PostPlan.commenting_personas item))))
             ∧ (∀ j cu,
                  PostPlan.commenting_personas item !! j = Some cu →
                  pd !! cu = None →
                  (length (filter (λ c, RedditComment.post_id c = post_id_of i)
                             (GeneratedContent.comments content)) ≤ j)%nat)).
Proof.
  intros Hplan pd Hknown.
  destruct (content_generator_agent_returns g state plan Hplan Hknown)
    as (content & Hrun & Hps & [Hposts Hcomments] & Hviews).
  fold pd in Hps, Hviews.
  exists content. split_and!; [done | done |].
  cbn in Hposts, Hcomments.
  assert (∀ i post, post ∈ GeneratedContent.posts content →
                    RedditPost.post_id post = post_id_of i →
                    is_Some (post_at g i)) as Hpost_ok.
  { intros i post Hin Hid.
    destruct (Hposts post Hin) as (i' & pp & pt & _ & Hsome & _ & Hid' & _).
    rewrite Hid in Hid'. by apply post_id_of_inj in Hid' as ->. }
  intros i item Hitem. split.
  - intros Hfail. split.
    + intros post Hin Hid. destruct (Hpost_ok i post Hin Hid) as [? Hsome].
      by rewrite Hfail in Hsome.
    + intros c [idx Hidx]%list_elem_of_lookup_1 Hid.
      destruct (Hcomments idx c Hidx) as (_ & Horigin & _).
      destruct Horigin as (post & ? & ? & ? & ? & ? & ? & Hin & _ & Hpid & _).
      rewrite Hid in Hpid. destruct (Hpost_ok i post Hin (eq_sym Hpid)) as [? Hsome].
      by rewrite Hfail in Hsome.
  - intros post_time [r Hr] Ht.
    destruct (Hviews i item post_time Hitem) as [Htexts _]; [by eexists | done |].
    split_and!.
    + rewrite Forall_forall in Hknown.
      destruct (Hknown item) as [persona Hpersona].
      { by eapply list_elem_of_lookup_2. }
      eexists. split.
      * rewrite Hps. eapply (posts_from_lookup g pd _ 0 i item); [done|].
        unfold post_for. cbn. rewrite Hpersona; cbn.
        rewrite Hr; cbn. rewrite Ht; cbn. done.
      * done.
    + exact Htexts.
    + intros j cu Hj Hcu.
      rewrite <-(length_fmap RedditComment.comment_text), Htexts.
      etrans; [apply length_omap_le|]. rewrite length_seq.
      by eapply known_prefix_length.
Qed.

(** C4, as the code behaves.  Every post carries the time parsed from
    its plan item's scheduled date and time.  Every comment carries the
    text and, as [delay_minutes], the delay answered by its own
    generation call, or 30 when the answer has none, unchanged: the
    texts and delays of the comments on a post are, in order, those
    answered for the item's commenters (up to the first one outside the
    roster) whose call succeeded.  Every top-level comment carries as
    timestamp its post's time plus that delay. *)
Theorem post_and_top_level_comment_timestamps g state state' :
  content_generator_agent g state = Returned state' →
  ∃ plan content,
    RedditState.strategic_plan state = Some plan
    ∧ RedditState.generated_content state' = Some content
    ∧ (∀ post, post ∈ GeneratedContent.posts content →
         ∃ i item post_time,
           WeekPlan.posts plan !! i = Some item
           ∧ RedditPost.post_id post = post_id_of i
           ∧ strptime (scheduled item) = Some post_time
           ∧ RedditPost.timestamp post = strftime post_time)
    ∧ (∀ i item post_time,
         WeekPlan.posts plan !! i = Some item →
         is_Some (post_at g i) →
         strptime (scheduled item) = Some post_time →
         comment_view
           <$> filter (λ c, RedditComment.post_id c = post_id_of i)
                 (GeneratedContent.comments content)
         = omap (comment_view_for g post_time i)
             (seq 0 (length (known_prefix
                               (make_personas_dict (RedditState.personas state))
                               (PostPlan.commenting_personas item)))))
    ∧ (∀ comment, comment ∈ GeneratedContent.comments content →
         ∃ i item j r,
           WeekPlan.posts plan !! i = Some item
           ∧ (j < length (PostPlan.commenting_personas item))%nat
           ∧ comment_at g i j = Some r
           ∧ RedditComment.post_id comment = post_id_of i
           ∧ RedditComment.comment_text comment = result_comment_text r
           ∧ RedditComment.delay_minutes comment
             = default 30 (result_delay_minutes r))
    ∧ (∀ comment, comment ∈ GeneratedContent.comments content →
         RedditComment.parent_comment_id comment = None →
         ∃ post i item post_time comment_time,
           post ∈ GeneratedContent.posts content
           ∧ RedditPost.post_id post = RedditComment.post_id comment
           ∧ WeekPlan.posts plan !! i = Some item
           ∧ strptime (scheduled item) = Some post_time
           ∧ RedditPost.timestamp post = strftime post_time
           ∧ add_minutes post_time (RedditComment.delay_minutes comment)
             = Some comment_time
           ∧ RedditComment.timestamp comment = strftime comment_time).
Proof.
  intros Hrun.
  destruct (RedditState.strategic_plan state) as [plan|] eqn:Hplan; last first.
  { unfold content_generator_agent in Hrun. by rewrite Hplan in Hrun. }
  pose proof (content_generator_agent_spec g state plan Hplan) as Hspec.
  rewrite Hrun in Hspec. destruct Hspec as (_ & _ & _ & _ & Hknown & _).
  destruct (content_generator_agent_returns g state plan Hplan Hknown)
    as (content & Hrun' & _ & [Hposts Hcomments] & Hviews).
  rewrite Hrun in Hrun'. injection Hrun' as ->.
  cbn in Hposts, Hcomments.
  exists plan, content. split_and!; [done | done | | | |].
  - intros post Hin.
    destruct (Hposts post Hin) as (i & item & pt & Hitem & _ & Ht & Hid & Hts).
    by exists i, item, pt.
  - intros i item post_time Hitem Hpost Ht.
    by destruct (Hviews i item post_time Hitem Hpost Ht) as [_ ?].
  - intros c [idx Hidx]%list_elem_of_lookup_1.
    destruct (Hcomments idx c Hidx) as (_ & Horigin & _).
    destruct Horigin as (post & i & item & pt & _ & _ & _ & _ & Ho & Hpid & _).
    destruct Ho as (Hitem & Hpost & Ht & Hid & _).
    destruct (Hviews i item pt Hitem Hpost Ht) as [_ Hview].
    assert (comment_view c
            ∈ comment_view
                <$> filter (λ c, RedditComment.post_id c = post_id_of i)
                      (GeneratedContent.comments content)) as Hin.
    { apply list_elem_of_fmap. exists c. split; [done|].
      apply list_elem_of_filter. split; [congruence|].
      by eapply list_elem_of_lookup_2. }
    rewrite Hview in Hin.
    apply list_elem_of_omap in Hin as (j & Hj & Hcall).
    apply elem_of_seq in Hj as [_ Hj]. cbn in Hj.
    unfold comment_view_for in Hcall.
    destruct (comment_at g i j) as [r|] eqn:Hr; [cbn in Hcall | done].
    destruct (add_minutes pt (delay_of r)); [cbn in Hcall | done].
    injection Hcall as Htext Hdelay.
    exists i, item, j, r. split_and!; try done; try congruence.
    pose proof (known_prefix_shorter
                  (make_personas_dict (RedditState.personas state))
                  (PostPlan.commenting_personas item)). lia.
  - intros c [idx Hidx]%list_elem_of_lookup_1 _.
    destruct (Hcomments idx c Hidx) as (_ & Horigin & _).
    destruct Horigin
      as (post & i & item & pt & j & r & ct & Hin & Ho & Hpid & Hr & Hd & Hct & Hts).
    destruct Ho as (Hitem & _ & Ht & Hid & Hpts).
    exists post, i, item, pt, ct. rewrite Hd. by split_and!.
Qed.

End MoreProperties.

(** * Properties of the web layer *)

Section WebProperties.
Context `{DateTimeLib}.

(** ** Field validators *)

Lemma first_error_None check v :
  first_error check v = None ↔ Forall (λ x, check x = None) v.
Proof.
  induction v as [|x v IH]; cbn; [by split|].
  rewrite Forall_cons. destruct (check x); [|by rewrite IH; intuition].
  split; [done | by intros [? _]].
Qed.

Lemma first_error_Some check v message :
  first_error check v = Some message →
  ∃ before x after,
    v = before ++ x :: after
    ∧ Forall (λ y, check y = None) before
    ∧ check x = Some message.
Proof.
  induction v as [|x v IH]; cbn; [done|].
  destruct (check x) as [m|] eqn:Hx.
  - intros [= ->]. by exists [], x, v.
  - intros (before & y & after & -> & Hbefore & Hy)%IH.
    exists (x :: before), y, after. split_and!; [done | by constructor | done].
Qed.

Lemma length_outside_false low high s :
  length_outside low high s = false ↔ length_within low high s.
Proof.
  unfold length_outside, length_within.
  rewrite orb_false_iff, !Nat.ltb_ge. lia.
Qed.

Lemma prefix_String a s1 b s2 :
  String.prefix (String a s1) (String b s2)
  = if ascii_dec a b then String.prefix s1 s2 else false.
Proof. reflexivity. Qed.

Lemma prefix_r_slash sub :
  String.prefix "r/" sub = true ↔ ∃ name, sub = "r/" +:+ name.
Proof.
  split.
  - destruct sub as [|a [|b name]]; [done | |].
    + rewrite prefix_String. by destruct (ascii_dec "r" a).
    + rewrite !prefix_String.
      destruct (ascii_dec "r" a) as [<-|]; [|done].
      destruct (ascii_dec "/" b) as [<-|]; [|done].
      intros _. by exists name.
  - intros [name ->]. change ("r/" +:+ name) with (String "r" (String "/" name)).
    rewrite !prefix_String.
    destruct (ascii_dec "r" "r"); [|done].
    destruct (ascii_dec "/" "/"); [|done]. by destruct name.
Qed.

Lemma check_subreddit_None sub : check_subreddit sub = None ↔ subreddit_ok sub.
Proof.
  unfold check_subreddit, subreddit_ok.
  destruct (String.prefix "r/" sub) eqn:Hprefix; cbn.
  - apply prefix_r_slash in Hprefix as [name ->].
    destruct (length_outside 4 30 ("r/" +:+ name)) eqn:Hlen.
    + split; [done|]. intros (name' & Heq & Hname).
      assert (name' = name) as ->.
      { injection Heq. intros Hname'. symmetry. exact Hname'. }
      apply not_false_iff_true in Hlen. exfalso. apply Hlen.
      apply length_outside_false. unfold length_within.
      change (String.length ("r/" +:+ name)) with (S (S (String.length name))).
      lia.
    + split; [|done]. intros _. exists name. split; [done|].
      apply length_outside_false in Hlen. unfold length_within in Hlen.
      change (String.length ("r/" +:+ name))
        with (S (S (String.length name))) in Hlen.
      lia.
  - split; [done|]. intros (name & -> & _).
    assert (String.prefix "r/" ("r/" +:+ name) = true) as Htrue.
    { apply prefix_r_slash. by exists name. }
    by rewrite Htrue in Hprefix.
Qed.

(** X12. [validate_subreddits] returns its argument unchanged when every
    entry is [r/] followed by 2 to 28 characters (the empty list
    included) and raises otherwise; the message it raises is about the
    first entry that is not so, the missing [r/] being reported before
    the length. *)
Theorem validate_subreddits_accepts v :
  (validate_subreddits v = Success v ↔ Forall subreddit_ok v)
  ∧ (∀ v', validate_subreddits v = Success v' → v' = v)
  ∧ (∀ message,
       validate_subreddits v = Failure message →
       ∃ before sub after,
         v = before ++ sub :: after
         ∧ Forall subreddit_ok before
         ∧ ¬ subreddit_ok sub
         ∧ message
           = if String.prefix "r/" sub
             then "Subreddit name invalid length: " +:+ sub
             else "Subreddit must start with r/ - got: " +:+ sub).
Proof.
  unfold validate_subreddits. split_and!.
  - destruct (first_error check_subreddit v) as [m|] eqn:Herr.
    + split; [done|]. intros Hall. exfalso.
      assert (first_error check_subreddit v = None) as Hnone.
      { apply first_error_None. eapply Forall_impl; [exact Hall|].
        intros sub. by apply check_subreddit_None. }
      by rewrite Hnone in Herr.
    + split; [|done]. intros _. apply first_error_None in Herr.
      eapply Forall_impl; [exact Herr|]. intros sub. by apply check_subreddit_None.
  - intros v'. destruct (first_error check_subreddit v); [done|]. by intros [= <-].
  - intros message.
    destruct (first_error check_subreddit v) as [m|] eqn:Herr; [|done].
    intros [= ->].
    apply first_error_Some in Herr as (before & sub & after & -> & Hbefore & Hsub).
    exists before, sub, after. split_and!; [done | | |].
    + eapply Forall_impl; [exact Hbefore|]. intros x. by apply check_subreddit_None.
    + intros Hok%check_subreddit_None. by rewrite Hok in Hsub.
    + unfold check_subreddit in Hsub.
      destruct (String.prefix "r/" sub); cbn in Hsub; [|by injection Hsub as <-].
      destruct (length_outside 4 30 sub); [by injection Hsub as <-|done].
Qed.

(** X13. [validate_queries] returns its argument unchanged exactly when
    every query has 2 to 100 characters, and otherwise raises the
    message built from the first query that has not; [validate_quirks]
    accepts exactly the lists whose quirks all have 2 to 100
    characters.  Both accept the empty list, and neither changes the
    list it accepts. *)
Theorem validate_queries_and_quirks_accept v :
  (validate_queries v = Success v ↔ Forall (length_within 2 100) v)
  ∧ (∀ message,
       validate_queries v = Failure message →
       ∃ before query after,
         v = before ++ query :: after
         ∧ Forall (length_within 2 100) before
         ∧ ¬ length_within 2 100 query
         ∧ message = "Query must be 2-100 characters: " +:+ query)
  ∧ (validate_quirks v = Success v ↔ Forall (length_within 2 100) v)
  ∧ (∀ message, validate_quirks v = Failure message →
                message = "Each quirk must be 2-100 characters")
  ∧ (∀ v', validate_queries v = Success v' → v' = v)
  ∧ (∀ v', validate_quirks v = Success v' → v' = v).
Proof.
  assert (∀ s, check_query s = None ↔ length_within 2 100 s) as Hquery.
  { intros s. unfold check_query. rewrite <-length_outside_false.
    by destruct (length_outside 2 100 s). }
  assert (∀ s, check_quirk s = None ↔ length_within 2 100 s) as Hquirk.
  { intros s. unfold check_quirk. rewrite <-length_outside_false.
    by destruct (length_outside 2 100 s). }
  split_and!.
  - unfold validate_queries.
    destruct (first_error check_query v) as [m|] eqn:Herr.
    + split; [done|]. intros Hall. exfalso.
      assert (first_error check_query v = None) as Hnone.
      { apply first_error_None. eapply Forall_impl; [exact Hall|].
        intros s. by apply Hquery. }
      by rewrite Hnone in Herr.
    + split; [|done]. intros _. apply first_error_None in Herr.
      eapply Forall_impl; [exact Herr|]. intros s. by apply Hquery.
  - intros message. unfold validate_queries.
    destruct (first_error check_query v) as [m|] eqn:Herr; [|done].
    intros [= ->].
    apply first_error_Some in Herr as (before & q & after & -> & Hbefore & Hq).
    exists before, q, after. split_and!; [done | | |].
    + eapply Forall_impl; [exact Hbefore|]. intros x. by apply Hquery.
    + intros Hok%Hquery. by rewrite Hok in Hq.
    + unfold check_query in Hq.
      destruct (length_outside 2 100 q); [by injection Hq as <-|done].
  - unfold validate_quirks. destruct v as [|x v]; [by split|].
    change (0 <? length (x :: v))%nat with true. cbv iota.
    destruct (first_error check_quirk (x :: v)) as [m|] eqn:Herr.
    + split; [done|]. intros Hall. exfalso.
      assert (first_error check_quirk (x :: v) = None) as Hnone.
      { apply first_error_None. eapply Forall_impl; [exact Hall|].
        intros s. by apply Hquirk. }
      by rewrite Hnone in Herr.
    + split; [|done]. intros _. apply first_error_None in Herr.
      eapply Forall_impl; [exact Herr|]. intros s. by apply Hquirk.
  - intros message. unfold validate_quirks.
    destruct (0 <? length v)%nat; [|done].
    destruct (first_error check_quirk v) as [m|] eqn:Herr; [|done].
    intros [= ->].
    apply first_error_Some in Herr as (before & q & after & -> & _ & Hq).
    unfold check_quirk in Hq.
    destruct (length_outside 2 100 q); [by injection Hq as <-|done].
  - intros v'. unfold validate_queries.
    destruct (first_error check_query v); [done|]. by intros [= <-].
  - intros v'. unfold validate_quirks.
    destruct (0 <? length v)%nat; [|by intros [= <-]].
    destruct (first_error check_quirk v); [done|]. by intros [= <-].
Qed.

(** ** The persona report *)

Lemma distinct_le (xs : list string) : (distinct xs ≤ length xs)%nat.
Proof.
  unfold distinct. induction xs as [|x xs IH]; cbn [length list_to_set].
  - by rewrite size_empty.
  - rewrite size_union_alt, size_singleton.
    assert (size (list_to_set xs ∖ {[x]} : gset string)
            ≤ size (list_to_set xs : gset string))%nat as Hsub.
    { apply subseteq_size, subseteq_difference_l. done. }
    lia.
Qed.

Lemma distinct_NoDup (xs : list string) : distinct xs = length xs ↔ NoDup xs.
Proof.
  unfold distinct. split; [|apply size_list_to_set].
  induction xs as [|x xs IH]; [constructor|].
  cbn [length list_to_set]. intros Hsize.
  destruct (decide (x ∈ xs)) as [Hin|Hout].
  - exfalso.
    assert ({[x]} ∪ list_to_set xs = (list_to_set xs : gset string)) as Heq.
    { apply subseteq_union_1_L, singleton_subseteq_l, elem_of_list_to_set, Hin. }
    rewrite Heq in Hsize. pose proof (distinct_le xs) as Hle.
    unfold distinct in Hle. lia.
  - constructor; [done|]. apply IH.
    rewrite size_union in Hsize
      by (apply disjoint_singleton_l; by rewrite elem_of_list_to_set).
    rewrite size_singleton in Hsize. lia.
Qed.

Lemma half_le (n d : nat) :
  Qle_bool (inject_Z (Z.of_nat n) * 0.5) (inject_Z (Z.of_nat d)) = true
  ↔ (n ≤ 2 * d)%nat.
Proof.
  rewrite Qle_bool_iff. unfold Qle, Qmult, inject_Z. cbn [Qnum Qden]. lia.
Qed.

(** X14. The report of [validate_personas] counts the personas it was
    given, lists the duplicate issue exactly when two personas share a
    username, lists the diversity issue exactly when the distinct
    lower-cased expertise strings are fewer than half the personas, and
    is valid exactly when neither holds; in particular the empty list
    is valid. *)
Theorem validate_personas_report lower personas :
  let report := validate_personas lower personas in
  let usernames := PersonaCreate.username <$> personas in
  let areas := (λ p, lower (PersonaCreate.expertise p)) <$> personas in
  report_persona_count report = length personas
  ∧ ("Duplicate usernames detected" ∈ report_issues report ↔ ¬ NoDup usernames)
  ∧ ("Personas lack diversity in expertise" ∈ report_issues report
     ↔ (2 * distinct areas < length personas)%nat)
  ∧ (report_valid report = true
     ↔ NoDup usernames ∧ (length personas ≤ 2 * distinct areas)%nat)
  ∧ (personas = [] → report_valid report = true).
Proof.
  intros report usernames areas. subst report. unfold validate_personas.
  fold usernames. fold areas.
  assert ((length usernames =? distinct usernames)%nat = true ↔ NoDup usernames)
    as Hdup.
  { rewrite Nat.eqb_eq. rewrite <-distinct_NoDup. split; congruence. }
  pose proof (half_le (length personas) (distinct areas)) as Hhalf.
  assert (personas = [] → NoDup usernames ∧ (length personas ≤ 2 * distinct areas)%nat)
    as Hempty.
  { intros Hnil. subst usernames. rewrite Hnil. split; [constructor | cbn; lia]. }
  destruct (length usernames =? distinct usernames)%nat;
    destruct (Qle_bool _ _); cbn; rewrite ?elem_of_cons, ?elem_of_nil;
    split_and!; try done; try (split; [intros ?|intros ?]);
    try tauto; try (intuition (discriminate || lia)); try (intuition congruence).
Qed.

(** ** The calendar store *)

Lemma dict_get_del_eq {V} k (d : list (string * V)) :
  dict_get k (dict_del k d) = None.
Proof.
  unfold dict_del. induction d as [|[k' v] d IH]; [done|].
  rewrite filter_cons. cbn [fst]. destruct (decide (k' ≠ k)) as [Hne|Heq].
  - cbn [dict_get]. by rewrite decide_False by done.
  - done.
Qed.

Lemma dict_get_del_ne {V} k other (d : list (string * V)) :
  other ≠ k → dict_get other (dict_del k d) = dict_get other d.
Proof.
  intros Hother. unfold dict_del. induction d as [|[k' v] d IH]; [done|].
  rewrite filter_cons. cbn [fst dict_get].
  destruct (decide (k' ≠ k)) as [Hne|Heq].
  - cbn [dict_get]. by rewrite IH.
  - apply dec_stable in Heq as ->. by rewrite decide_False by done.
Qed.

Lemma dict_get_set_eq {V} k (v : V) d : dict_get k (dict_set k v d) = Some v.
Proof.
  induction d as [|[k' v'] d IH]; cbn [dict_set dict_get].
  - by rewrite decide_True.
  - destruct (decide (k' = k)) as [->|Hne]; cbn [dict_get].
    + by rewrite decide_True.
    + by rewrite decide_False.
Qed.

Lemma dict_get_set_ne {V} k other (v : V) d :
  other ≠ k → dict_get other (dict_set k v d) = dict_get other d.
Proof.
  intros Hother. induction d as [|[k' v'] d IH]; cbn [dict_set dict_get].
  - by rewrite decide_False.
  - destruct (decide (k' = k)) as [->|Hne]; cbn [dict_get].
    + by rewrite !decide_False.
    + by rewrite IH.
Qed.

(** X15. Deleting a calendar: the id is answered 404 by
    [delete_calendar], [get_calendar] and [generate_next_week] alike
    when it is not stored; when it is stored the deletion returns the
    id, after it [get_calendar] and a second [delete_calendar] answer
    404, every other calendar and every job status is served as before
    (a job keeps the calendar in its result), and
    [generate_next_week] never succeeds: it answers 501 for a stored
    id. *)
Theorem delete_calendar_round_trip calendar_id store :
  match delete_calendar calendar_id store with
  | Failure e =>
      e = calendar_not_found
      ∧ get_calendar calendar_id store = Failure calendar_not_found
      ∧ generate_next_week calendar_id store = Failure calendar_not_found
  | Success (deleted, store') =>
      deleted = calendar_id
      ∧ (∃ calendar, get_calendar calendar_id store = Success calendar)
      ∧ get_calendar calendar_id store' = Failure calendar_not_found
      ∧ delete_calendar calendar_id store' = Failure calendar_not_found
      ∧ (∀ other, other ≠ calendar_id →
                  get_calendar other store' = get_calendar other store)
      ∧ (∀ job_id, get_job_status job_id store' = get_job_status job_id store)
      ∧ (∃ detail, generate_next_week calendar_id store
                   = Failure (HTTPException 501 detail))
  end.
Proof.
  unfold delete_calendar, get_calendar, generate_next_week, get_job_status.
  destruct (dict_get calendar_id (Store.calendars_db store)) as [calendar|] eqn:Hget.
  - cbn [Store.calendars_db Store.jobs_db]. rewrite dict_get_del_eq.
    split_and!; [done | by exists calendar | done | done | | done | by eexists].
    intros other Hother. by rewrite dict_get_del_ne.
  - done.
Qed.

(** ** The background task *)

(** X16. A generation request with a configured API key, followed by
    its background task: the request registers a pending job under the
    new id; the task never raises on it, and afterwards the job is
    completed exactly when the pipeline returned, in which case its
    result is a calendar with the content of the pipeline that
    [get_calendar] serves under the calendar's id, and failed exactly
    when the pipeline raised, in which case it carries the text of the
    exception and no result and the stored calendars are as before. *)
Theorem job_lifecycle g str_of key request stamp token created_at
    stamp' token' generated_at completed_at store :
  key ≠ "" →
  ∃ job store1 store2 job2,
    generate_calendar (Some key) stamp token created_at store
    = Success (job, store1)
    ∧ JobResponse.status job = PENDING
    ∧ get_job_status (JobResponse.job_id job) store1 = Success job
    ∧ process_calendar_generation g str_of (JobResponse.job_id job) request
        stamp' token' generated_at completed_at store1
      = Returned store2
    ∧ get_job_status (JobResponse.job_id job) store2 = Success job2
    ∧ JobResponse.job_id job2 = JobResponse.job_id job
    ∧ JobResponse.created_at job2 = created_at
    ∧ JobResponse.completed_at job2 = Some completed_at
    ∧ match generate_reddit_calendar g (CalendarRequest.company_info request)
              (PersonaCreate.to_persona <$> CalendarRequest.personas request)
              (CalendarRequest.subreddits request)
              (CalendarRequest.target_queries request)
              (CalendarRequest.posts_per_week request)
              (CalendarRequest.week_number request) with
      | Returned content =>
          JobResponse.status job2 = COMPLETED
          ∧ JobResponse.error job2 = None
          ∧ ∃ calendar,
              JobResponse.result job2 = Some calendar
              ∧ get_calendar (CalendarResponse.calendar_id calendar) store2
                = Success calendar
              ∧ CalendarResponse.posts calendar = GeneratedContent.posts content
              ∧ CalendarResponse.comments calendar
                = GeneratedContent.comments content
              ∧ CalendarResponse.quality_assessment calendar
                = GeneratedContent.quality_assessment content
              ∧ CalendarResponse.week_number calendar
                = CalendarRequest.week_number request
      | Raised e =>
          JobResponse.status job2 = FAILED
          ∧ JobResponse.error job2 = Some (str_of e)
          ∧ JobResponse.result job2 = None
          ∧ Store.calendars_db store2 = Store.calendars_db store
      end.
Proof.
  intros Hkey. unfold generate_calendar.
  assert (String.eqb key "" = false) as -> by by apply String.eqb_neq.
  set (job := JobResponse.mk (fresh_id "job" stamp token) PENDING created_at
                None None None).
  set (store1 := Store.mk _ _).
  assert (Store.jobs_db store1 !! JobResponse.job_id job = Some job) as Hjob
    by apply lookup_insert_eq.
  exists job, store1.
  unfold process_calendar_generation, get_job_status. cbv zeta.
  rewrite Hjob. cbn [subscript rbind].
  destruct (generate_reddit_calendar _ _ _ _ _ _ _) as [e|content].
  - eexists _, _.
    do 3 (split; [done|]). split; [reflexivity|].
    split; [cbn [Store.jobs_db]; by rewrite lookup_insert_eq|].
    by split_and!.
  - eexists _, _.
    do 3 (split; [done|]). split; [reflexivity|].
    split; [cbn [Store.jobs_db]; by rewrite lookup_insert_eq|].
    split_and!; [done..|]. eexists. split_and!; [done| |done..].
    unfold get_calendar. cbn [Store.calendars_db CalendarResponse.calendar_id].
    by rewrite dict_get_set_eq.
Qed.

(** X17. The background task raises only when its job is not in
    [jobs_db], and then it raises the [KeyError] of the job id from the
    exception handler; when it returns, every other job and every
    calendar stored under another id than the new one are as before. *)
Theorem process_calendar_generation_effects g str_of job_id request
    stamp token generated_at completed_at store :
  let outcome :=
    process_calendar_generation g str_of job_id request stamp token
      generated_at completed_at store in
  (∀ e, outcome = Raised e
        ↔ Store.jobs_db store !! job_id = None ∧ e = KeyError job_id)
  ∧ (∀ store',
       outcome = Returned store' →
       (∀ other, other ≠ job_id →
                 get_job_status other store' = get_job_status other store)
       ∧ (∀ other, other ≠ fresh_id "cal" stamp token →
                   get_calendar other store' = get_calendar other store)).
Proof.
  intros outcome. subst outcome. unfold process_calendar_generation.
  destruct (Store.jobs_db store !! job_id) as [job|] eqn:Hjob;
    cbn [subscript rbind].
  - destruct (generate_reddit_calendar _ _ _ _ _ _ _) as [e|content].
    + split; [intros e'; split; [done | by intros [? _]]|].
      intros store' [= <-]. split; [|done].
      intros other Hother. unfold get_job_status. cbn [Store.jobs_db].
      by rewrite lookup_insert_ne.
    + split; [intros e'; split; [done | by intros [? _]]|].
      intros store' [= <-]. split.
      * intros other Hother. unfold get_job_status. cbn [Store.jobs_db].
        by rewrite lookup_insert_ne.
      * intros other Hother. unfold get_calendar. cbn [Store.calendars_db].
        by rewrite dict_get_set_ne.
  - split; [|done]. intros e. split; [by intros [= <-] | by intros [_ ->]].
Qed.

(** ** Listing *)

Lemma py_slice_page {A} (l : list A) (offset limit : Z) :
  0 ≤ offset → 0 ≤ limit →
  py_slice l offset (offset + limit)
  = take (Z.to_nat limit) (drop (Z.to_nat offset) l).
Proof.
  intros Hoffset Hlimit. unfold py_slice, slice_index.
  rewrite (proj2 (Z.ltb_ge offset 0)) by done.
  rewrite (proj2 (Z.ltb_ge (offset + limit) 0)) by lia.
  destruct (decide (Z.of_nat (length l) ≤ offset)) as [Hbeyond|Hinside].
  - rewrite !drop_ge by lia. by rewrite !take_nil.
  - rewrite (Z.min_l offset) by lia.
    destruct (decide (offset + limit ≤ Z.of_nat (length l))) as [Hfull|Hshort].
    + rewrite Z.min_l by lia. f_equal. lia.
    + rewrite Z.min_r by lia.
      rewrite !take_ge; [done | |]; rewrite length_drop; lia.
Qed.

Lemma py_slice_negative_stop {A} (l : list A) (stop : Z) :
  stop < 0 → py_slice l 0 stop = take (Z.to_nat (Z.of_nat (length l) + stop)) l.
Proof.
  intros Hstop. unfold py_slice, slice_index.
  rewrite (proj2 (Z.ltb_ge 0 0)) by done.
  rewrite (proj2 (Z.ltb_lt stop 0)) by done.
  rewrite Z.min_l by lia. rewrite drop_0. f_equal. lia.
Qed.

Lemma insert_descending_Permutation {A} (key : A → string) x l :
  insert_descending key x l ≡ₚ x :: l.
Proof.
  induction l as [|y l IH]; cbn [insert_descending]; [done|].
  destruct (String.leb (key y) (key x)); [done|].
  rewrite IH. apply Permutation_swap.
Qed.

Lemma sort_descending_Permutation {A} (key : A → string) l :
  sort_descending key l ≡ₚ l.
Proof.
  unfold sort_descending. induction l as [|x l IH]; cbn [foldr]; [done|].
  by rewrite insert_descending_Permutation, IH.
Qed.

Lemma insert_descending_Sorted {A} (key : A → string) x l :
  Sorted (λ a b, String.leb (key b) (key a) = true) l →
  Sorted (λ a b, String.leb (key b) (key a) = true) (insert_descending key x l).
Proof.
  induction 1 as [|y l Hsorted IH Hhead]; cbn [insert_descending].
  - by repeat constructor.
  - destruct (String.leb (key y) (key x)) eqn:Hleb.
    + constructor; [by constructor|]. by constructor.
    + assert (String.leb (key x) (key y) = true) as Hrev.
      { destruct (String.leb_total (key x) (key y)) as [?|Hyx]; [done|].
        by rewrite Hyx in Hleb. }
      constructor; [done|].
      destruct Hhead as [|z l Hz]; cbn [insert_descending].
      * by constructor.
      * destruct (String.leb (key z) (key x)); by constructor.
Qed.

Lemma sort_descending_Sorted {A} (key : A → string) l :
  Sorted (λ a b, String.leb (key b) (key a) = true) (sort_descending key l).
Proof.
  unfold sort_descending. induction l as [|x l IH]; cbn [foldr].
  - constructor.
  - by apply insert_descending_Sorted.
Qed.

Lemma Sorted_adjacent {A} (R : A → A → Prop) l i a b :
  Sorted R l → l !! i = Some a → l !! S i = Some b → R a b.
Proof.
  intros Hsorted. revert i.
  induction Hsorted as [|x l Hsorted IH Hhead]; intros i; [done|].
  destruct i as [|i]; cbn.
  - intros [= ->] Hb. destruct Hhead as [|y l Hxy]; [done|].
    cbn in Hb. by injection Hb as <-.
  - apply IH.
Qed.

Lemma insert_descending_stable {A} (key : A → string) (t : string) x l :
  filter (λ c, key c = t) (insert_descending key x l)
  = filter (λ c, key c = t) (x :: l).
Proof.
  induction l as [|y l IH]; cbn [insert_descending]; [done|].
  destruct (String.leb (key y) (key x)) eqn:Hleb; [done|].
  assert (key y ≠ key x) as Hne.
  { intros Heq. rewrite Heq in Hleb.
    destruct (String.leb_total (key x) (key x)); congruence. }
  rewrite (filter_cons _ y), IH, !(filter_cons _ x), (filter_cons _ y).
  destruct (decide (key x = t)) as [Hx|Hx]; [|done].
  destruct (decide (key y = t)) as [Hy|Hy]; [congruence|done].
Qed.

Lemma sort_descending_stable {A} (key : A → string) (t : string) l :
  filter (λ c, key c = t) (sort_descending key l) = filter (λ c, key c = t) l.
Proof.
  unfold sort_descending. induction l as [|x l IH]; cbn [foldr]; [done|].
  rewrite insert_descending_stable, !(filter_cons _ x), IH. done.
Qed.

(** X18. Paging through the calendars with a non-negative offset and
    limit: a page is the [limit] calendars after the first [offset]
    ones of the list ordered by date, so it has at most [limit]
    entries, it is empty from the number of stored calendars on, and a
    page followed by the next one is the page of both limits
    together. *)
Theorem list_calendars_pages limit offset store :
  0 ≤ offset → 0 ≤ limit →
  list_calendars limit offset store
  = take (Z.to_nat limit) (drop (Z.to_nat offset) (calendars_by_date store))
  ∧ (length (list_calendars limit offset store) ≤ Z.to_nat limit)%nat
  ∧ (Z.of_nat (length (Store.calendars_db store)) ≤ offset →
     list_calendars limit offset store = [])
  ∧ (∀ more, 0 ≤ more →
       list_calendars limit offset store
       ++ list_calendars more (offset + limit) store
       = list_calendars (limit + more) offset store).
Proof.
  intros Hoffset Hlimit.
  assert (∀ limit' offset', 0 ≤ offset' → 0 ≤ limit' →
            list_calendars limit' offset' store
            = take (Z.to_nat limit')
                (drop (Z.to_nat offset') (calendars_by_date store))) as Hpage.
  { intros limit' offset' ? ?. unfold list_calendars. by apply py_slice_page. }
  assert (length (calendars_by_date store) = length (Store.calendars_db store))
    as Hlength.
  { unfold calendars_by_date.
    by rewrite sort_descending_Permutation, length_fmap. }
  split_and!.
  - by apply Hpage.
  - rewrite Hpage by done. rewrite length_take. lia.
  - intros Hbeyond. rewrite Hpage by done.
    rewrite drop_ge by lia. apply take_nil.
  - intros more Hmore. rewrite !Hpage by lia.
    rewrite Z2Nat.inj_add by done. rewrite (Z2Nat.inj_add limit more) by done.
    rewrite <-drop_drop. generalize (drop (Z.to_nat offset) (calendars_by_date store)).
    intros l. generalize (Z.to_nat limit) (Z.to_nat more). clear.
    intros n m. revert l. induction n as [|n IH]; intros l.
    + by rewrite take_0, drop_0.
    + destruct l as [|x l]; cbn.
      * by rewrite !take_nil.
      * f_equal. apply IH.
Qed.

(** X19. [list_calendars] does not reject a negative limit: at offset
    0 it returns the calendars ordered by date without the last
    [-limit] of them, which is nothing only when no more than [-limit]
    calendars are stored. *)
Theorem list_calendars_negative_limit limit store :
  limit < 0 →
  let stored := Z.of_nat (length (Store.calendars_db store)) in
  list_calendars limit 0 store
  = take (Z.to_nat (stored + limit)) (calendars_by_date store)
  ∧ Z.of_nat (length (list_calendars limit 0 store)) = Z.max (stored + limit) 0.
Proof.
  intros Hlimit stored.
  assert (length (calendars_by_date store) = length (Store.calendars_db store))
    as Hlength.
  { unfold calendars_by_date.
    by rewrite sort_descending_Permutation, length_fmap. }
  assert (list_calendars limit 0 store
          = take (Z.to_nat (stored + limit)) (calendars_by_date store)) as Hpage.
  { unfold list_calendars. rewrite Z.add_0_l.
    fold (calendars_by_date store). rewrite py_slice_negative_stop by done.
    by rewrite Hlength. }
  split; [done|]. rewrite Hpage, length_take, Hlength. subst stored. lia.
Qed.

(** X20. The order of a listing: on a page with a non-negative offset
    and limit no calendar is followed by one generated later, and every
    calendar of the page is stored; the listing of everything is a
    rearrangement of the stored calendars in which those with the same
    [generated_at] keep the order in which they were stored. *)
Theorem list_calendars_order limit offset store :
  0 ≤ offset → 0 ≤ limit →
  let page := list_calendars limit offset store in
  let everything :=
    list_calendars (Z.of_nat (length (Store.calendars_db store))) 0 store in
  (∀ i a b, page !! i = Some a → page !! S i = Some b → not_older a b)
  ∧ (∀ calendar, calendar ∈ page → calendar ∈ (Store.calendars_db store).*2)
  ∧ everything ≡ₚ (Store.calendars_db store).*2
  ∧ (∀ t, filter (λ c, CalendarResponse.generated_at c = t) everything
          = filter (λ c, CalendarResponse.generated_at c = t)
              (Store.calendars_db store).*2).
Proof.
  intros Hoffset Hlimit page everything.
  assert (page = take (Z.to_nat limit)
                   (drop (Z.to_nat offset) (calendars_by_date store))) as Hpage.
  { subst page. unfold list_calendars. by apply py_slice_page. }
  assert (length (calendars_by_date store) = length (Store.calendars_db store))
    as Hlength.
  { unfold calendars_by_date.
    by rewrite sort_descending_Permutation, length_fmap. }
  assert (everything = calendars_by_date store) as Heverything.
  { subst everything. unfold list_calendars. rewrite Z.add_0_l.
    fold (calendars_by_date store). rewrite <-(Z.add_0_l (Z.of_nat _)).
    rewrite py_slice_page by lia. rewrite drop_0. apply take_ge. lia. }
  split_and!.
  - intros i a b Ha Hb. rewrite Hpage in Ha, Hb.
    apply lookup_take_Some in Ha as [Ha _]. apply lookup_take_Some in Hb as [Hb _].
    rewrite lookup_drop in Ha, Hb. rewrite Nat.add_succ_r in Hb.
    eapply (Sorted_adjacent (λ a b, not_older a b)); [|exact Ha|exact Hb].
    apply sort_descending_Sorted.
  - intros calendar Hin. rewrite Hpage in Hin.
    apply elem_of_take in Hin as (i & Hin & _).
    rewrite lookup_drop in Hin. apply list_elem_of_lookup_2 in Hin.
    unfold calendars_by_date in Hin.
    by rewrite sort_descending_Permutation in Hin.
  - rewrite Heverything. apply sort_descending_Permutation.
  - intros t. rewrite Heverything. apply sort_descending_stable.
Qed.

(** ** Pipeline failures as seen through the job status *)






End WebProperties.

(** * The claims on the example data

    Each lemma below instantiates one theorem at the reference datetime
    instance and the example data, and evaluates what it yields. *)

#[global] Existing Instance ReferenceDateTime.lib.

(** Facts about the example data used below. *)
Lemma qle_75_8 : (7.5 <= 8)%Q.
Proof. unfold Qle; cbn; lia. Defined.

Lemma demo_primaries_known :
  Forall (λ item, is_Some (make_personas_dict (RedditState.personas Demo.planned)
                           !! PostPlan.primary_persona item))
    (WeekPlan.posts Demo.plan).
Proof. apply (bool_decide_unpack _). vm_compute. exact I. Defined.

(** The content generator on the planned example, every call succeeding. *)
Lemma demo_steady_run :
  content_generator_agent (Demo.steady 8) Demo.planned
  = Returned Demo.steady_generated.
Proof. vm_compute. reflexivity. Defined.

(** C1 on the example: a first critique of 8 sends the run straight to
    content generation. *)
Lemma convergence_gate_rule_witness :
  should_refine_plan (Demo.critiqued 8) = Returned generate_content
  ∧ ∀ entry, entry ∈ (workflow_trace (Demo.steady 8) Demo.state0).1 →
             entry.1 ≠ refine_plan.
Proof.
  destruct (@convergence_gate_rule ReferenceDateTime.lib) as [Hgate Hrun]. split.
  - destruct (Hgate (Demo.critiqued 8) _ eq_refl) as (Hproceed & _ & _).
    apply Hproceed. exact qle_75_8.
  - apply (Hrun (Demo.steady 8) Demo.state0 (Demo.score 8) _ eq_refl eq_refl).
    exact qle_75_8.
Defined.

(** The critique of the example that scores 5 validates as it is. *)
Lemma demo_critique_5_valid :
  valid_critique Demo.template_down 1 = Some (score_fields (Demo.score 5)).
Proof. vm_compute. reflexivity. Defined.

Lemma demo_score_5_low :
  (QualityScore.overall_score (score_fields (Demo.score 5)) < 7.5)%Q.
Proof. unfold Qlt. cbn. lia. Defined.

(** C2 on the example: a critic that always answers 5 and a refinement
    prompt that does not parse; the same state with a prompt that
    parses. *)
Lemma refinement_iteration_unless_template_error_witness :
  refine_plan_agent (refine_template Demo.template_down) None (Demo.critiqued 5)
  = Raised ValueError
  ∧ (workflow_trace Demo.template_down Demo.state0).2 = Raised ValueError
  ∧ (workflow_trace Demo.template_down Demo.state0).1.*1 = [planner; plan_critic]
  ∧ Forall (λ entry, iteration_of entry = 0)
      (workflow_trace Demo.template_down Demo.state0).1
  ∧ ∃ state',
      refine_plan_agent (refine_template (Demo.steady 5)) None (Demo.critiqued 5)
      = Returned state'
      ∧ RedditState.refinement_iteration state'
        = RedditState.refinement_iteration (Demo.critiqued 5) + 1.
Proof.
  destruct (refinement_iteration_unless_template_error Demo.template_down
              Demo.company Demo.personas Demo.subreddits Demo.queries 3 1)
    as (Hraise & Hrun & _).
  destruct (refinement_iteration_unless_template_error (Demo.steady 5)
              Demo.company Demo.personas Demo.subreddits Demo.queries 3 1)
    as (Hrefine & _).
  split.
  { exact (Hraise None (Demo.critiqued 5) Demo.plan (score_fields (Demo.score 5))
             eq_refl eq_refl). }
  destruct (Hrun Demo.plan (score_fields (Demo.score 5)) eq_refl
              demo_critique_5_valid demo_score_5_low eq_refl)
    as (Hresult & Hnodes & Hzero).
  split; [exact Hresult|]. split; [exact Hnodes|]. split; [exact Hzero|].
  destruct (Hrefine None (Demo.critiqued 5) Demo.plan (score_fields (Demo.score 5))
              eq_refl eq_refl) as (state' & Heq & Hiter & _).
  exists state'. split; [exact Heq | exact Hiter].
Defined.

(** The example of the specification: of three items the second post
    call fails, and so does the first comment call of the first item. *)
Example second_post_fails_of_three :
  ∃ content,
    content_generator_agent Demo.faulty Demo.planned
    = Returned (RedditState.set_generated_content content Demo.planned)
    ∧ RedditPost.post_id <$> GeneratedContent.posts content = ["P1"; "P3"]
    ∧ (∀ c, c ∈ GeneratedContent.comments content →
            RedditComment.post_id c ≠ post_id_of 1)
    ∧ RedditComment.comment_text
        <$> filter (λ c, RedditComment.post_id c = post_id_of 0)
              (GeneratedContent.comments content)
      = ["same here"].
Proof.
  destruct (content_generator_agent Demo.faulty Demo.planned) as [e|s] eqn:Hrun;
    vm_compute in Hrun; [discriminate Hrun|].
  injection Hrun as <-. eexists. split; [reflexivity|].
  split; [vm_compute; reflexivity|]. split.
  - apply Forall_forall. apply (bool_decide_unpack _). vm_compute. exact I.
  - vm_compute. reflexivity.
Defined.

(** C3 on the example where the code departs from the claim: of three
    commenters the second is not in the roster; every call answers, and
    the post gets the comment of the first commenter alone, not that of
    the third. *)
Lemma content_generation_fault_isolation_witness :
  RedditState.strategic_plan WebDemo.ghost_planned = Some WebDemo.ghost_plan
  ∧ PostPlan.commenting_personas WebDemo.ghost_item
    = ["jordan_consults"; "ghost_account"; "emily_econ"]
  ∧ is_Some (make_personas_dict Demo.personas !! "emily_econ")
  ∧ is_Some (comment_at (Demo.steady 8) 0 2)
  ∧ ∃ content,
      content_generator_agent (Demo.steady 8) WebDemo.ghost_planned
      = Returned (RedditState.set_generated_content content WebDemo.ghost_planned)
      ∧ RedditPost.post_id <$> GeneratedContent.posts content = ["P1"]
      ∧ (length (filter (λ c, RedditComment.post_id c = post_id_of 0)
                   (GeneratedContent.comments content)) ≤ 1)%nat
      ∧ RedditComment.comment_text
          <$> filter (λ c, RedditComment.post_id c = post_id_of 0)
                (GeneratedContent.comments content)
        = ["same here"].
Proof.
  split; [reflexivity|]. split; [reflexivity|].
  split; [eexists; vm_compute; reflexivity|].
  split; [eexists; reflexivity|].
  destruct (content_generation_fault_isolation (Demo.steady 8)
              WebDemo.ghost_planned WebDemo.ghost_plan eq_refl)
    as (content & Heq & Hposts & Hitems).
  { apply (bool_decide_unpack _). vm_compute. exact I. }
  exists content. split; [exact Heq|].
  split; [rewrite Hposts; vm_compute; reflexivity|].
  destruct (Hitems 0%nat WebDemo.ghost_item eq_refl) as [_ Hok].
  destruct (Hok (ReferenceDateTime.mk 2024 1 1 9 0)) as (_ & Htexts & Hcap).
  - eexists. reflexivity.
  - vm_compute. reflexivity.
  - split.
    + apply (Hcap 1%nat "ghost_account"); [reflexivity|]. vm_compute. reflexivity.
    + rewrite Htexts. vm_compute. reflexivity.
Defined.

(** C4 on the example: the first post and its first comment. *)
Lemma post_and_top_level_comment_timestamps_witness :
  content_generator_agent (Demo.steady 8) Demo.planned
  = Returned Demo.steady_generated
  ∧ ∃ post comment,
      post ∈ GeneratedContent.posts Demo.steady_content
      ∧ GeneratedContent.comments Demo.steady_content !! 0%nat = Some comment
      ∧ RedditPost.post_id post = RedditComment.post_id comment
      ∧ RedditPost.timestamp post = "2024-01-01 09:00"
      ∧ RedditComment.delay_minutes comment = 20
      ∧ RedditComment.timestamp comment = "2024-01-01 09:20".
Proof.
  split; [exact demo_steady_run|].
  destruct (post_and_top_level_comment_timestamps (Demo.steady 8) Demo.planned
              Demo.steady_generated demo_steady_run)
    as (plan & content & Hplan & Hcontent & _ & _ & _ & Htop).
  injection Hcontent as <-.
  destruct (GeneratedContent.comments Demo.steady_content !! 0%nat)
    as [comment|] eqn:Hcomment; [|discriminate Hcomment].
  destruct (Htop comment) as (post & i & item & pt & ct & Hin & Hid & _).
  { by eapply list_elem_of_lookup_2. }
  { vm_compute in Hcomment. by injection Hcomment as <-. }
  vm_compute in Hcomment. injection Hcomment as <-.
  exists post, (RedditComment.mk "C1" "P1" None "same here" "jordan_consults"
                  "2024-01-01 09:20" 20).
  split; [exact Hin|]. split; [reflexivity|]. split; [exact Hid|].
  split; [|split; reflexivity].
  vm_compute in Hin.
  repeat (apply elem_of_cons in Hin as [-> | Hin]; [by (reflexivity || discriminate Hid)|]).
  by apply elem_of_nil in Hin.
Defined.

(** C5 on the example: the planner call fails. *)
Lemma planner_failure_is_absorbed_witness :
  plan_at Demo.planner_down 0 = None
  ∧ planner_agent (plan_at Demo.planner_down 0) Demo.state0 = Returned Demo.state0
  ∧ generate_reddit_calendar Demo.planner_down
      Demo.company Demo.personas Demo.subreddits Demo.queries 3 1
    = Raised (KeyError "strategic_plan").
Proof.
  split; [reflexivity|].
  destruct (planner_failure_is_absorbed Demo.planner_down
              Demo.company Demo.personas Demo.subreddits Demo.queries 3 1 eq_refl)
    as (Hplanner & _ & _ & Hcalendar).
  split; [exact Hplanner | exact Hcalendar].
Defined.

(** C9 on the example: the first plan critique fails. *)
Lemma critic_failure_aborts_run_witness :
  plan_at Demo.critic_down 0 = Some Demo.plan
  ∧ critique_at Demo.critic_down 1 = None
  ∧ plan_critic_agent (critique_at Demo.critic_down 1) Demo.planned
    = Returned Demo.planned
  ∧ generate_reddit_calendar Demo.critic_down
      Demo.company Demo.personas Demo.subreddits Demo.queries 3 1
    = Raised (KeyError "quality_score").
Proof.
  split; [reflexivity|]. split; [reflexivity|].
  destruct (critic_failure_aborts_run Demo.critic_down
              Demo.company Demo.personas Demo.subreddits Demo.queries 3 1 Demo.plan
              eq_refl eq_refl)
    as (Hcritic & _ & _ & _ & Hcalendar).
  split; [exact Hcritic | exact Hcalendar].
Defined.

(** C8 on the example: the bundle before the final critic, and a run
    whose final critique fails. *)
Lemma placeholder_score_until_final_critic_witness :
  content_generator_agent (Demo.steady 8) Demo.planned
  = Returned Demo.steady_generated
  ∧ GeneratedContent.quality_assessment Demo.steady_content
    = QualityScore.mk 0 0 0 0 0 [] []
  ∧ final_critic_agent None Demo.steady_generated
    = Returned (RedditState.set_final_content Demo.steady_content
                  Demo.steady_generated)
  ∧ ∃ content step,
      generate_reddit_calendar Demo.final_critic_down
      Demo.company Demo.personas Demo.subreddits Demo.queries 3 1
    = Returned content
      ∧ GeneratedContent.quality_assessment content
        = default QualityScore.placeholder
            (critique_at Demo.final_critic_down step
             ≫= (λ r, QualityScore.validate (score_fields r))).
Proof.
  destruct (placeholder_score_until_final_critic Demo.final_critic_down)
    as (_ & _ & _ & Hrun).
  destruct (placeholder_score_until_final_critic (Demo.steady 8))
    as (Hgen & Hfail & _ & _).
  split; [exact demo_steady_run|].
  destruct (Hgen Demo.planned Demo.steady_generated demo_steady_run)
    as (content & Hcontent & Hscore).
  injection Hcontent as <-.
  split; [exact Hscore|].
  split; [exact (Hfail None Demo.steady_generated Demo.steady_content eq_refl eq_refl)|].
  destruct (generate_reddit_calendar Demo.final_critic_down
      Demo.company Demo.personas Demo.subreddits Demo.queries 3 1) as [e|content] eqn:Hcalendar;
    [vm_compute in Hcalendar; discriminate Hcalendar|].
  destruct (Hrun Demo.company Demo.personas Demo.subreddits Demo.queries 3 1
              content Hcalendar) as (step & Hstep).
  exists content, step. split; [reflexivity | exact Hstep].
Defined.

(** No persona of the example roster is called [strategic_plan]. *)
Lemma demo_roster_lacks_odd_persona p :
  p ∈ RedditState.personas Demo.odd_planned →
  Persona.username p ≠ PostPlan.primary_persona Demo.odd_item.
Proof.
  revert p. apply Forall_forall. apply (bool_decide_unpack _). vm_compute. exact I.
Defined.

(** C10 on the example: the second item names an unknown primary
    persona. *)
Lemma unknown_primary_persona_aborts_stage_witness :
  RedditState.strategic_plan Demo.odd_planned = Some Demo.odd_plan
  ∧ Demo.odd_item ∈ WeekPlan.posts Demo.odd_plan
  ∧ ∃ item',
      item' ∈ WeekPlan.posts Demo.odd_plan
      ∧ (∀ p, p ∈ RedditState.personas Demo.odd_planned →
              Persona.username p ≠ PostPlan.primary_persona item')
      ∧ content_generator_agent (Demo.steady 8) Demo.odd_planned
        = Raised (KeyError (PostPlan.primary_persona item')).
Proof.
  assert (Demo.odd_item ∈ WeekPlan.posts Demo.odd_plan) as Hin.
  { apply elem_of_cons. right. apply elem_of_cons. left. reflexivity. }
  split; [reflexivity|]. split; [exact Hin|].
  exact (unknown_primary_persona_aborts_stage (Demo.steady 8) Demo.odd_planned
           Demo.odd_plan Demo.odd_item eq_refl Hin demo_roster_lacks_odd_persona).
Defined.

(** C7 on the example: the second comment replies to the first. *)
Lemma parent_comment_created_earlier_witness :
  content_generator_agent (Demo.steady 8) Demo.planned
  = Returned Demo.steady_generated
  ∧ ∃ comment idx' parent,
      GeneratedContent.comments Demo.steady_content !! 1%nat = Some comment
      ∧ RedditComment.parent_comment_id comment = Some "C1"
      ∧ (idx' < 1)%nat
      ∧ GeneratedContent.comments Demo.steady_content !! idx' = Some parent
      ∧ RedditComment.comment_id parent = "C1"
      ∧ RedditComment.post_id parent = RedditComment.post_id comment.
Proof.
  split; [exact demo_steady_run|].
  destruct (GeneratedContent.comments Demo.steady_content !! 1%nat)
    as [comment|] eqn:Hcomment; [|discriminate Hcomment].
  assert (RedditComment.parent_comment_id comment = Some "C1") as Hpid.
  { vm_compute in Hcomment. by injection Hcomment as <-. }
  destruct (parent_comment_created_earlier (Demo.steady 8) Demo.planned
              Demo.steady_generated Demo.steady_content demo_steady_run eq_refl
              1%nat comment "C1" Hcomment Hpid)
    as (idx' & parent & Hlt & Hparent & Hid & Hpost & _).
  exists comment, idx', parent.
  split; [reflexivity|]. split; [exact Hpid|]. split; [exact Hlt|].
  split; [exact Hparent|]. split; [exact Hid | exact Hpost].
Defined.

(** ** Where the code departs from the specification *)

(** C4, counterexample.  A comment call that answers a delay of -45 puts
    a comment with [delay_minutes = -45] in the output, stamped before
    its post; one that answers 100000 is kept as it is. *)
Lemma comment_delay_not_positive :
  content_generator_agent Demo.erratic Demo.planned
  = Returned (RedditState.set_generated_content Demo.erratic_content Demo.planned)
  ∧ ∃ post first second,
      GeneratedContent.posts Demo.erratic_content !! 0%nat = Some post
      ∧ GeneratedContent.comments Demo.erratic_content !! 0%nat = Some first
      ∧ GeneratedContent.comments Demo.erratic_content !! 1%nat = Some second
      ∧ RedditComment.post_id first = RedditPost.post_id post
      ∧ RedditPost.timestamp post = "2024-01-01 09:00"
      ∧ ¬ (0 < RedditComment.delay_minutes first)
      ∧ RedditComment.delay_minutes first = -45
      ∧ RedditComment.timestamp first = "2024-01-01 08:15"
      ∧ RedditComment.delay_minutes second = 100000.
Proof.
  split; [vm_compute; reflexivity|].
  do 3 eexists.
  split; [vm_compute; reflexivity|].
  split; [vm_compute; reflexivity|].
  split; [vm_compute; reflexivity|].
  split; [reflexivity|]. split; [reflexivity|].
  split; [cbn; lia|].
  split; [reflexivity|]. split; reflexivity.
Qed.

(** A threaded comment is stamped from its post, like a top-level one:
    here the reply to the comment of 09:20 answers a delay of 40 and is
    stamped 09:40. *)
Example threaded_comment_stamped_from_post :
  ∃ parent reply,
    GeneratedContent.comments Demo.steady_content !! 0%nat = Some parent
    ∧ GeneratedContent.comments Demo.steady_content !! 1%nat = Some reply
    ∧ RedditComment.parent_comment_id reply = Some (RedditComment.comment_id parent)
    ∧ RedditComment.timestamp parent = "2024-01-01 09:20"
    ∧ RedditComment.delay_minutes reply = 40
    ∧ RedditComment.timestamp reply = "2024-01-01 09:40".
Proof.
  do 2 eexists.
  split; [vm_compute; reflexivity|].
  split; [vm_compute; reflexivity|].
  repeat split; reflexivity.
Qed.

(** C6, counterexample.  Two runs of the entry point stop in different
    stages (one in the plan critic, after the planner alone completed;
    the other in the content generator, after the planner and the plan
    critic completed) and return the same exception, which names no
    stage. *)
Lemma error_does_not_identify_stage :
  Demo.calendar Demo.planner_down = Raised (KeyError "strategic_plan")
  ∧ Demo.calendar Demo.odd_persona = Raised (KeyError "strategic_plan")
  ∧ (workflow_trace Demo.planner_down Demo.state0).1.*1 = [planner]
  ∧ (workflow_trace Demo.odd_persona Demo.state0).1.*1 = [planner; plan_critic].
Proof. repeat split; vm_compute; reflexivity. Qed.

(** The run of the specification's example: with a critic that always
    answers 5 the refinement node runs exactly twice, then content is
    generated. *)
Example two_refinements_then_content :
  (workflow_trace (Demo.steady 5) Demo.state0).1.*1
  = [planner; plan_critic; refine_plan; plan_critic; refine_plan; plan_critic;
     generate_content; final_critic].
Proof. vm_compute. reflexivity. Qed.

(** * Further properties on the example data *)

Lemma demo_never_converges : never_converges (Demo.steady 5).
Proof.
  intros step r quality Hr Hquality. injection Hr as <-.
  vm_compute in Hquality. injection Hquality as <-.
  unfold Qlt. cbn. lia.
Defined.

(** X2 on the example: a critic that always answers 5. *)
Lemma low_scores_use_both_refinements_witness :
  ∃ tail,
    (workflow_trace (Demo.steady 5) Demo.state0).1.*1
    = [planner; plan_critic; refine_plan; plan_critic; refine_plan; plan_critic]
      ++ tail
    ∧ ∀ node, node ∈ tail → node = generate_content ∨ node = final_critic.
Proof.
  apply (low_scores_use_both_refinements (Demo.steady 5)
           Demo.company Demo.personas Demo.subreddits Demo.queries 3 1 Demo.plan).
  - reflexivity.
  - exists (score_fields (Demo.score 5)). vm_compute. reflexivity.
  - exact demo_never_converges.
  - intros quality plan. eexists. reflexivity.
Defined.

(** The entry point on the example, every call succeeding. *)
Lemma demo_calendar_returned :
  ∃ content,
    generate_reddit_calendar (Demo.steady 8) Demo.company Demo.personas
      Demo.subreddits Demo.queries 3 1 = Returned content.
Proof.
  destruct (generate_reddit_calendar (Demo.steady 8) Demo.company Demo.personas
              Demo.subreddits Demo.queries 3 1) as [e|content] eqn:Hcalendar.
  - vm_compute in Hcalendar. discriminate Hcalendar.
  - exists content. reflexivity.
Defined.

(** X3 on the example. *)
Lemma returned_score_within_bounds_witness :
  ∃ content,
    generate_reddit_calendar (Demo.steady 8) Demo.company Demo.personas
      Demo.subreddits Demo.queries 3 1 = Returned content
    ∧ score_within_bounds (GeneratedContent.quality_assessment content).
Proof.
  destruct demo_calendar_returned as [content Hcalendar].
  exists content. split; [exact Hcalendar|].
  exact (returned_score_within_bounds (Demo.steady 8) Demo.company Demo.personas
           Demo.subreddits Demo.queries 3 1 content Hcalendar).
Defined.

(** X4 on the example. *)
Lemma returned_bundle_from_answered_plan_witness :
  ∃ content step plan,
    generate_reddit_calendar (Demo.steady 8) Demo.company Demo.personas
      Demo.subreddits Demo.queries 3 1 = Returned content
    ∧ plan_at (Demo.steady 8) step = Some plan.
Proof.
  destruct demo_calendar_returned as [content Hcalendar].
  destruct (returned_bundle_from_answered_plan (Demo.steady 8) Demo.company
              Demo.personas Demo.subreddits Demo.queries 3 1 content Hcalendar)
    as (step & plan & state & state' & generated & Hplan & _).
  exists content, step, plan. split; [exact Hcalendar | exact Hplan].
Defined.


(** X7 on the example. *)
Lemma identifiers_are_sequential_witness :
  (∀ k comment,
     GeneratedContent.comments Demo.steady_content !! k = Some comment →
     RedditComment.comment_id comment = "C" +:+ pretty (k + 1)%nat)
  ∧ NoDup (RedditPost.post_id <$> GeneratedContent.posts Demo.steady_content)
  ∧ NoDup (RedditComment.comment_id
             <$> GeneratedContent.comments Demo.steady_content).
Proof.
  destruct (identifiers_are_sequential (Demo.steady 8) Demo.planned
              Demo.steady_generated Demo.steady_content demo_steady_run eq_refl)
    as (Hcomments & _ & Hposts & Hids).
  split; [exact Hcomments|]. split; [exact Hposts | exact Hids].
Defined.

(** X8 on the example: the first comment. *)
Lemma comments_belong_to_posts_witness :
  ∃ comment k post,
    GeneratedContent.comments Demo.steady_content !! 0%nat = Some comment
    ∧ GeneratedContent.posts Demo.steady_content !! k = Some post
    ∧ RedditPost.post_id post = RedditComment.post_id comment.
Proof.
  destruct (GeneratedContent.comments Demo.steady_content !! 0%nat)
    as [comment|] eqn:Hcomment; [|discriminate Hcomment].
  destruct (comments_belong_to_posts (Demo.steady 8) Demo.planned
              Demo.steady_generated Demo.steady_content comment demo_steady_run
              eq_refl (list_elem_of_lookup_2 _ _ _ Hcomment))
    as (k & post & Hpost & Hid & _).
  exists comment, k, post. split; [reflexivity|]. split; [exact Hpost | exact Hid].
Defined.

(** X9 on the example: the second comment replies to the first. *)
Lemma parent_is_latest_on_post_witness :
  ∃ comment,
    GeneratedContent.comments Demo.steady_content !! 1%nat = Some comment
    ∧ parent_latest (GeneratedContent.comments Demo.steady_content) 1 comment.
Proof.
  destruct (GeneratedContent.comments Demo.steady_content !! 1%nat)
    as [comment|] eqn:Hcomment; [|discriminate Hcomment].
  exists comment. split; [reflexivity|].
  exact (parent_is_latest_on_post (Demo.steady 8) Demo.planned
           Demo.steady_generated Demo.steady_content demo_steady_run eq_refl
           1%nat comment Hcomment).
Defined.

(** X10 on the example. *)
Lemma authors_come_from_plan_and_roster_witness :
  ∃ plan,
    RedditState.strategic_plan Demo.planned = Some plan
    ∧ (∀ post, post ∈ GeneratedContent.posts Demo.steady_content →
               post_by_primary (RedditState.personas Demo.planned)
                 (WeekPlan.posts plan) post)
    ∧ (∀ comment, comment ∈ GeneratedContent.comments Demo.steady_content →
                  comment_by_commenter (RedditState.personas Demo.planned)
                    (WeekPlan.posts plan) comment).
Proof.
  exact (authors_come_from_plan_and_roster (Demo.steady 8) Demo.planned
           Demo.steady_generated Demo.steady_content demo_steady_run eq_refl).
Defined.

Lemma demo_ghost_primaries_known :
  Forall (λ item, is_Some (make_personas_dict
                             (RedditState.personas WebDemo.ghost_planned)
                           !! PostPlan.primary_persona item))
    (WeekPlan.posts WebDemo.ghost_plan).
Proof. apply (bool_decide_unpack _). vm_compute. exact I. Defined.

(** X11 on the example: of three commenters the second is not in the
    roster, and the post gets the comment of the first alone. *)
Lemma unknown_commenter_ends_the_thread_witness :
  ∃ content,
    content_generator_agent (Demo.steady 8) WebDemo.ghost_planned
    = Returned (RedditState.set_generated_content content WebDemo.ghost_planned)
    ∧ (∃ post, post ∈ GeneratedContent.posts content
               ∧ RedditPost.post_id post = post_id_of 0)
    ∧ RedditComment.comment_text
        <$> filter (λ c, RedditComment.post_id c = post_id_of 0)
              (GeneratedContent.comments content)
      = ["same here"].
Proof.
  destruct (unknown_commenter_ends_the_thread (Demo.steady 8)
              WebDemo.ghost_planned WebDemo.ghost_plan eq_refl
              demo_ghost_primaries_known) as (content & Hrun & Hitems).
  exists content. split; [exact Hrun|].
  destruct (Hitems 0%nat WebDemo.ghost_item (ReferenceDateTime.mk 2024 1 1 9 0)
              eq_refl) as [Hpost Htexts].
  - eexists. reflexivity.
  - vm_compute. reflexivity.
  - split; [exact Hpost|]. rewrite Htexts. vm_compute. reflexivity.
Defined.

(** X16 on the example: a request on the empty store with a configured
    key, every call of the pipeline succeeding. *)
Lemma job_lifecycle_witness :
  "gsk_example" ≠ ""
  ∧ ∃ job store1 store2 job2,
      generate_calendar (Some "gsk_example") "20240106_080000" "0d0d0d0d"
        "2024-01-06T08:00:00" Store.empty
      = Success (job, store1)
      ∧ process_calendar_generation (Demo.steady 8) WebDemo.str_of
          (JobResponse.job_id job) WebDemo.request "20240106_080500" "0e0e0e0e"
          "2024-01-06T08:05:00" "2024-01-06T08:05:01" store1
        = Returned store2
      ∧ get_job_status (JobResponse.job_id job) store2 = Success job2
      ∧ JobResponse.completed_at job2 = Some "2024-01-06T08:05:01".
Proof.
  assert ("gsk_example" ≠ "") as Hkey by discriminate.
  split; [exact Hkey|].
  destruct (job_lifecycle (Demo.steady 8) WebDemo.str_of "gsk_example"
              WebDemo.request "20240106_080000" "0d0d0d0d" "2024-01-06T08:00:00"
              "20240106_080500" "0e0e0e0e" "2024-01-06T08:05:00"
              "2024-01-06T08:05:01" Store.empty Hkey)
    as (job & store1 & store2 & job2 & Hgenerate & _ & _ & Hprocess & Hstatus
        & _ & _ & Hcompleted & _).
  exists job, store1, store2, job2.
  split; [exact Hgenerate|]. split; [exact Hprocess|].
  split; [exact Hstatus | exact Hcompleted].
Defined.

(** X18 on the example: the second page of size one, and two pages
    against one. *)
Lemma list_calendars_pages_witness :
  0 ≤ 1 ∧ 0 ≤ 1
  ∧ list_calendars 1 1 WebDemo.store = [WebDemo.wednesday]
  ∧ list_calendars 1 1 WebDemo.store ++ list_calendars 1 (1 + 1) WebDemo.store
    = list_calendars (1 + 1) 1 WebDemo.store.
Proof.
  assert (0 ≤ 1) as Hpos by lia.
  destruct (list_calendars_pages 1 1 WebDemo.store Hpos Hpos)
    as (Hpage & _ & _ & Hpages).
  split; [exact Hpos|]. split; [exact Hpos|].
  split; [rewrite Hpage; vm_compute; reflexivity|].
  exact (Hpages 1 Hpos).
Defined.

(** X19 on the example: a limit of -1 returns two of the three
    calendars. *)
Lemma list_calendars_negative_limit_witness :
  -1 < 0
  ∧ list_calendars (-1) 0 WebDemo.store = [WebDemo.friday; WebDemo.wednesday].
Proof.
  assert (-1 < 0) as Hneg by lia.
  split; [exact Hneg|].
  destruct (list_calendars_negative_limit (-1) WebDemo.store Hneg) as [Hpage _].
  rewrite Hpage. vm_compute. reflexivity.
Defined.

(** X20 on the example: the first page of size two. *)
Lemma list_calendars_order_witness :
  0 ≤ 0 ∧ 0 ≤ 2
  ∧ list_calendars 2 0 WebDemo.store !! 0%nat = Some WebDemo.friday
  ∧ list_calendars 2 0 WebDemo.store !! 1%nat = Some WebDemo.wednesday
  ∧ not_older WebDemo.friday WebDemo.wednesday.
Proof.
  assert (0 ≤ 0) as Hoffset by lia.
  assert (0 ≤ 2) as Hlimit by lia.
  assert (list_calendars 2 0 WebDemo.store !! 0%nat = Some WebDemo.friday)
    as Hfirst by (vm_compute; reflexivity).
  assert (list_calendars 2 0 WebDemo.store !! 1%nat = Some WebDemo.wednesday)
    as Hsecond by (vm_compute; reflexivity).
  destruct (list_calendars_order 2 0 WebDemo.store Hoffset Hlimit)
    as (Hsorted & _).
  split; [exact Hoffset|]. split; [exact Hlimit|].
  split; [exact Hfirst|]. split; [exact Hsecond|].
  exact (Hsorted 0%nat WebDemo.friday WebDemo.wednesday Hfirst Hsecond).
Defined.

